(** * OpenARK hand detection: Hand.cpp and HandClassifier.cpp

    A shallow embedding of [ark::Hand] (the geometric hand test
    [checkForHand]) and of [ark::classifier::HandClassifier] /
    [SVMHandClassifier] (feature extraction and the SVM ensemble).

    Numbers are modelled as the code has them: C++ [double] is Rocq's
    primitive binary64 [float] (so NaN, the infinities and the comparison
    rules of IEEE 754 are the real ones), a C++ [float] is a [float] that
    went through [to_float32], and [int] is [Z].  The geometry helpers of
    Util.cpp, the FrameObject base class and OpenCV are not part of the
    sources; they are the fields of the record [Util], over which every
    definition is parametrised.

    The file has two parts: the model, which follows the two source files
    function by function and ends with a small scene to run it on, and the
    properties proved about it. *)

From Stdlib Require Import ZArith List Lia Bool Permutation Sorted.
From Stdlib Require Import Floats.
From Stdlib Require Uint63.
From Stdlib Require String DecimalString Ascii.
Import ListNotations.
Set Warnings "-inexact-float".

Local Open Scope Z_scope.

(** ** Numbers *)

Definition FLT_MAX : float := 0x1.fffffep127%float.
Definition DBL_MAX : float := 0x1.fffffffffffffp1023%float.
Definition INT_MIN : Z := - 2147483648.
Definition INT_MAX : Z := 2147483647.

(** The cast [(float) x] of a double: round to nearest even in binary32. *)
Definition to_float32 (x : float) : float :=
  match Prim2SF x with
  | S754_finite s m e =>
      SF2Prim (binary_normalize 24 128 (if s then Z.neg m else Z.pos m) e s)
  | _ => x
  end.

(** The cast [(int) x] of a double: truncation toward zero.  Outside the
    range of [int] (and for NaN) C++ leaves the result undefined; the model
    returns what x86's cvttsd2si does, [INT_MIN]. *)
Definition int_of_double (x : float) : Z :=
  match Prim2SF x with
  | S754_zero _ => 0
  | S754_finite s m e =>
      let a := if 0 <=? e then Z.shiftl (Z.pos m) e else Z.shiftr (Z.pos m) (- e) in
      let t := if s then - a else a in
      if (INT_MIN <=? t) && (t <=? INT_MAX) then t else INT_MIN
  | _ => INT_MIN
  end.

(** The conversion of an [int] to double (exact). *)
Definition double_of_int (z : Z) : float :=
  if z <? 0 then (- of_uint63 (Uint63.of_Z (- z)))%float
  else of_uint63 (Uint63.of_Z z).

(** [isnan], [std::min] and [std::max] on doubles, as <algorithm> defines
    them: [min(a,b) = (b < a) ? b : a] and [max(a,b) = (a < b) ? b : a]. *)
Definition isnan (x : float) : bool := negb (x =? x)%float.
Definition std_min (a b : float) : float := if (b <? a)%float then b else a.
Definition std_max (a b : float) : float := if (a <? b)%float then b else a.

(** [a > b] and [a >= b] on doubles. *)
Definition fgt (a b : float) : bool := (b <? a)%float.
Definition fge (a b : float) : bool := (b <=? a)%float.

(** Single precision arithmetic, for expressions whose operands are all
    [float]: the double result rounded once more. *)
Definition sub32 (a b : float) : float := to_float32 (a - b)%float.
Definition add32 (a b : float) : float := to_float32 (a + b)%float.
Definition mul32 (a b : float) : float := to_float32 (a * b)%float.
Definition sqrtf (a : float) : float := to_float32 (PrimFloat.sqrt a).

(** ** Geometry types *)

Record Point2i := mkPoint { px : Z; py : Z }.
Record Vec3f := mkVec3 { v0 : float; v1 : float; v2 : float }.
Record Vec4i := mkVec4 { d0 : Z; d1 : Z; d2 : Z; d3 : Z }.
Record Size := mkSize { width : Z; height : Z }.
Record Rect := mkRect { rect_x : Z; rect_y : Z; rect_width : Z; rect_height : Z }.

(** A depth window ([cv::Mat] of [Vec3f]). *)
Record Mat := mkMat { rows : Z; cols : Z; at3 : Z -> Z -> Vec3f }.

Definition padd (a b : Point2i) : Point2i := mkPoint (px a + px b) (py a + py b).
Definition psub (a b : Point2i) : Point2i := mkPoint (px a - px b) (py a - py b).

Definition vadd (a b : Vec3f) : Vec3f :=
  mkVec3 (add32 (v0 a) (v0 b)) (add32 (v1 a) (v1 b)) (add32 (v2 a) (v2 b)).
Definition vsub (a b : Vec3f) : Vec3f :=
  mkVec3 (sub32 (v0 a) (v0 b)) (sub32 (v1 a) (v1 b)) (sub32 (v2 a) (v2 b)).
Definition vdiv (a : Vec3f) (k : float) : Vec3f :=
  mkVec3 (to_float32 (v0 a / k)) (to_float32 (v1 a / k)) (to_float32 (v2 a / k)).

Definition origin : Point2i := mkPoint 0 0.
Definition vzero : Vec3f := mkVec3 0%float 0%float 0%float.

(** Indexing [v[i]] with an [int]; the default stands for a read outside
    the vector, which the code never guards against. *)
Definition zlen {A} (l : list A) : Z := Z.of_nat (length l).
Definition at_ {A} (d : A) (l : list A) (i : Z) : A :=
  if i <? 0 then d else nth (Z.to_nat i) l d.
Definition iota (n : Z) : list Z := map Z.of_nat (seq 0 (Z.to_nat n)).

(** ** Detection parameters (ObjectParams.h) *)

Record ObjectParams := {
  xyzAverageSize : Z;
  bottomEdgeThresh : Z;
  sideEdgeThresh : Z;
  handMinArea : float;
  handMaxArea : float;
  handRequireEdgeConnected : bool;
  handEdgeConnectMaxY : float;
  handUseSVM : bool;
  handSVMConfidenceThresh : float;
  centerMaxDistFromTop : float;
  contactBotEdgeThresh : Z;
  contactSideEdgeThresh : Z;
  wristWidthMin : float;
  wristWidthMax : float;
  wristCenterDistThresh : float;
  fingerLenMin : float;
  fingerLenMax : float;
  fingerDistMin : float;
  fingerDefectSlopeMin : float;
  fingerCenterSlopeMin : float;
  fingerCurveNearMin : float;
  fingerCurveNearMax : float;
  fingerCurveFarMin : float;
  fingerCurveFarMax : float;
  singleFingerLenMin : float;
  singleFingerLenMax : float;
  singleFingerAngleThresh : float;
  defectMaxAngle : float;
  defectMinDist : float;
  defectFarCenterMinDist : float;
  defectFarCenterMaxDist : float;
  defectStartEndMinDist : float;
  defectMaxYFromCenter : Z;
  centroidDefectFingerAngleMin : float
}.

Definition PI : float := 0x1.921fb54442d18p1%float.

(** The member initialisers of ObjectParams ([float] members are rounded
    to single precision). *)
Definition DEFAULT : ObjectParams := {|
  xyzAverageSize := 9;
  bottomEdgeThresh := 10;
  sideEdgeThresh := 10;
  handMinArea := 0.01;
  handMaxArea := 0.056;
  handRequireEdgeConnected := false;
  handEdgeConnectMaxY := 0.50;
  handUseSVM := true;
  handSVMConfidenceThresh := 0.45;
  centerMaxDistFromTop := to_float32 0.155;
  contactBotEdgeThresh := 8;
  contactSideEdgeThresh := 25;
  wristWidthMin := to_float32 0.030;
  wristWidthMax := to_float32 0.085;
  wristCenterDistThresh := 0.075;
  fingerLenMin := 0.014;
  fingerLenMax := 0.125;
  fingerDistMin := 0.01;
  fingerDefectSlopeMin := -1.0;
  fingerCenterSlopeMin := -0.45;
  fingerCurveNearMin := 0.95;
  fingerCurveNearMax := 2.80;
  fingerCurveFarMin := 0.05;
  fingerCurveFarMax := 1.20;
  singleFingerLenMin := 0.04;
  singleFingerLenMax := 0.11;
  singleFingerAngleThresh := 0.08;
  defectMaxAngle := 0.70 * PI;
  defectMinDist := 0.02;
  defectFarCenterMinDist := 0.01;
  defectFarCenterMaxDist := 0.105;
  defectStartEndMinDist := 0.01;
  defectMaxYFromCenter := 30;
  centroidDefectFingerAngleMin := 0.40 * PI
|}%float.

(** ** The Hand object

    The members of FrameObject that Hand.cpp reads or writes, followed by
    the members of Hand itself. *)

Record Hand := mkHand {
  points : list Point2i;
  points_xyz : list Vec3f;
  num_points : Z;
  xyzMap : Mat;
  topLeftPt : Point2i;
  fullMapSize : Size;
  params : ObjectParams;
  contour : list Point2i;
  convexHull : list Point2i;
  indexHull : list Z;
  surfaceArea : float;
  leftEdgeConnected : bool;
  rightEdgeConnected : bool;
  palmCenterIJ : Point2i;
  palmCenterXYZ : Vec3f;
  circleRadius : float;
  wristIJ : list Point2i;
  wristXYZ : list Vec3f;
  fingersIJ : list Point2i;
  fingersXYZ : list Vec3f;
  defectsIJ : list Point2i;
  defectsXYZ : list Vec3f;
  isHand : bool;
  svmConfidence : float
}.

(** A Hand as the constructors leave it before [initializeObject] runs:
    the cluster is stored, every landmark vector is empty. *)
Definition newHand (pts : list Point2i) (xyz : list Vec3f) (n : Z) (m : Mat)
    (tl : Point2i) (sz : Size) (p : ObjectParams) (l r : bool) : Hand :=
  mkHand pts xyz n m tl sz p [] [] [] 0%float l r origin vzero 0%float
         [] [] [] [] [] [] false 0%float.

(** Assignments to members. *)
Definition set_contour (c hull : list Point2i) (ih : list Z) (h : Hand) : Hand :=
  let '(mkHand a1 a2 a3 a4 a5 a6 a7 _ _ _ b1 b2 b3 b4 b5 b6 b7 b8 c1 c2 c3 c4 e1 e2) := h in
  mkHand a1 a2 a3 a4 a5 a6 a7 c hull ih b1 b2 b3 b4 b5 b6 b7 b8 c1 c2 c3 c4 e1 e2.
Definition set_surfaceArea (s : float) (h : Hand) : Hand :=
  let '(mkHand a1 a2 a3 a4 a5 a6 a7 a8 a9 a10 _ b2 b3 b4 b5 b6 b7 b8 c1 c2 c3 c4 e1 e2) := h in
  mkHand a1 a2 a3 a4 a5 a6 a7 a8 a9 a10 s b2 b3 b4 b5 b6 b7 b8 c1 c2 c3 c4 e1 e2.
Definition set_palm (ij : Point2i) (xyz : Vec3f) (r : float) (h : Hand) : Hand :=
  let '(mkHand a1 a2 a3 a4 a5 a6 a7 a8 a9 a10 b1 b2 b3 _ _ _ b7 b8 c1 c2 c3 c4 e1 e2) := h in
  mkHand a1 a2 a3 a4 a5 a6 a7 a8 a9 a10 b1 b2 b3 ij xyz r b7 b8 c1 c2 c3 c4 e1 e2.
Definition set_wrist (ij : list Point2i) (xyz : list Vec3f) (h : Hand) : Hand :=
  let '(mkHand a1 a2 a3 a4 a5 a6 a7 a8 a9 a10 b1 b2 b3 b4 b5 b6 _ _ c1 c2 c3 c4 e1 e2) := h in
  mkHand a1 a2 a3 a4 a5 a6 a7 a8 a9 a10 b1 b2 b3 b4 b5 b6 ij xyz c1 c2 c3 c4 e1 e2.
Definition set_fingersIJ (l : list Point2i) (h : Hand) : Hand :=
  let '(mkHand a1 a2 a3 a4 a5 a6 a7 a8 a9 a10 b1 b2 b3 b4 b5 b6 b7 b8 _ c2 c3 c4 e1 e2) := h in
  mkHand a1 a2 a3 a4 a5 a6 a7 a8 a9 a10 b1 b2 b3 b4 b5 b6 b7 b8 l c2 c3 c4 e1 e2.
Definition set_fingersXYZ (l : list Vec3f) (h : Hand) : Hand :=
  let '(mkHand a1 a2 a3 a4 a5 a6 a7 a8 a9 a10 b1 b2 b3 b4 b5 b6 b7 b8 c1 _ c3 c4 e1 e2) := h in
  mkHand a1 a2 a3 a4 a5 a6 a7 a8 a9 a10 b1 b2 b3 b4 b5 b6 b7 b8 c1 l c3 c4 e1 e2.
Definition set_defectsIJ (l : list Point2i) (h : Hand) : Hand :=
  let '(mkHand a1 a2 a3 a4 a5 a6 a7 a8 a9 a10 b1 b2 b3 b4 b5 b6 b7 b8 c1 c2 _ c4 e1 e2) := h in
  mkHand a1 a2 a3 a4 a5 a6 a7 a8 a9 a10 b1 b2 b3 b4 b5 b6 b7 b8 c1 c2 l c4 e1 e2.
Definition set_defectsXYZ (l : list Vec3f) (h : Hand) : Hand :=
  let '(mkHand a1 a2 a3 a4 a5 a6 a7 a8 a9 a10 b1 b2 b3 b4 b5 b6 b7 b8 c1 c2 c3 _ e1 e2) := h in
  mkHand a1 a2 a3 a4 a5 a6 a7 a8 a9 a10 b1 b2 b3 b4 b5 b6 b7 b8 c1 c2 c3 l e1 e2.
Definition set_isHand (b : bool) (h : Hand) : Hand :=
  let '(mkHand a1 a2 a3 a4 a5 a6 a7 a8 a9 a10 b1 b2 b3 b4 b5 b6 b7 b8 c1 c2 c3 c4 _ e2) := h in
  mkHand a1 a2 a3 a4 a5 a6 a7 a8 a9 a10 b1 b2 b3 b4 b5 b6 b7 b8 c1 c2 c3 c4 b e2.
Definition set_svmConfidence (x : float) (h : Hand) : Hand :=
  let '(mkHand a1 a2 a3 a4 a5 a6 a7 a8 a9 a10 b1 b2 b3 b4 b5 b6 b7 b8 c1 c2 c3 c4 e1 _) := h in
  mkHand a1 a2 a3 a4 a5 a6 a7 a8 a9 a10 b1 b2 b3 b4 b5 b6 b7 b8 c1 c2 c3 c4 e1 x.

(** Accessors of Hand.cpp. *)
Definition getNumFingers (h : Hand) : Z := zlen (fingersXYZ h).
Definition touchingEdge (h : Hand) : bool :=
  leftEdgeConnected h || rightEdgeConnected h.

(** ** The helpers that are not part of the sources

    Util.cpp ([ark::util]), the FrameObject base class and the OpenCV
    primitives.  An optional argument is [None] where the call site leaves
    the default of the declaration in place. *)

Record Util := {
  euclideanDistance : Vec3f -> Vec3f -> float;
  averageAroundPoint : Mat -> Point2i -> option Z -> Vec3f;
  nearestPointOnCluster : Mat -> Point2i -> option Z -> Point2i;
  pointInImage : Mat -> Point2i -> bool;
  pointOnEdge : Size -> Point2i -> Z -> Z -> bool;
  angleBetweenPoints : Point2i -> Point2i -> Point2i -> float;
  angleBetween3DVec : Vec3f -> Vec3f -> Vec3f -> float;
  pointToAngle : Point2i -> float;
  pointToSlope : Point2i -> float;
  contourCurvature : list Point2i -> Z -> Z -> Z -> float;
  diameter : list Point2i -> float * Z * Z;
  largestInscribedCircle :
    list Point2i -> Mat -> Rect -> Vec3f -> float -> Point2i * float;
  util_surfaceArea : Size -> list Point2i -> list Vec3f -> Z -> float;
  (* OpenCV *)
  contourArea : list Point2i -> float;
  arcLength : list Point2i -> bool -> float;
  convexityDefects : list Point2i -> list Z -> list Vec4i;
  (* FrameObject *)
  computeContour : Mat -> list Point2i -> list Vec3f -> Point2i -> Z -> list Point2i;
  computeConvexHull : list Point2i -> list Point2i * list Z;
  getBoundingBox : Hand -> Rect
}.

(** ** [std::sort]

    Insertion sort with the comparator [lt] ("goes before").  [std::sort]
    fixes no order between elements the comparator leaves unordered; this
    model keeps them in input order. *)

Fixpoint insert_by {A} (lt : A -> A -> bool) (x : A) (l : list A) : list A :=
  match l with
  | [] => [x]
  | y :: l' => if lt y x then y :: insert_by lt x l' else x :: l
  end.

Definition std_sort {A} (lt : A -> A -> bool) (l : list A) : list A :=
  fold_right (insert_by lt) [] l.

(** ** HandClassifier.cpp *)

Module HandClassifier.

(** [std::greater<std::pair<int, int>>] applied to two
    [std::pair<double, int>]: both arguments are first converted to
    [pair<int, int>], which casts the double to [int]; then [a > b] is the
    lexicographic [b < a]. *)
Definition greater_pair_int (a b : float * Z) : bool :=
  let a1 := int_of_double (fst a) in
  let b1 := int_of_double (fst b) in
  (b1 <? a1) || (negb (a1 <? b1) && (snd b <? snd a)).

(** The last loop of [extractHandFeatures]: NaN becomes 1.0, otherwise a
    value [>= FLT_MAX] becomes 100.0. *)
Definition sanitize1 (x : float) : float :=
  if isnan x then 1.0%float
  else if fge x FLT_MAX then 100.0%float
  else x.

Definition sanitize (result : list float) : list float := map sanitize1 result.

Section WithUtil.

Variable U : Util.

Local Open Scope float_scope.

Definition radial (pt center : Vec3f) : float :=
  sqrtf (add32 (mul32 (sub32 (v0 pt) (v0 center)) (sub32 (v0 pt) (v0 center)))
               (mul32 (sub32 (v1 pt) (v1 center)) (sub32 (v1 pt) (v1 center)))).

(** Returns [(avg_dist, var_dist, avg_depth, var_depth)]. *)
Definition computeMeanAndVariance (pts : list Vec3f) (center : Vec3f)
    : float * float * float * float :=
  let '(sum_dist, sum_depth, totalpts) :=
    fold_left (fun '(ad, ap, n) pt => (ad + radial pt center, ap + v2 pt, (n + 1)%Z))
              pts (0, 0, 0%Z) in
  if (totalpts =? 0)%Z then (1.0, 0.0, 1.0, 0.0)
  else
    let avg_dist := sum_dist / double_of_int totalpts in
    let avg_depth := sum_depth / double_of_int totalpts in
    let '(vd, vp) :=
      fold_left (fun '(vd, vp) pt =>
                   let dist := radial pt center in
                   (vd + (dist - avg_dist) * (dist - avg_dist),
                    vp + (v2 pt - avg_depth) * (v2 pt - avg_depth)))
                pts (0, 0) in
    (avg_dist, vd / double_of_int totalpts, avg_depth, vp / double_of_int totalpts).

(** The fixed block of scalars pushed between the finger count and the
    per-finger blocks, in push order. *)
Definition scalarBlock (hand : Hand) (depth_map : Mat) : list float :=
  let nFingers := getNumFingers hand in
  let center := palmCenterXYZ hand in
  let '(avgdist, vardist, avgdepth, vardepth) :=
    computeMeanAndVariance (points_xyz hand) center in
  let area := surfaceArea hand in
  let cont := contour hand in
  let hull := convexHull hand in
  let wrist := wristXYZ hand in
  let contArea := contourArea U cont in
  let bounds := getBoundingBox U hand in
  let '(diam, pa, pb) := diameter U cont in
  let paXYZ := averageAroundPoint U depth_map (at_ origin cont pa) None in
  let pbXYZ := averageAroundPoint U depth_map (at_ origin cont pb) None in
  let wrist0 := at_ vzero wrist 0 in
  let wrist1 := at_ vzero wrist 1 in
  let midWrist := vadd wrist0 (vdiv (vsub wrist1 wrist0) 2) in
  let '(avgLen, avgMidWristDist) :=
    fold_left (fun '(al, am) i =>
                 let finger := at_ vzero (fingersXYZ hand) i in
                 let defect := at_ vzero (defectsXYZ hand) i in
                 (al + euclideanDistance U finger defect,
                  am + euclideanDistance U finger midWrist))
              (iota nFingers) (0.0, 0.0) in
  [ avgdist * 20.0;
    PrimFloat.sqrt vardist * 25.0;
    area * 10.00;
    PrimFloat.sqrt vardepth * 25.0;
    contArea / contourArea U hull;
    contArea / double_of_int (rect_width bounds * rect_height bounds);
    arcLength U cont true / arcLength U hull true * 0.5;
    circleRadius hand / diam * 2.0;
    euclideanDistance U paXYZ pbXYZ;
    euclideanDistance U wrist0 wrist1;
    avgLen / double_of_int nFingers * 5.0;
    avgMidWristDist / double_of_int nFingers * 2.0 ].

(** [fingerOrder] after the [std::sort]: pairs (finger length, index). *)
Definition fingerOrder (hand : Hand) : list (float * Z) :=
  std_sort greater_pair_int
    (map (fun i => (euclideanDistance U (at_ vzero (fingersXYZ hand) i)
                                        (at_ vzero (defectsXYZ hand) i), i))
         (iota (getNumFingers hand))).

(** The inner loop over the other fingers: returns
    [(minDistFinger, maxDistFinger, minDistDefect, maxDistDefect)]. *)
Definition otherDistances (hand : Hand) (depth_map : Mat) (j : Z)
    : float * float * float * float :=
  let fingers := fingersXYZ hand in
  let defects := defectsXYZ hand in
  let finger := at_ vzero fingers j in
  let defect := at_ vzero defects j in
  let c := double_of_int (cols depth_map) in
  fold_left (fun '(minF, maxF, minD, maxD) jj =>
               if (j =? jj)%Z then (minF, maxF, minD, maxD)
               else
                 let distDefect := euclideanDistance U defect (at_ vzero defects jj) in
                 let distFinger := euclideanDistance U finger (at_ vzero fingers jj) in
                 (if distFinger <? minF then distFinger else minF,
                  if maxF <? distFinger then distFinger else maxF,
                  if distDefect <? minD then distDefect else minD,
                  if maxD <? distDefect then distDefect else maxD))
            (iota (getNumFingers hand)) (c, 0, c, 0).

(** What one iteration of the per-finger loop pushes, for finger [j]. *)
Definition fingerBlock (hand : Hand) (depth_map : Mat) (j : Z) : list float :=
  let nFingers := getNumFingers hand in
  let center := palmCenterXYZ hand in
  let centerij := palmCenterIJ hand in
  let finger := at_ vzero (fingersXYZ hand) j in
  let defect := at_ vzero (defectsXYZ hand) j in
  let fingerij := at_ origin (fingersIJ hand) j in
  let defectij := at_ origin (defectsIJ hand) j in
  [ euclideanDistance U finger defect * 5.0;
    euclideanDistance U defect center * 5.0;
    euclideanDistance U finger center * 5.0;
    angleBetween3DVec U finger defect center / PI;
    angleBetweenPoints U fingerij centerij defectij / PI;
    pointToAngle U (psub fingerij centerij);
    pointToAngle U (psub defectij centerij) ]
  ++ (if (1 <? nFingers)%Z then
        let '(minF, maxF, minD, maxD) := otherDistances hand depth_map j in
        [ minF * 5.0; maxF * 5.0; minD * 5.0; maxD * 5.0 ]
      else []).

Definition extractHandFeatures (hand : Hand) (depth_map : Mat)
    (top_left : Point2i) (img_scale : float) (full_wid : Z) : list float :=
  let full_wid := if (full_wid <? 0)%Z then cols depth_map else full_wid in
  let nFingers := getNumFingers hand in
  let result := [double_of_int nFingers] in
  if (nFingers =? 0)%Z then result
  else
    sanitize (result
              ++ scalarBlock hand depth_map
              ++ flat_map (fun k => fingerBlock hand depth_map (snd k))
                          (fingerOrder hand)).

End WithUtil.

(** *** SVMHandClassifier

    [NUM_SVMS] and [MAX_FEATURES] are constants of HandClassifier.h, which
    is not part of the sources; they are fields of the classifier here.  An
    SVM model is its trained flag and its [predict] function. *)

Record SVM := { svm_isTrained : bool; predict : list float -> float }.

Record SVMHandClassifier := {
  NUM_SVMS : Z;
  MAX_FEATURES : Z;
  trained : bool;
  svm : list SVM          (* the array svm[NUM_SVMS] *)
}.

Definition isTrained (c : SVMHandClassifier) : bool := trained c.

(** What a call can do: return, throw, or read outside an array. *)
Inductive Exception := ClassifierNotTrainedException.

Inductive Outcome (A : Type) :=
| Returns (a : A)
| Throws (e : Exception)
| OutOfBounds.
Arguments Returns {A} a.
Arguments Throws {A} e.
Arguments OutOfBounds {A}.

Definition getSVMIdx_int (c : SVMHandClassifier) (num_fingers : Z) : Z :=
  Z.min (num_fingers - 1) (NUM_SVMS c - 1).

Definition getSVMIdx (c : SVMHandClassifier) (features : list float) : Z :=
  getSVMIdx_int c (int_of_double (at_ 0%float features 0)).

(** [svm[i]]: defined for [0 <= i < NUM_SVMS] only. *)
Definition svm_at (c : SVMHandClassifier) (i : Z) : option SVM :=
  if (0 <=? i) && (i <? NUM_SVMS c) then nth_error (svm c) (Z.to_nat i) else None.

Definition classify (c : SVMHandClassifier) (features : list float) : Outcome float :=
  if negb (trained c) then Throws ClassifierNotTrainedException
  else if zlen features =? 0 then Returns 0.0%float
  else
    let nFeat := zlen features in
    let nFeat := if MAX_FEATURES c <? nFeat then MAX_FEATURES c else nFeat in
    let svmIdx := getSVMIdx c features in
    let samples := map to_float32 (firstn (Z.to_nat (nFeat - 1)) (tl features)) in
    match svm_at c svmIdx with
    | None => OutOfBounds
    | Some m => Returns (std_max (std_min 1.0 (predict m samples)) 0.0)%float
    end.

End HandClassifier.

(** ** Hand.cpp *)

(** How a call of [checkForHand] can end: it returns [ret] and leaves the
    object as [h]; the classifier call inside it does not return a value;
    or the model's loop budget ran out (which never happens, see
    [checkForHand_terminates]). *)
Inductive Result :=
| Done (ret : bool) (h : Hand)
| Fault (h : Hand)
| OutOfFuel.

(** The arc length, in contour points, between a tip and its defect. *)
Definition points_to_defect (n tip def : Z) : Z :=
  Z.min (Z.abs (def - tip)) (Z.min def tip + n - Z.max def tip).

(** One call [util::contourCurvature(contour, center, lo, hi)]. *)
Record CurvatureCall := { cc_center : Z; cc_lo : Z; cc_hi : Z }.

Definition curve_near_lo (ptd : Z) : Z := Z.max 2 (Z.quot ptd 20).
Definition curve_mid_lo (ptd : Z) : Z := Z.max 2 (Z.quot ptd 5).
Definition curve_far_lo (ptd : Z) : Z := Z.max 2 (Z.quot (ptd * 9) 10).

(** The finger candidates that passed the filter: the parallel vectors
    fingerTipsXyz, fingerTipsIj, fingerDefectsIj, fingerTipsIdx and
    fingerDefectsIdx, which are always pushed together. *)
Record Cand := {
  c_xyz : Vec3f; c_ij : Point2i; c_defij : Point2i; c_tipIdx : Z; c_defIdx : Z
}.

Definition noCand : Cand := Build_Cand vzero origin origin 0 0.
Definition noDefect : Vec4i := mkVec4 0 0 0 0.

(** State of the loop over the sorted defects. *)
Record DefectScan := {
  fingerTipCands : list Z;
  fingerDefectCands : list Z;
  goodDefects : list Z;
  lastEnd : Vec3f;
  first : bool
}.

Record HullPick := {
  farthest : float;
  indexFinger_ij : Point2i;
  indexFinger_idx : Z;
  indexFinger_right : Point2i;
  indexFinger_left : Point2i
}.

Record BestDefect := { best : float; bestDef : Point2i; bestXyz : Vec3f; bestIdx : Z }.

Definition underWrist (direction wristL wristR far : Z) : bool :=
  if direction =? -1 then
    if wristL <=? wristR then (wristL <=? far) && (far <=? wristR)
    else (far <=? wristR) || (wristL <=? far)
  else
    if wristL <=? wristR then (far <=? wristL) || (wristR <=? far)
    else (wristR <=? far) && (far <=? wristL).

Definition walkDirection (n contactL contactR : Z) : Z :=
  if ((contactL <? contactR) && (contactR - contactL <? Z.quot n 2))
     || ((contactR <=? contactL) && (Z.quot n 2 <=? contactL - contactR))
  then -1 else 1.

(** [(double) dy / abs(dx)]: an IEEE division, infinite or NaN for [dx = 0]. *)
Definition slopeTo (dy dx : Z) : float :=
  (double_of_int dy / double_of_int (Z.abs dx))%float.

Definition clearLandmarks (h : Hand) : Hand :=
  set_defectsXYZ [] (set_defectsIJ [] (set_fingersXYZ [] (set_fingersIJ [] h))).

Section HandCpp.

Variable U : Util.
(** The static member [Hand::handClassifier]. *)
Variable handClassifier : HandClassifier.SVMHandClassifier.
(** The build flag that compiles the fallback's curvature test out. *)
Variable PLANE_ENABLED : bool.

(** [util::averageAroundPoint(xyzMap, pt, params->xyzAverageSize)]. *)
Definition xyzAt (h : Hand) (pt : Point2i) : Vec3f :=
  averageAroundPoint U (xyzMap h) pt (Some (xyzAverageSize (params h))).

Definition onEdge (h : Hand) (pt : Point2i) : bool :=
  pointOnEdge U (fullMapSize h) pt (bottomEdgeThresh (params h)) (sideEdgeThresh (params h)).

(** *** Wrist: contact points *)

Definition contactStep (h : Hand) (st : Z * Z) (i : Z) : Z * Z :=
  let '(contactL, contactR) := st in
  let cont := contour h in
  let pt := at_ origin cont i in
  let lMargin := contactSideEdgeThresh (params h) in
  let rMargin := width (fullMapSize h) - contactSideEdgeThresh (params h) in
  if touchingEdge h then
    if fgt (double_of_int (py pt))
           (double_of_int (height (fullMapSize h)) * handEdgeConnectMaxY (params h))%float
       && pointOnEdge U (fullMapSize h) pt (contactBotEdgeThresh (params h))
                      (contactSideEdgeThresh (params h))
    then
      if contactL =? -1 then (i, i)
      else
        let ccl := at_ origin cont contactL in
        let ccr := at_ origin cont contactR in
        if px pt <=? lMargin then
          (if (lMargin <? px ccl) || (py pt <? py ccl) then i else contactL,
           if (px ccr <=? lMargin) && (py ccr <? py pt) then i else contactR)
        else if rMargin <=? px pt then
          (if (rMargin <=? px ccl) && (py ccl <? py pt) then i else contactL,
           if (px ccr <? rMargin) || (py pt <? py ccr) then i else contactR)
        else
          (if px pt <? px ccl then i else contactL,
           if px ccr <? px pt then i else contactR)
    else st
  else
    if (contactL =? -1) || (py (at_ origin cont contactL) <? py pt) then (i, i)
    else st.

Definition selectContacts (h : Hand) : Z * Z :=
  fold_left (contactStep h) (iota (zlen (contour h))) (-1, -1).

(** *** Wrist: inward walks *)

Definition nearCenter (h : Hand) (i : Z) : bool :=
  let pt := at_ origin (contour h) i in
  let xyz := xyzAt h (psub pt (topLeftPt h)) in
  let dist := to_float32 (euclideanDistance U xyz (palmCenterXYZ h)) in
  (dist <=? wristCenterDistThresh (params h))%float.

(** The do-while loop that starts at [i] and steps by [step] until it is
    back at [stop]; returns the wrist index, or -1 when the loop ends
    without a break. *)
Fixpoint walk (fuel : nat) (h : Hand) (step stop i : Z) : option Z :=
  match fuel with
  | O => None
  | S fuel' =>
      if nearCenter h i then Some i
      else
        let i' := (i + step + zlen (contour h)) mod zlen (contour h) in
        if i' =? stop then Some (-1) else walk fuel' h step stop i'
  end.

(** Returns [(wristL, wristR, direction)]. *)
Definition findWrist (h : Hand) : option (Z * Z * Z) :=
  let n := zlen (contour h) in
  let '(contactL, contactR) := selectContacts h in
  if (0 <=? contactL) && (0 <=? contactR) then
    let direction := walkDirection n contactL contactR in
    match walk (Z.to_nat n) h direction contactR contactL,
          walk (Z.to_nat n) h (- direction) contactL contactR with
    | Some wristL, Some wristR => Some (wristL, wristR, direction)
    | _, _ => None
    end
  else Some (-1, -1, 1).

(** *** Defects and finger candidates *)

(** The comparator [DefectComparer]: its slope table holds, at the far
    index of every defect, the slope of that contour point seen from the
    palm center. *)
Definition defectSlope (h : Hand) (d : Vec4i) : float :=
  pointToSlope U (psub (at_ origin (contour h) (d2 d)) (palmCenterIJ h)).

Definition DefectComparer (h : Hand) (a b : Vec4i) : bool :=
  fgt (defectSlope h a) (defectSlope h b).

Definition defectStep (h : Hand) (direction wristL wristR : Z) (defects : list Vec4i)
    (st : DefectScan) (i : Z) : DefectScan :=
  let p := params h in
  let defect := at_ noDefect defects i in
  if underWrist direction wristL wristR (d2 defect) then st
  else
    let snap pt := nearestPointOnCluster U (xyzMap h) pt None in
    let start := snap (psub (at_ origin (contour h) (d0 defect)) (topLeftPt h)) in
    let end_ := snap (psub (at_ origin (contour h) (d1 defect)) (topLeftPt h)) in
    let farPt := snap (psub (at_ origin (contour h) (d2 defect)) (topLeftPt h)) in
    if negb (pointInImage U (xyzMap h) farPt)
       || negb (pointInImage U (xyzMap h) start)
       || negb (pointInImage U (xyzMap h) end_) then st
    else
      let far_xyz := xyzAt h farPt in
      let start_xyz := xyzAt h start in
      let end_xyz := xyzAt h end_ in
      let farCenterDist := euclideanDistance U far_xyz (palmCenterXYZ h) in
      let startEndDist := euclideanDistance U start_xyz end_xyz in
      if fgt farCenterDist (defectFarCenterMinDist p)
         && (farCenterDist <? defectFarCenterMaxDist p)%float
         && fgt startEndDist (defectStartEndMinDist p)
      then
        let good := goodDefects st ++ [i] in
        let angle := angleBetweenPoints U start end_ farPt in
        if fgt angle (defectMaxAngle p) then
          Build_DefectScan (fingerTipCands st) (fingerDefectCands st) good
                           (lastEnd st) (first st)
        else
          let addStart :=
            negb (onEdge h (padd start (topLeftPt h)))
            && (first st
                || fgt (euclideanDistance U (lastEnd st) start_xyz) (defectMinDist p)) in
          let tips1 := if addStart then fingerTipCands st ++ [d0 defect]
                       else fingerTipCands st in
          let defs1 := if addStart then fingerDefectCands st ++ [d2 defect]
                       else fingerDefectCands st in
          let first1 := if addStart then false else first st in
          let addEnd := negb (onEdge h (padd end_ (topLeftPt h))) in
          let tips2 := if addEnd then tips1 ++ [d1 defect] else tips1 in
          let defs2 := if addEnd then defs1 ++ [d2 defect] else defs1 in
          Build_DefectScan tips2 defs2 good end_xyz first1
      else st.

Definition scanDefects (h : Hand) (direction wristL wristR : Z) (defects : list Vec4i)
    : DefectScan :=
  fold_left (defectStep h direction wristL wristR defects) (iota (zlen defects))
            (Build_DefectScan [] [] [] vzero true).

(** *** Finger filter *)

(** The three curvature calls made for candidate number [i] of the
    candidate loop, whose tip is contour index [tip]: near, mid, far. *)
Definition filterCurvatureCalls (h : Hand) (i tip ptd : Z)
    : CurvatureCall * CurvatureCall * CurvatureCall :=
  (Build_CurvatureCall tip (curve_near_lo ptd) (curve_near_lo ptd + 4),
   Build_CurvatureCall (at_ 0 (indexHull h) i) (curve_mid_lo ptd) (curve_mid_lo ptd + 5),
   Build_CurvatureCall tip (curve_far_lo ptd) (curve_far_lo ptd + 5)).

(** The calls of the single-finger fallback, for the hull point [idx]. *)
Definition fallbackCurvatureCalls (idx ptd : Z)
    : CurvatureCall * CurvatureCall * CurvatureCall :=
  (Build_CurvatureCall idx (curve_near_lo ptd) (curve_near_lo ptd + 4),
   Build_CurvatureCall idx (curve_mid_lo ptd) (curve_mid_lo ptd + 5),
   Build_CurvatureCall idx (curve_far_lo ptd) (curve_far_lo ptd + 5)).

Definition runCurvature (h : Hand) (c : CurvatureCall) : float :=
  contourCurvature U (contour h) (cc_center c) (cc_lo c) (cc_hi c).

(** Returns [(curve_near, curve_far)], the latter after
    [curve_far = std::min(curve_mid, curve_far)]. *)
Definition curvatures (h : Hand) (calls : CurvatureCall * CurvatureCall * CurvatureCall)
    : float * float :=
  let '(near, mid, far) := calls in
  (runCurvature h near, std_min (runCurvature h mid) (runCurvature h far)).

Definition curvatureOk (h : Hand) (cv : float * float) : bool :=
  let p := params h in
  fge (fst cv) (fingerCurveNearMin p)
  && (fst cv <=? fingerCurveNearMax p)%float
  && fge (snd cv) (fingerCurveFarMin p)
  && (snd cv <=? fingerCurveFarMax p)%float.

Definition filterStep (h : Hand) (center : Point2i) (tipCands defCands : list Z)
    (acc : list Cand) (i : Z) : list Cand :=
  let p := params h in
  let tip := at_ 0 tipCands i in
  let def := at_ 0 defCands i in
  let finger_ij := psub (at_ origin (contour h) tip) (topLeftPt h) in
  let defect_ij := psub (at_ origin (contour h) def) (topLeftPt h) in
  if (py defect_ij <? py center + defectMaxYFromCenter p)
     && (py defect_ij + py (topLeftPt h) <? height (fullMapSize h) - bottomEdgeThresh p)
  then
    let finger_xyz := xyzAt h finger_ij in
    let defect_xyz := xyzAt h defect_ij in
    let finger_length := euclideanDistance U finger_xyz defect_xyz in
    let finger_defect_slope :=
      slopeTo (py defect_ij - py finger_ij) (px defect_ij - px finger_ij) in
    let finger_center_slope :=
      slopeTo (py center - py finger_ij) (px center - px finger_ij) in
    let centroid_defect_finger_angle :=
      angleBetweenPoints U finger_ij center defect_ij in
    let ptd := points_to_defect (zlen (contour h)) tip def in
    if ptd <? 10 then acc
    else
      let cv := curvatures h (filterCurvatureCalls h i tip ptd) in
      if (finger_length <? fingerLenMax p)%float
         && fgt finger_length (fingerLenMin p)
         && fgt finger_defect_slope (fingerDefectSlopeMin p)
         && fgt finger_center_slope (fingerCenterSlopeMin p)
         && fgt centroid_defect_finger_angle (centroidDefectFingerAngleMin p)
         && negb (v2 finger_xyz =? 0)%float
         && curvatureOk h cv
      then acc ++ [Build_Cand finger_xyz (padd finger_ij (topLeftPt h))
                              (padd defect_ij (topLeftPt h)) tip def]
      else acc
  else acc.

Definition selectFingers (h : Hand) (center : Point2i) (tipCands defCands : list Z)
    : list Cand :=
  fold_left (filterStep h center tipCands defCands) (iota (zlen tipCands)) [].

(** *** Deduplication *)

(** The guard of the inner loop: candidate [j] is passed over when
    [tips[i][1] > tips[j][1] || (tips[i][1] == tips[j][1] && i >= j)]. *)
Definition dedupSkip (tips : list Vec3f) (i j : Z) : bool :=
  let yi := v1 (at_ vzero tips i) in
  let yj := v1 (at_ vzero tips j) in
  fgt yi yj || ((yi =? yj)%float && (j <=? i)).

(** The inner loop over [j], with its [break]; returns the final [mindist]. *)
Fixpoint dedupInner (tips : list Vec3f) (fingerDistMin : float) (i : Z)
    (js : list Z) (mindist : float) : float :=
  match js with
  | [] => mindist
  | j :: js' =>
      if dedupSkip tips i j then dedupInner tips fingerDistMin i js' mindist
      else
        let dist := euclideanDistance U (at_ vzero tips i) (at_ vzero tips j) in
        if (dist <? mindist)%float then
          if (dist <? fingerDistMin)%float then dist
          else dedupInner tips fingerDistMin i js' dist
        else dedupInner tips fingerDistMin i js' mindist
  end.

(** [true] when the outer loop hits [continue] for candidate [i]. *)
Definition dedupDrops (tips : list Vec3f) (fingerDistMin : float) (i : Z) : bool :=
  (dedupInner tips fingerDistMin i (iota (zlen tips)) DBL_MAX <? fingerDistMin)%float.

(** The indices that are pushed to the output, in order. *)
Definition dedupKept (tips : list Vec3f) (fingerDistMin : float) : list Z :=
  filter (fun i => negb (dedupDrops tips fingerDistMin i)) (iota (zlen tips)).

Definition pushFinger (c : Cand) (h : Hand) : Hand :=
  let h := set_fingersIJ (fingersIJ h ++ [c_ij c]) h in
  let h := set_fingersXYZ (fingersXYZ h ++ [c_xyz c]) h in
  let h := set_defectsIJ (defectsIJ h ++ [c_defij c]) h in
  let defXyz := xyzAt h (psub (c_defij c) (topLeftPt h)) in
  set_defectsXYZ (defectsXYZ h ++ [defXyz]) h.

Definition dedupStep (cands : list Cand) (h : Hand) (i : Z) : Hand :=
  if dedupDrops (map c_xyz cands) (fingerDistMin (params h)) i then h
  else pushFinger (at_ noCand cands i) h.

Definition dedupFingers (cands : list Cand) (h : Hand) : Hand :=
  fold_left (dedupStep cands) (iota (zlen cands)) h.

(** *** Single-finger fallback *)

Definition hullStep (h : Hand) (st : HullPick) (i : Z) : HullPick :=
  let hull := convexHull h in
  let convexPt := at_ origin hull i in
  if onEdge h convexPt then st
  else
    let convexPt_xyz :=
      averageAroundPoint U (xyzMap h) (psub convexPt (topLeftPt h)) (Some 22) in
    let dist := euclideanDistance U convexPt_xyz (palmCenterXYZ h) in
    let slope := slopeTo (py (palmCenterIJ h) - py convexPt)
                         (px convexPt - px (palmCenterIJ h)) in
    if fgt slope (-0.1)%float
       && (py convexPt <? height (fullMapSize h) - 10)
       && fgt dist (farthest st)
    then Build_HullPick dist convexPt (at_ 0 (indexHull h) i)
           (at_ origin hull ((i + 1) mod zlen hull))
           (at_ origin hull ((i - 1 + zlen hull) mod zlen hull))
    else st.

Definition bestStep (h : Hand) (defects : list Vec4i) (indexFinger_xyz : Vec3f)
    (st : BestDefect) (g : Z) : BestDefect :=
  let defect := at_ noDefect defects g in
  let farPt := psub (at_ origin (contour h) (d2 defect)) (topLeftPt h) in
  let far_xyz := xyzAt h farPt in
  let farPt := nearestPointOnCluster U (xyzMap h) farPt None in
  let dist := euclideanDistance U far_xyz indexFinger_xyz in
  if fgt dist (singleFingerLenMin (params h)) && (dist <? best st)%float
  then Build_BestDefect dist farPt far_xyz (d2 defect)
  else st.

(** The final length test of the fallback. *)
Definition fallbackLength (h : Hand) (indexFinger_xyz : Vec3f) : Hand :=
  let fingerLen := euclideanDistance U indexFinger_xyz (at_ vzero (defectsXYZ h) 0) in
  if fgt fingerLen (singleFingerLenMax (params h))
     || (fingerLen <? singleFingerLenMin (params h))%float
  then clearLandmarks h
  else h.

(** The block under [if (this->fingersXYZ.size() <= 1)].  Where no hull
    point qualifies the source reads [indexFinger_idx] uninitialised; the
    model reads 0. *)
Definition singleFingerFallback (h : Hand) (defects : list Vec4i) (good : list Z) : Hand :=
  let p := params h in
  let h := set_fingersXYZ [] h in
  let h := set_fingersIJ [] h in
  let pick0 := Build_HullPick 0%float origin 0 origin origin in
  let pick := if 1 <? zlen (convexHull h)
              then fold_left (hullStep h) (iota (zlen (convexHull h))) pick0
              else pick0 in
  let indexFinger_ij :=
    padd (nearestPointOnCluster U (xyzMap h)
            (psub (indexFinger_ij pick) (topLeftPt h)) (Some 10000))
         (topLeftPt h) in
  let indexFinger_xyz :=
    averageAroundPoint U (xyzMap h) (psub indexFinger_ij (topLeftPt h)) (Some 10) in
  let angle := angleBetweenPoints U (indexFinger_left pick) (indexFinger_right pick)
                                  indexFinger_ij in
  let h := set_defectsIJ [] h in
  let h := set_defectsXYZ [] h in
  if (angle <=? singleFingerAngleThresh p)%float
     || onEdge h indexFinger_ij
     || (zlen good =? 0)
  then h
  else
    let h := set_fingersXYZ (fingersXYZ h ++ [indexFinger_xyz]) h in
    let h := set_fingersIJ (fingersIJ h ++ [indexFinger_ij]) h in
    let b := fold_left (bestStep h defects indexFinger_xyz) good
                       (Build_BestDefect DBL_MAX origin vzero (-1)) in
    let h :=
      if (best b =? DBL_MAX)%float then
        set_defectsXYZ (defectsXYZ h ++ [palmCenterXYZ h])
          (set_defectsIJ (defectsIJ h ++ [palmCenterIJ h]) h)
      else
        set_defectsXYZ (defectsXYZ h ++ [bestXyz b])
          (set_defectsIJ (defectsIJ h ++ [padd (bestDef b) (topLeftPt h)]) h) in
    let ptd := points_to_defect (zlen (contour h)) (indexFinger_idx pick) (bestIdx b) in
    if ptd <? 10 then clearLandmarks h
    else if PLANE_ENABLED then fallbackLength h indexFinger_xyz
    else if negb (curvatureOk h
                    (curvatures h (fallbackCurvatureCalls (indexFinger_idx pick) ptd)))
    then clearLandmarks h
    else fallbackLength h indexFinger_xyz.

(** *** Acceptance gate *)

Definition acceptanceGate (h : Hand) : Result :=
  if (6 <? zlen (fingersIJ h)) || (zlen (fingersIJ h) <? 1) then Done false h
  else if handUseSVM (params h) && HandClassifier.isTrained handClassifier then
    let h := set_isHand true h in
    let features :=
      HandClassifier.extractHandFeatures U h (xyzMap h) (topLeftPt h) 1.0%float
                                         (width (fullMapSize h)) in
    match HandClassifier.classify handClassifier features with
    | HandClassifier.Returns conf =>
        let h := set_svmConfidence conf h in
        if (svmConfidence h <? handSVMConfidenceThresh (params h))%float
        then Done false h
        else Done true h
    | _ => Fault h
    end
  else Done true h.

(** *** Finger detection: everything after the wrist tests *)

Definition detectFingers (h : Hand) (center : Point2i) (defects : list Vec4i)
    (wristL wristR direction : Z) : Hand :=
  let defects := std_sort (DefectComparer h) defects in
  let scan := scanDefects h direction wristL wristR defects in
  let cands := selectFingers h center (fingerTipCands scan) (fingerDefectCands scan) in
  let h := dedupFingers cands h in
  if zlen (fingersXYZ h) <=? 1
  then singleFingerFallback h defects (goodDefects scan)
  else h.

(** The state in which the wrist search starts: contour, hull and palm
    circle are in place.  Returns it with the raw defects and [center]. *)
Definition locatePalm (h : Hand) : Hand * list Vec4i * Point2i :=
  let cont := computeContour U (xyzMap h) (points h) (points_xyz h) (topLeftPt h)
                             (num_points h) in
  let '(hull, ih) := computeConvexHull U cont in
  let h := set_contour cont hull ih h in
  let defects := if 3 <? zlen (indexHull h)
                 then convexityDefects U (contour h) (indexHull h) else [] in
  let topPt := xyzAt h (psub (at_ origin (points h) 0) (topLeftPt h)) in
  let '(circen, cirrad) :=
    largestInscribedCircle U (contour h) (xyzMap h) (getBoundingBox U h) topPt
                           (centerMaxDistFromTop (params h)) in
  let center := psub circen (topLeftPt h) in
  (set_palm circen (xyzAt h center) cirrad h, defects, center).

Definition checkForHand (h : Hand) : Result :=
  if (zlen (points h) =? 0) || (num_points h =? 0) then Done false h
  else
    let '(h, defects, center) := locatePalm h in
    match findWrist h with
    | None => OutOfFuel
    | Some (wristL, wristR, direction) =>
        if (wristL <? 0) || (wristR <? 0) then Done false h
        else
          let wristL_ij := at_ origin (contour h) wristL in
          let wristR_ij := at_ origin (contour h) wristR in
          let wristL_xyz := xyzAt h (psub wristL_ij (topLeftPt h)) in
          let wristR_xyz := xyzAt h (psub wristR_ij (topLeftPt h)) in
          let wristWidth := to_float32 (euclideanDistance U wristL_xyz wristR_xyz) in
          let h := set_wrist (wristIJ h ++ [wristL_ij; wristR_ij])
                             (wristXYZ h ++ [wristL_xyz; wristR_xyz]) h in
          if (wristWidth <? wristWidthMin (params h))%float
             || fgt wristWidth (wristWidthMax (params h))
          then Done false h
          else acceptanceGate (detectFingers h center defects wristL wristR direction)
    end.

(** [initializeObject], after [checkEdgeConnected] has set the two edge
    flags of [h].  The [ret] of the result is the final [isHand]. *)
Definition initializeObject (h : Hand) : Result :=
  let h := set_surfaceArea
             (util_surfaceArea U (fullMapSize h) (points h) (points_xyz h) (num_points h))
             h in
  if fge (surfaceArea h) (handMinArea (params h))
     && (surfaceArea h <=? handMaxArea (params h))%float
     && (negb (handRequireEdgeConnected (params h))
         || leftEdgeConnected h || rightEdgeConnected h)
  then
    match checkForHand h with
    | Done ret h' => Done ret (set_isHand ret h')
    | r => r
    end
  else Done (isHand h) h.

End HandCpp.

(** ** Hand.cpp: edge connectivity and plane contact *)

Definition set_leftEdgeConnected (b : bool) (h : Hand) : Hand :=
  let '(mkHand a1 a2 a3 a4 a5 a6 a7 a8 a9 a10 b1 _ b3 b4 b5 b6 b7 b8 c1 c2 c3 c4 e1 e2) := h in
  mkHand a1 a2 a3 a4 a5 a6 a7 a8 a9 a10 b1 b b3 b4 b5 b6 b7 b8 c1 c2 c3 c4 e1 e2.
Definition set_rightEdgeConnected (b : bool) (h : Hand) : Hand :=
  let '(mkHand a1 a2 a3 a4 a5 a6 a7 a8 a9 a10 b1 b2 _ b4 b5 b6 b7 b8 c1 c2 c3 c4 e1 e2) := h in
  mkHand a1 a2 a3 a4 a5 a6 a7 a8 a9 a10 b1 b2 b b4 b5 b6 b7 b8 c1 c2 c3 c4 e1 e2.

(** [xyzMap.at<Vec3f>(row, col)[2] != 0]. *)
Definition validAt (m : Mat) (row col : Z) : bool :=
  negb (v2 (at3 m row col) =? 0)%float.

(** The row of the two bottom sweeps, in window coordinates. *)
Definition sweepRow (h : Hand) : Z :=
  height (fullMapSize h) - bottomEdgeThresh (params h) - py (topLeftPt h).

(** The columns [lo, hi) in ascending order. *)
Definition colRange (lo hi : Z) : list Z := map (fun k => lo + k) (iota (hi - lo)).

(** The first row and the lower bound of the two side sweeps:
    [std::min(rows - 1 - topLeftPt.y, xyzMap.rows - 1)] and
    [std::max(rows * handEdgeConnectMaxY - topLeftPt.y, 0.0)]. *)
Definition sideStart (h : Hand) : Z :=
  Z.min (height (fullMapSize h) - 1 - py (topLeftPt h)) (rows (xyzMap h) - 1).

Definition sideBound (h : Hand) : float :=
  std_max (double_of_int (height (fullMapSize h)) * handEdgeConnectMaxY (params h)
           - double_of_int (py (topLeftPt h)))%float 0.0%float.

(** A side sweep: [row] goes down while [row >= bound]; the right sweep
    ([guarded]) passes over rows outside the window.  Returns whether a
    valid sample was met. *)
Fixpoint sideSweep (fuel : nat) (m : Mat) (guarded : bool) (col : Z) (bound : float)
    (row : Z) : option bool :=
  match fuel with
  | O => None
  | S fuel' =>
      if fge (double_of_int row) bound then
        if guarded && ((row <? 0) || (rows m <=? row))
        then sideSweep fuel' m guarded col bound (row - 1)
        else if validAt m row col then Some true
        else sideSweep fuel' m guarded col bound (row - 1)
      else Some false
  end.

Definition sideFuel (h : Hand) : nat := Z.to_nat (sideStart h + 2).

(** The four sweeps of [checkEdgeConnected]: whether a valid sample was
    met ([None]: the sweep used up the loop budget). *)
Definition bottomLeftSweep (h : Hand) : bool :=
  let row := sweepRow h in
  (0 <=? row) && (row <? rows (xyzMap h))
  && existsb (validAt (xyzMap h) row)
             (iota (Z.min (Z.quot (width (fullMapSize h)) 2 - px (topLeftPt h))
                          (cols (xyzMap h)))).

Definition leftSideSweep (h : Hand) : option bool :=
  let col := sideEdgeThresh (params h) - px (topLeftPt h) in
  if (0 <=? col) && (col <? cols (xyzMap h))
  then sideSweep (sideFuel h) (xyzMap h) false col (sideBound h) (sideStart h)
  else Some false.

Definition bottomRightSweep (h : Hand) : bool :=
  let row := sweepRow h in
  (0 <=? row) && (row <? rows (xyzMap h))
  && existsb (fun col => (0 <=? col) && (col <? cols (xyzMap h))
                         && validAt (xyzMap h) row col)
             (colRange (Z.quot (width (fullMapSize h)) 2 - px (topLeftPt h))
                       (width (fullMapSize h) - px (topLeftPt h))).

Definition rightSideSweep (h : Hand) : option bool :=
  let col := width (fullMapSize h) - sideEdgeThresh (params h) - px (topLeftPt h) in
  if (0 <=? col) && (col <? cols (xyzMap h))
  then sideSweep (sideFuel h) (xyzMap h) true col (sideBound h) (sideStart h)
  else Some false.

Definition raiseLeft (found : bool) (h : Hand) : Hand :=
  if found then set_leftEdgeConnected true h else h.

Definition raiseRight (found : bool) (h : Hand) : Hand :=
  if found then set_rightEdgeConnected true h else h.

(** [None] stands for a sweep that used up the loop budget. *)
Definition checkEdgeConnected (h : Hand) : option Hand :=
  let h := raiseLeft (bottomLeftSweep h) h in
  match (if negb (leftEdgeConnected h) then leftSideSweep h else Some false) with
  | None => None
  | Some l =>
      let h := raiseLeft l h in
      let h := raiseRight (bottomRightSweep h) h in
      match (if negb (rightEdgeConnected h) then rightSideSweep h else Some false) with
      | None => None
      | Some r => Some (raiseRight r h)
      end
  end.

(** [initializeObject] from its first line: the edge sweeps, then the part
    modelled above. *)
Definition initializeObjectAll (U : Util) (handClassifier : HandClassifier.SVMHandClassifier)
    (PLANE_ENABLED : bool) (h : Hand) : Result :=
  match checkEdgeConnected h with
  | Some h => initializeObject U handClassifier PLANE_ENABLED h
  | None => OutOfFuel
  end.

(** A plane, as far as Hand.cpp uses it: its [touching] test. *)
Record FramePlane := {
  touching : Vec3f -> Point2i -> float -> bool -> bool
}.

Definition fingerTouches (h : Hand) (plane : FramePlane) (threshold : float)
    (extrapolate : bool) (i : Z) : bool :=
  touching plane (at_ vzero (fingersXYZ h) i) (at_ origin (fingersIJ h) i)
           threshold (negb extrapolate).

(** Returns the new content of [output] and the returned count. *)
Definition touchingPlane (h : Hand) (plane : FramePlane) (threshold : float)
    (extrapolate : bool) : list Z * Z :=
  let output :=
    fold_left (fun out i => if fingerTouches h plane threshold extrapolate i
                            then out ++ [i] else out)
              (iota (getNumFingers h)) [] in
  (output, zlen output).

(** [output.rbegin()->second.push_back(j)]. *)
Definition pushToLast (j : Z) (output : list (Z * list Z)) : list (Z * list Z) :=
  match rev output with
  | [] => []
  | (i, js) :: before => rev before ++ [(i, js ++ [j])]
  end.

(** The inner loop over the planes for finger [i]; the state is [output]
    and the flag [first]. *)
Definition planeStep (h : Hand) (planes : list FramePlane) (threshold : float)
    (extrapolate : bool) (i : Z) (st : list (Z * list Z) * bool) (j : Z)
    : list (Z * list Z) * bool :=
  let '(output, first) := st in
  if fingerTouches h (at_ (Build_FramePlane (fun _ _ _ _ => false)) planes j)
                   threshold extrapolate i
  then
    let output := if first then output ++ [(i, [])] else output in
    (pushToLast j output, false)
  else st.

Definition touchingPlanes (h : Hand) (planes : list FramePlane) (threshold : float)
    (extrapolate : bool) : list (Z * list Z) * Z :=
  let output :=
    fold_left (fun out i =>
                 fst (fold_left (planeStep h planes threshold extrapolate i)
                                (iota (zlen planes)) (out, true)))
              (iota (getNumFingers h)) [] in
  (output, zlen output).

Definition getContourScalingFactor (h : Hand) : Z := 2.

(** ** HandClassifier.cpp: loading the models *)

(** The string constants of [loadFile]. *)
Module FileNames.
Import String.
Definition svm_prefix : string := "svm_".
Definition xml_suffix : string := ".xml".
End FileNames.

Module Loader.
Import HandClassifier.

(** The process environment and the file system, as [loadFile] sees them;
    [path_join] is the operator [/] of boost::filesystem::path, [SVM_load]
    is cv::ml::SVM::load and [SVM_create] the model [initSVMs] builds for a
    bucket. *)
Record Files := {
  OPENARK_DIR : option String.string;
  path_join : String.string -> String.string -> String.string;
  file_exists : String.string -> bool;
  SVM_load : String.string -> SVM;
  SVM_create : Z -> SVM
}.

(** [std::to_string] of an [int]. *)
Definition to_string (i : Z) : String.string :=
  DecimalString.NilZero.string_of_int (Z.to_int i).

(** [svm[i] = m]. *)
Fixpoint set_at {A} (l : list A) (i : nat) (x : A) : list A :=
  match l, i with
  | [], _ => []
  | _ :: l', O => x :: l'
  | y :: l', S i' => y :: set_at l' i' x
  end.

Definition filePathOf (fs : Files) (ipath : String.string) : String.string :=
  match OPENARK_DIR fs with
  | Some env => path_join fs env ipath
  | None => ipath
  end.

Definition loadPath (fs : Files) (filePath : String.string) (i : Z) : String.string :=
  path_join fs filePath
    (String.append FileNames.svm_prefix
       (String.append (to_string i) FileNames.xml_suffix)).

(** The loop of [loadFile] over the buckets [idxs]; returns [trained] and the
    array. *)
Fixpoint loadLoop (fs : Files) (filePath : String.string) (idxs : list Z)
    (svms : list SVM) : bool * list SVM :=
  match idxs with
  | [] => (true, svms)
  | i :: idxs' =>
      if negb (file_exists fs (loadPath fs filePath i)) then (false, svms)
      else
        let svms := set_at svms (Z.to_nat i) (SVM_load fs (loadPath fs filePath i)) in
        if negb (svm_isTrained (SVM_load fs (loadPath fs filePath i))) then (false, svms)
        else loadLoop fs filePath idxs' svms
  end.

(** Returns the return value and the classifier afterwards. *)
Definition loadFile (fs : Files) (c : SVMHandClassifier) (ipath : String.string)
    : bool * SVMHandClassifier :=
  let '(t, svms) := loadLoop fs (filePathOf fs ipath) (iota (NUM_SVMS c)) (svm c) in
  (t, Build_SVMHandClassifier (NUM_SVMS c) (MAX_FEATURES c) t svms).

Definition initSVMs (fs : Files) (c : SVMHandClassifier) : SVMHandClassifier :=
  Build_SVMHandClassifier (NUM_SVMS c) (MAX_FEATURES c) (trained c)
                          (map (SVM_create fs) (iota (NUM_SVMS c))).

(** [SVMHandClassifier(const char * path)], on an object [c] whose base
    class has been constructed. *)
Definition construct (fs : Files) (c : SVMHandClassifier) (path : String.string)
    : SVMHandClassifier :=
  snd (loadFile fs (initSVMs fs c) path).

Definition sentinel : String.string :=
  String.String (Ascii.ascii_of_nat 10) String.EmptyString.

(** The loop of [SVMHandClassifier(const char * paths[])]: it ends at the
    entry ["\n"] or at the first path that loads; [None] when it runs off
    the end of the array. *)
Fixpoint tryPaths (fs : Files) (c : SVMHandClassifier) (paths : list String.string)
    : option SVMHandClassifier :=
  match paths with
  | [] => None
  | p :: paths' =>
      if String.eqb p sentinel then Some c
      else
        let '(ok, c') := loadFile fs c p in
        if ok then Some c' else tryPaths fs c' paths'
  end.

Definition constructFrom (fs : Files) (c : SVMHandClassifier) (paths : list String.string)
    : option SVMHandClassifier :=
  tryPaths fs (initSVMs fs c) paths.

End Loader.

(** ** Sample data

    A concrete instance of the helpers and a small synthetic scene, on
    which the model is run in the examples below.  The Euclidean distance
    is computed; the depth window maps a pixel to a point at one
    millimetre per pixel; the angle and curvature helpers return fixed
    values, and the contour, hull, defects and palm circle are given. *)

Module Sample.

Local Open Scope float_scope.

Definition distance (a b : Vec3f) : float :=
  PrimFloat.sqrt ((v0 a - v0 b) * (v0 a - v0 b)
                  + (v1 a - v1 b) * (v1 a - v1 b)
                  + (v2 a - v2 b) * (v2 a - v2 b)).

Definition pointAt (i : Z) : Point2i :=
  match i with
  | 0%Z => mkPoint 100 190
  | 1%Z => mkPoint 110 180
  | 2%Z => mkPoint 125 160
  | 20%Z => mkPoint 80 40
  | 30%Z => mkPoint 100 80
  | 40%Z => mkPoint 120 40
  | 58%Z => mkPoint 75 160
  | 59%Z => mkPoint 90 180
  | _ => mkPoint 100 60
  end.

Definition sampleContour : list Point2i := map pointAt (iota 60).

Definition util : Util := {|
  euclideanDistance := distance;
  averageAroundPoint := fun m pt _ => at3 m (py pt) (px pt);
  nearestPointOnCluster := fun _ pt _ => pt;
  pointInImage := fun m pt =>
    ((0 <=? px pt) && (px pt <? cols m) && (0 <=? py pt) && (py pt <? rows m))%Z;
  pointOnEdge := fun sz pt bot side =>
    ((px pt <? side) || (width sz - side <=? px pt) || (height sz - bot <=? py pt))%Z;
  angleBetweenPoints := fun _ _ _ => 1.5;
  angleBetween3DVec := fun _ _ _ => 1.5;
  pointToAngle := fun _ => 0.5;
  pointToSlope := fun pt => double_of_int (px pt);
  contourCurvature := fun _ _ _ _ => 1.0;
  diameter := fun _ => (150.0, 0%Z, 30%Z);
  largestInscribedCircle := fun _ _ _ _ _ => (mkPoint 100 100, 30.0);
  util_surfaceArea := fun _ _ _ _ => 0.03;
  contourArea := fun _ => 1000.0;
  arcLength := fun _ _ => 400.0;
  convexityDefects := fun _ _ => [mkVec4 20 40 30 5000];
  computeContour := fun _ _ _ _ _ => sampleContour;
  computeConvexHull := fun c =>
    (map pointAt [0; 2; 20; 40; 58]%Z, [0; 2; 20; 40; 58]%Z);
  getBoundingBox := fun _ => mkRect 60 30 80 170
|}.

(** One millimetre per pixel, y upwards, half a metre away. *)
Definition depthAt (r c : Z) : Vec3f :=
  mkVec3 (double_of_int c * 0.001) (double_of_int (240 - r) * 0.001) 0.5.

Definition depth : Mat := mkMat 240 240 depthAt.

(** The same window, except that the pixel of the palm center is two
    metres away: no contour point is then near the palm center. *)
Definition depthFarPalm : Mat :=
  mkMat 240 240 (fun r c => if ((r =? 100) && (c =? 100))%Z
                            then mkVec3 0.1 0.14 2.5 else depthAt r c).

Definition model : HandClassifier.SVM :=
  {| HandClassifier.svm_isTrained := true; HandClassifier.predict := fun _ => 0.8 |}.

Definition classifier : HandClassifier.SVMHandClassifier := {|
  HandClassifier.NUM_SVMS := 4;
  HandClassifier.MAX_FEATURES := 57;
  HandClassifier.trained := true;
  HandClassifier.svm := [model; model; model; model]
|}.

Definition untrained : HandClassifier.SVMHandClassifier := {|
  HandClassifier.NUM_SVMS := 4;
  HandClassifier.MAX_FEATURES := 57;
  HandClassifier.trained := false;
  HandClassifier.svm := []
|}.

Definition cluster : list Point2i := [mkPoint 100 60; mkPoint 100 100].
Definition cluster_xyz : list Vec3f := [depthAt 60 100; depthAt 100 100].

(** A freshly constructed Hand over the scene. *)
Definition hand : Hand :=
  newHand cluster cluster_xyz 2 depth origin (mkSize 240 240) DEFAULT false false.

Definition handFarPalm : Hand :=
  newHand cluster cluster_xyz 2 depthFarPalm origin (mkSize 240 240) DEFAULT false false.

(** Hands with given landmarks: one finger, and two fingers of lengths
    0.09 and 0.05. *)
Definition withLandmarks (fij : list Point2i) (fxyz : list Vec3f)
    (dij : list Point2i) (dxyz : list Vec3f) : Hand :=
  set_defectsXYZ dxyz (set_defectsIJ dij (set_fingersXYZ fxyz (set_fingersIJ fij
    (set_wrist [mkPoint 125 160; mkPoint 75 160] [depthAt 160 125; depthAt 160 75]
       (set_palm (mkPoint 100 100) (depthAt 100 100) 30.0
          (set_contour sampleContour (map pointAt [0; 2; 20; 40; 58]%Z)
                       [0; 2; 20; 40; 58]%Z hand)))))).

Definition oneFinger : Hand :=
  withLandmarks [mkPoint 100 20] [mkVec3 0.1 0.22 0.5]
                [mkPoint 100 80] [mkVec3 0.1 0.16 0.5].

Definition twoFingers : Hand :=
  withLandmarks [mkPoint 80 40; mkPoint 120 40]
                [mkVec3 0.08 0.25 0.5; mkVec3 0.12 0.21 0.5]
                [mkPoint 100 80; mkPoint 100 80]
                [mkVec3 0.08 0.16 0.5; mkVec3 0.12 0.16 0.5].

(** Two finger candidates in the same image row, 5 mm apart. *)
Definition closeCands : list Cand :=
  [ Build_Cand (depthAt 40 100) (mkPoint 100 40) (mkPoint 100 80) 20 30;
    Build_Cand (depthAt 40 105) (mkPoint 105 40) (mkPoint 100 80) 25 30 ].

(** Two finger candidates one above the other, 5 mm apart. *)
Definition stackedCands : list Cand :=
  [ Build_Cand (depthAt 45 100) (mkPoint 100 45) (mkPoint 100 80) 20 30;
    Build_Cand (depthAt 40 100) (mkPoint 100 40) (mkPoint 100 80) 25 30 ].

(** The helpers again, with a contour that is curved (1.0) at the two
    fingertips, indices 20 and 40, and nearly straight (0.01) elsewhere. *)
Definition utilCurved : Util := {|
  euclideanDistance := euclideanDistance util;
  averageAroundPoint := averageAroundPoint util;
  nearestPointOnCluster := nearestPointOnCluster util;
  pointInImage := pointInImage util;
  pointOnEdge := pointOnEdge util;
  angleBetweenPoints := angleBetweenPoints util;
  angleBetween3DVec := angleBetween3DVec util;
  pointToAngle := pointToAngle util;
  pointToSlope := pointToSlope util;
  contourCurvature := fun _ center _ _ =>
    if ((center =? 20) || (center =? 40))%Z then 1.0 else 0.01;
  diameter := diameter util;
  largestInscribedCircle := largestInscribedCircle util;
  util_surfaceArea := util_surfaceArea util;
  contourArea := contourArea util;
  arcLength := arcLength util;
  convexityDefects := convexityDefects util;
  computeContour := computeContour util;
  computeConvexHull := computeConvexHull util;
  getBoundingBox := getBoundingBox util
|}.

(** The scene once the palm circle is in place, and once accepted. *)
Definition palmLocated : Hand := fst (fst (locatePalm util hand)).

Definition accepted : Hand :=
  match checkForHand util classifier false hand with
  | Done _ h => h
  | _ => hand
  end.

End Sample.

(** ** Predicates of the statements *)

(** The four landmark vectors of a Hand. *)
Definition landmarks (h : Hand)
    : list Point2i * list Vec3f * list Point2i * list Vec3f :=
  (fingersIJ h, fingersXYZ h, defectsIJ h, defectsXYZ h).

(** The four landmark vectors have one length, the finger count. *)
Definition aligned (h : Hand) : Prop :=
  zlen (fingersIJ h) = getNumFingers h /\
  zlen (fingersXYZ h) = getNumFingers h /\
  zlen (defectsIJ h) = getNumFingers h /\
  zlen (defectsXYZ h) = getNumFingers h.

(** The object a call leaves behind, if the call ends. *)
Definition finalHand (r : Result) : option Hand :=
  match r with
  | Done _ h => Some h
  | Fault h => Some h
  | OutOfFuel => None
  end.

(** Steps a wrist walk still has to make from [i] before it is back at
    [stop]. *)
Definition remaining (n step stop i : Z) : Z :=
  if step =? 1 then (if i <? stop then stop - i else stop - i + n)
  else (if stop <? i then i - stop else i - stop + n).

(** Candidate [j] counts against candidate [i] in the deduplication: the
    inner loop does not pass over it and it is closer than
    [fingerDistMin]. *)
Definition tooClose (U : Util) (tips : list Vec3f) (fingerDistMin : float)
    (i j : Z) : Prop :=
  dedupSkip tips i j = false /\
  (euclideanDistance U (at_ vzero tips i) (at_ vzero tips j) <? fingerDistMin)%float
  = true.

(** The drop rule in the specification's words: some other candidate with
    a strictly smaller row is closer than [fingerDistMin]. *)
Definition claimedDrops (U : Util) (cands : list Cand) (fingerDistMin : float)
    (i : Z) : Prop :=
  exists j, 0 <= j < zlen cands /\ j <> i /\
            py (c_ij (at_ noCand cands j)) < py (c_ij (at_ noCand cands i)) /\
            (euclideanDistance U (c_xyz (at_ noCand cands i))
                                 (c_xyz (at_ noCand cands j)) <? fingerDistMin)%float
            = true.

(** An order-preserving key for the binary64 values that are not NaN:
    class and sign first, then exponent, then mantissa. *)
Definition sf_rank (x : spec_float) : Z * Z * Z :=
  match x with
  | S754_infinity true => (-2, 0, 0)
  | S754_finite true m e => (-1, - e, - Z.pos m)
  | S754_zero _ => (0, 0, 0)
  | S754_nan => (0, 0, 0)
  | S754_finite false m e => (1, e, Z.pos m)
  | S754_infinity false => (2, 0, 0)
  end.

Definition lex_lt (a b : Z * Z * Z) : Prop :=
  let '(a1, a2, a3) := a in
  let '(b1, b2, b3) := b in
  a1 < b1 \/ (a1 = b1 /\ (a2 < b2 \/ (a2 = b2 /\ a3 < b3))).

Definition notnan (x : float) : Prop := Prim2SF x <> S754_nan.
Definition rank (x : float) : Z * Z * Z := sf_rank (Prim2SF x).

(** ** More sample data

    A file system with one complete model directory, helpers that find no
    convexity defect, the sample hand after the edge sweeps, and a scene
    that stays clear of the image border. *)

Module SampleFiles.

Import String.
Local Open Scope string_scope.

Definition modelsDir : string := "models".
Definition missingDir : string := "missing".

Definition join (a b : string) : string := a ++ "/" ++ b.

Definition files : Loader.Files := {|
  Loader.OPENARK_DIR := None;
  Loader.path_join := join;
  Loader.file_exists := fun p => prefix "models/svm_" p;
  Loader.SVM_load := fun _ => Sample.model;
  Loader.SVM_create := fun _ =>
    {| HandClassifier.svm_isTrained := false; HandClassifier.predict := fun _ => 0%float |}
|}.

End SampleFiles.

Module Sample2.

Definition utilNoDefects : Util := {|
  euclideanDistance := euclideanDistance Sample.util;
  averageAroundPoint := averageAroundPoint Sample.util;
  nearestPointOnCluster := nearestPointOnCluster Sample.util;
  pointInImage := pointInImage Sample.util;
  pointOnEdge := pointOnEdge Sample.util;
  angleBetweenPoints := angleBetweenPoints Sample.util;
  angleBetween3DVec := angleBetween3DVec Sample.util;
  pointToAngle := pointToAngle Sample.util;
  pointToSlope := pointToSlope Sample.util;
  contourCurvature := contourCurvature Sample.util;
  diameter := diameter Sample.util;
  largestInscribedCircle := largestInscribedCircle Sample.util;
  util_surfaceArea := util_surfaceArea Sample.util;
  contourArea := contourArea Sample.util;
  arcLength := arcLength Sample.util;
  convexityDefects := fun _ _ => [];
  computeContour := computeContour Sample.util;
  computeConvexHull := computeConvexHull Sample.util;
  getBoundingBox := getBoundingBox Sample.util
|}.

Definition edgeChecked : Hand :=
  match checkEdgeConnected Sample.hand with
  | Some h => h
  | None => Sample.hand
  end.

(** The sample scene with depth only away from the image border, so that
    the edge sweeps meet no valid sample; the hand over it, and that hand
    after [initializeObject]. *)
Definition depthInner : Mat :=
  mkMat 240 240 (fun r c => if (r <? 200) && (20 <=? c) && (c <? 220)
                            then Sample.depthAt r c else vzero).

Definition handInner : Hand :=
  newHand Sample.cluster Sample.cluster_xyz 2 depthInner origin (mkSize 240 240)
          DEFAULT false false.

Definition initialized : Hand :=
  match initializeObjectAll Sample.util Sample.classifier false handInner with
  | Done _ h => h
  | _ => handInner
  end.

(** The classifier object before its models are loaded. *)
Definition blank : HandClassifier.SVMHandClassifier :=
  Loader.initSVMs SampleFiles.files Sample.untrained.

(** A feature vector that reports two fingers. *)
Definition features : list float := [2%float; 0.5%float; 0.25%float].

(** The one-finger hand of the sample scene, over a cluster one of whose
    two points lies 2^100 to the side: every coordinate is finite. *)
Definition farPoint : Vec3f := mkVec3 0x1p100%float 0.14%float 0.5%float.

Definition farHand : Hand :=
  set_defectsXYZ [mkVec3 0.1 0.16 0.5] (set_defectsIJ [mkPoint 100 80]
    (set_fingersXYZ [mkVec3 0.1 0.22 0.5] (set_fingersIJ [mkPoint 100 20]
      (set_wrist [mkPoint 125 160; mkPoint 75 160]
                 [Sample.depthAt 160 125; Sample.depthAt 160 75]
         (set_palm (mkPoint 100 100) (Sample.depthAt 100 100) 30.0
            (set_contour Sample.sampleContour (map Sample.pointAt [0; 2; 20; 40; 58]%Z)
                         [0; 2; 20; 40; 58]%Z
               (newHand Sample.cluster [Sample.depthAt 60 100; farPoint] 2 Sample.depth
                        origin (mkSize 240 240) DEFAULT false false))))))).

End Sample2.

(** ** Predicates of the statements, continued *)

(** What the defect scan has established after the defects before index
    [k]. *)
Definition scanned (defects : list Vec4i) (k : Z) (st : DefectScan) : Prop :=
  length (fingerTipCands st) = length (fingerDefectCands st) /\
  (length (fingerTipCands st) <= 2 * length (goodDefects st))%nat /\
  StronglySorted Z.lt (goodDefects st) /\
  Forall (fun g => 0 <= g < k) (goodDefects st) /\
  Forall (fun td => exists g, In g (goodDefects st) /\
                              snd td = d2 (at_ noDefect defects g) /\
                              (fst td = d0 (at_ noDefect defects g) \/
                               fst td = d1 (at_ noDefect defects g)))
         (combine (fingerTipCands st) (fingerDefectCands st)).

(** What the filter guarantees of a candidate it lets through. *)
Definition passedFilter (U : Util) (h : Hand) (tipCands defCands : list Z) (c : Cand)
    : Prop :=
  let p := params h in
  let len := euclideanDistance U (c_xyz c) (xyzAt U h (psub (c_defij c) (topLeftPt h))) in
  (exists i, 0 <= i < zlen tipCands /\
             c_tipIdx c = at_ 0 tipCands i /\ c_defIdx c = at_ 0 defCands i) /\
  c_ij c = at_ origin (contour h) (c_tipIdx c) /\
  c_defij c = at_ origin (contour h) (c_defIdx c) /\
  c_xyz c = xyzAt U h (psub (c_ij c) (topLeftPt h)) /\
  (len <? fingerLenMax p)%float = true /\
  (fingerLenMin p <? len)%float = true /\
  (v2 (c_xyz c) =? 0)%float = false /\
  10 <= points_to_defect (zlen (contour h)) (c_tipIdx c) (c_defIdx c).

(** The feature vector [result] as the sanitising pass of
    [extractHandFeatures] finds it (a hand without fingers returns before
    the pass). *)
Definition rawFeatures (U : Util) (hand : Hand) (depth_map : Mat) : list float :=
  [double_of_int (getNumFingers hand)]
  ++ HandClassifier.scalarBlock U hand depth_map
  ++ flat_map (fun k => HandClassifier.fingerBlock U hand depth_map (snd k))
              (HandClassifier.fingerOrder U hand).

(** Candidate [i] lies below candidate [j], or level with it and earlier
    in the list. *)
Definition below (tips : list Vec3f) (i j : Z) : Prop :=
  let yi := v1 (at_ vzero tips i) in
  let yj := v1 (at_ vzero tips j) in
  (yi <? yj)%float = true \/ ((yi =? yj)%float = true /\ i < j).

(** Everything in a Hand that finger detection and the gate leave alone. *)
Definition frame (h : Hand) :=
  (points h, points_xyz h, num_points h, xyzMap h, topLeftPt h, fullMapSize h,
   params h, contour h, convexHull h, indexHull h, surfaceArea h,
   leftEdgeConnected h, rightEdgeConnected h,
   palmCenterIJ h, palmCenterXYZ h, circleRadius h, wristIJ h, wristXYZ h).

(** The 3D point of contour index [w], and the object after the two wrist
    points have been recorded. *)
Definition wristPoint (U : Util) (h : Hand) (w : Z) : Vec3f :=
  xyzAt U h (psub (at_ origin (contour h) w) (topLeftPt h)).

Definition withWrist (U : Util) (h : Hand) (wristL wristR : Z) : Hand :=
  set_wrist (wristIJ h ++ [at_ origin (contour h) wristL; at_ origin (contour h) wristR])
            (wristXYZ h ++ [wristPoint U h wristL; wristPoint U h wristR]) h.

Definition wristWidthOf (U : Util) (h : Hand) (wristL wristR : Z) : float :=
  to_float32 (euclideanDistance U (wristPoint U h wristL) (wristPoint U h wristR)).

(** What the edge sweeps read. *)
Definition sweepInput (h : Hand) :=
  (xyzMap h, topLeftPt h, fullMapSize h, params h).

(** The window's top edge lies inside the frame. *)
Definition windowInFrame (h : Hand) : Prop :=
  py (topLeftPt h) <= height (fullMapSize h) /\ 0 <= rows (xyzMap h).

(** The planes finger [i] touches, by index. *)
Definition planesTouched (h : Hand) (planes : list FramePlane) (threshold : float)
    (extrapolate : bool) (i : Z) : list Z :=
  filter (fun j => touching (at_ (Build_FramePlane (fun _ _ _ _ => false)) planes j)
                            (at_ vzero (fingersXYZ h) i) (at_ origin (fingersIJ h) i)
                            threshold (negb extrapolate))
         (iota (zlen planes)).

Definition nonEmpty {A} (l : list A) : bool :=
  match l with [] => false | _ => true end.

(** Every bucket's file under [ipath] exists and holds a trained model. *)
Definition loads (fs : Loader.Files) (n : Z) (ipath : String.string) : Prop :=
  forall i, 0 <= i < n ->
    Loader.file_exists fs (Loader.loadPath fs (Loader.filePathOf fs ipath) i) = true /\
    HandClassifier.svm_isTrained
      (Loader.SVM_load fs (Loader.loadPath fs (Loader.filePathOf fs ipath) i)) = true.

(** * Properties *)

Import HandClassifier.

(** ** Lists and sorting *)

Lemma zlen_app {A} (l1 l2 : list A) : zlen (l1 ++ l2) = zlen l1 + zlen l2.
Proof. unfold zlen. rewrite length_app. lia. Qed.

Lemma zlen_nonneg {A} (l : list A) : 0 <= zlen l.
Proof. unfold zlen. lia. Qed.

Lemma zlen_iota (n : Z) : 0 <= n -> zlen (iota n) = n.
Proof. intros Hn. unfold zlen, iota. rewrite length_map, length_seq. lia. Qed.

Lemma in_iota (n i : Z) : In i (iota n) <-> 0 <= i < n.
Proof.
  unfold iota. rewrite in_map_iff. split.
  - intros (k & <- & Hk). apply in_seq in Hk. lia.
  - intros Hi. exists (Z.to_nat i). split; [lia | apply in_seq; lia].
Qed.

Lemma length_insert_by {A} (lt : A -> A -> bool) (x : A) (l : list A) :
  length (insert_by lt x l) = S (length l).
Proof.
  induction l as [|y l IH]; simpl; [reflexivity|].
  destruct (lt y x); simpl; congruence.
Qed.

Lemma length_std_sort {A} (lt : A -> A -> bool) (l : list A) :
  length (std_sort lt l) = length l.
Proof.
  induction l as [|x l IH]; simpl; [reflexivity|].
  rewrite length_insert_by. congruence.
Qed.

Lemma insert_by_perm {A} (lt : A -> A -> bool) (x : A) (l : list A) :
  Permutation (x :: l) (insert_by lt x l).
Proof.
  induction l as [|y l IH]; simpl; [reflexivity|].
  destruct (lt y x); [|reflexivity].
  rewrite perm_swap. now apply perm_skip.
Qed.

Lemma std_sort_perm {A} (lt : A -> A -> bool) (l : list A) :
  Permutation l (std_sort lt l).
Proof.
  induction l as [|x l IH]; simpl; [reflexivity|].
  rewrite <- insert_by_perm. now apply perm_skip.
Qed.

Lemma length_flat_map_const {A B} (f : A -> list B) (k : nat) (l : list A) :
  (forall x, length (f x) = k) -> length (flat_map f l) = (k * length l)%nat.
Proof.
  intros Hf. induction l as [|x l IH]; simpl; [lia|].
  rewrite length_app, Hf, IH. lia.
Qed.

Section FeatureFacts.

Variable U : Util.

Lemma length_scalarBlock (hand : Hand) (dm : Mat) :
  length (scalarBlock U hand dm) = 12%nat.
Proof.
  unfold scalarBlock.
  destruct (computeMeanAndVariance _ _) as [[[? ?] ?] ?].
  destruct (diameter U _) as [[? ?] ?].
  destruct (fold_left _ _ _) as [? ?].
  reflexivity.
Qed.

Lemma length_fingerBlock (hand : Hand) (dm : Mat) (j : Z) :
  length (fingerBlock U hand dm j) = if 1 <? getNumFingers hand then 11%nat else 7%nat.
Proof.
  unfold fingerBlock. rewrite length_app. cbn [length].
  destruct (1 <? getNumFingers hand); [|reflexivity].
  destruct (otherDistances U hand dm j) as [[[? ?] ?] ?]. reflexivity.
Qed.

Lemma length_fingerOrder (hand : Hand) :
  length (fingerOrder U hand) = length (fingersXYZ hand).
Proof.
  unfold fingerOrder. rewrite length_std_sort, length_map.
  unfold iota, getNumFingers, zlen. rewrite length_map, length_seq. lia.
Qed.

(** C1 (as amended): the feature vector has length 1 for a hand without
    fingers, 1 + 12 + 7 for one finger and 1 + 12 + 11 * fingers for more:
    the count, a block of twelve scalars, then 7 or 11 values per finger. *)
Theorem extractHandFeatures_length (hand : Hand) (dm : Mat) (tl : Point2i)
    (scale : float) (full_wid : Z) :
  zlen (extractHandFeatures U hand dm tl scale full_wid) =
    let n := getNumFingers hand in
    if n =? 0 then 1
    else if n =? 1 then 1 + 12 + n * 7
    else 1 + 12 + n * 11.
Proof.
  cbv zeta. unfold extractHandFeatures.
  destruct (getNumFingers hand =? 0) eqn:E0; [reflexivity|].
  unfold sanitize, zlen. rewrite length_map. cbn [app length].
  rewrite length_app, length_scalarBlock.
  rewrite (length_flat_map_const _ (if 1 <? getNumFingers hand then 11%nat else 7%nat)).
  2:{ intros x. apply length_fingerBlock. }
  rewrite length_fingerOrder.
  assert (Hn : getNumFingers hand = Z.of_nat (length (fingersXYZ hand))) by reflexivity.
  destruct (getNumFingers hand =? 1) eqn:E1.
  - apply Z.eqb_eq in E1. rewrite E1. cbn. lia.
  - apply Z.eqb_neq in E1. apply Z.eqb_neq in E0.
    destruct (1 <? getNumFingers hand) eqn:E2; [lia|].
    apply Z.ltb_ge in E2. lia.
Qed.

End FeatureFacts.

(** C1 (as stated) fails: a hand with one finger yields 20 values, not
    1 + 11 + 1 * 7. *)
Lemma extractHandFeatures_length_not_19 :
  getNumFingers Sample.oneFinger = 1 /\
  zlen (extractHandFeatures Sample.util Sample.oneFinger Sample.depth origin 1%float 240)
    <> 1 + 11 + getNumFingers Sample.oneFinger * 7.
Proof. split; [reflexivity|]. vm_compute. discriminate. Qed.

(** ** Binary64 comparisons *)

Ltac sf_cases :=
  repeat match goal with
         | s : bool |- _ => destruct s
         end;
  cbn [SFcompare sf_rank lex_lt CompOpp];
  change (Pos.compare_cont Eq) with Pos.compare;
  repeat match goal with
         | |- context [Z.compare ?a ?b] => destruct (Z.compare_spec a b)
         | |- context [Pos.compare ?a ?b] => destruct (Pos.compare_spec a b)
         end;
  cbn [CompOpp];
  split; intros; try discriminate; try congruence; try lia.

Lemma SFcompare_Lt_rank (a b : spec_float) :
  SFcompare a b = Some Lt <->
  a <> S754_nan /\ b <> S754_nan /\ lex_lt (sf_rank a) (sf_rank b).
Proof.
  destruct a as [s|s| |s m e], b as [t|t| |t n f]; sf_cases.
  all: try (repeat split; try congruence; lia).
  all: try (destruct H as (? & ? & ?); try congruence; lia).
  all: try (destruct H0 as (? & ? & ?); try congruence; lia).
  all: try (destruct H1 as (? & ? & ?); try congruence; lia).
Qed.

Lemma ltb_rank (x y : float) :
  (x <? y)%float = true <-> notnan x /\ notnan y /\ lex_lt (rank x) (rank y).
Proof.
  rewrite ltb_spec. unfold SFltb, notnan, rank.
  rewrite <- SFcompare_Lt_rank.
  destruct (SFcompare (Prim2SF x) (Prim2SF y)) as [[]|]; split; congruence.
Qed.

Lemma ltb_notnan_l (x y : float) : (x <? y)%float = true -> notnan x.
Proof. intros H. now apply ltb_rank in H. Qed.

Lemma ltb_trans (x y z : float) :
  (x <? y)%float = true -> (y <? z)%float = true -> (x <? z)%float = true.
Proof.
  rewrite !ltb_rank. intros (Hx & Hy & Hxy) (_ & Hz & Hyz).
  repeat split; try assumption.
  destruct (rank x) as [[x1 x2] x3], (rank y) as [[y1 y2] y3], (rank z) as [[z1 z2] z3].
  cbn [lex_lt] in *. lia.
Qed.

(** From [x < z], [not (x < y)] and [y] not NaN: [y <= x < z]. *)
Lemma ltb_le_lt (x y z : float) :
  (x <? z)%float = true -> (x <? y)%float = false -> notnan y ->
  (y <? z)%float = true.
Proof.
  intros Hxz Hxy Hy.
  assert (Hn : ~ (notnan x /\ notnan y /\ lex_lt (rank x) (rank y))).
  { rewrite <- ltb_rank. congruence. }
  apply ltb_rank in Hxz. destruct Hxz as (Hx & Hz & Hxz).
  apply ltb_rank. repeat split; try assumption.
  destruct (rank x) as [[x1 x2] x3], (rank y) as [[y1 y2] y3], (rank z) as [[z1 z2] z3].
  cbn [lex_lt] in *.
  assert (~ (x1 < y1 \/ x1 = y1 /\ (x2 < y2 \/ x2 = y2 /\ x3 < y3))) by tauto.
  lia.
Qed.

Lemma sf_zero : Prim2SF 0 = S754_zero false.
Proof. vm_compute. reflexivity. Qed.

Lemma sf_one : Prim2SF 1 = S754_finite false 4503599627370496 (-52).
Proof. vm_compute. reflexivity. Qed.

(** The clamp of [classify]: [std::max(std::min(1.0, r), 0.0)] lies in
    [0, 1] for every double [r], NaN included. *)
Lemma clamp_range (r : float) :
  (0 <=? std_max (std_min 1 r) 0)%float = true /\
  (std_max (std_min 1 r) 0 <=? 1)%float = true.
Proof.
  unfold std_max, std_min.
  destruct (r <? 1)%float eqn:E1.
  - destruct (r <? 0)%float eqn:E0; [split; reflexivity|].
    revert E0 E1. rewrite !ltb_spec, !leb_spec, sf_zero, sf_one.
    destruct (Prim2SF r) as [s|s| |s m e]; try destruct s;
      unfold SFltb, SFleb, SFcompare; try congruence; try (split; congruence).
    destruct (Z.compare e (-52)); try congruence; try (split; congruence).
    destruct (Pos.compare_cont Eq m 4503599627370496); try congruence; split; congruence.
  - replace (1 <? 0)%float with false by reflexivity. split; reflexivity.
Qed.

(** What the sanitising loop leaves in place of one entry. *)
Lemma sanitize1_cases (x : float) :
  (isnan x = true /\ sanitize1 x = 1.0%float) \/
  (isnan x = false /\ fge x FLT_MAX = true /\ sanitize1 x = 100.0%float) \/
  (isnan x = false /\ fge x FLT_MAX = false /\ sanitize1 x = x).
Proof.
  unfold sanitize1.
  destruct (isnan x); [left; now split|].
  destruct (fge x FLT_MAX); [right; left | right; right]; repeat split.
Qed.

Lemma sanitize1_clean (x : float) :
  isnan (sanitize1 x) = false /\ fge (sanitize1 x) FLT_MAX = false.
Proof.
  destruct (sanitize1_cases x) as [(_ & ->) | [(_ & _ & ->) | (Hn & Hm & ->)]].
  - split; reflexivity.
  - split; reflexivity.
  - now split.
Qed.

(** C5: [classify] throws ClassifierNotTrainedException exactly when the
    classifier is not trained. *)
Theorem classify_throws_iff_untrained (c : SVMHandClassifier) (features : list float) :
  classify c features = Throws ClassifierNotTrainedException <-> isTrained c = false.
Proof.
  unfold classify, isTrained.
  destruct (trained c); cbn [negb].
  - split; [|discriminate].
    destruct (zlen features =? 0); [discriminate|].
    destruct (svm_at c _); discriminate.
  - split; reflexivity.
Qed.

(** On a trained classifier, a returned confidence lies in [0, 1]. *)
Lemma classify_returns_clamped (c : SVMHandClassifier) (features : list float) (r : float) :
  classify c features = Returns r ->
  (0 <=? r)%float = true /\ (r <=? 1)%float = true.
Proof.
  unfold classify.
  destruct (negb (trained c)); [discriminate|].
  destruct (zlen features =? 0).
  - intros [= <-]. split; reflexivity.
  - destruct (svm_at c _); [|discriminate].
    intros [= <-]. apply clamp_range.
Qed.

(** [classify] returns whenever the bucket index is inside the array. *)
Lemma classify_returns (c : SVMHandClassifier) (features : list float) :
  trained c = true ->
  Z.of_nat (length (svm c)) = NUM_SVMS c ->
  0 <= getSVMIdx c features ->
  exists r, classify c features = Returns r.
Proof.
  intros Ht Hlen Hidx. unfold classify. rewrite Ht. cbn [negb].
  destruct (zlen features =? 0); [eauto|].
  unfold svm_at.
  assert (Hlt : getSVMIdx c features < NUM_SVMS c).
  { unfold getSVMIdx, getSVMIdx_int. lia. }
  replace ((0 <=? getSVMIdx c features) && (getSVMIdx c features <? NUM_SVMS c))
    with true by (symmetry; apply andb_true_iff; split; [apply Z.leb_le | apply Z.ltb_lt]; lia).
  destruct (nth_error (svm c) (Z.to_nat (getSVMIdx c features))) eqn:E; [eauto|].
  apply nth_error_None in E. lia.
Qed.

(** C6: the feature vector of a hand without fingers is [[0.0]]; on it a
    trained classifier reads [svm[-1]] and returns no confidence. *)
Theorem classify_no_fingers_out_of_bounds (c : SVMHandClassifier) :
  classify c [0%float] =
    if trained c then OutOfBounds else Throws ClassifierNotTrainedException.
Proof.
  unfold classify. destruct (trained c); cbn [negb]; [|reflexivity].
  replace (zlen [0%float] =? 0) with false by reflexivity.
  unfold svm_at.
  replace (getSVMIdx c [0%float]) with (Z.min (-1) (NUM_SVMS c - 1)) by reflexivity.
  replace (0 <=? Z.min (-1) (NUM_SVMS c - 1)) with false; [reflexivity|].
  symmetry. apply Z.leb_gt. lia.
Qed.

Lemma insert_by_last {A} (lt : A -> A -> bool) (x : A) (l : list A) :
  (forall y, In y l -> lt y x = true) -> insert_by lt x l = l ++ [x].
Proof.
  induction l as [|y l IH]; intros H; simpl; [reflexivity|].
  rewrite (H y) by now left.
  rewrite IH; [reflexivity|]. intros z Hz. apply H. now right.
Qed.

(** Keys whose lengths all cast to the same [int] come out of the sort in
    descending index order, whatever the lengths are. *)
Lemma std_sort_equal_ints (len : Z -> float) (k : Z) (m a : nat) :
  (forall j, (a <= j < a + m)%nat -> int_of_double (len (Z.of_nat j)) = k) ->
  std_sort greater_pair_int (map (fun i => (len i, i)) (map Z.of_nat (seq a m)))
  = rev (map (fun i => (len i, i)) (map Z.of_nat (seq a m))).
Proof.
  revert a. induction m as [|m IH]; intros a H; [reflexivity|].
  cbn [seq map std_sort fold_right rev].
  change (fold_right (insert_by greater_pair_int) []) with (std_sort greater_pair_int).
  rewrite IH by (intros j Hj; apply H; lia).
  apply insert_by_last. intros y Hy.
  apply in_rev, in_map_iff in Hy. destruct Hy as (i & <- & Hi).
  apply in_map_iff in Hi. destruct Hi as (j & <- & Hj).
  apply in_seq in Hj.
  unfold greater_pair_int. cbn [fst snd].
  rewrite (H j) by lia. rewrite (H a) by lia.
  rewrite Z.ltb_irrefl. cbn [orb negb andb]. apply Z.ltb_lt. lia.
Qed.

Section OrderFacts.
Variable U : Util.

Lemma fingerOrder_equal_ints (hand : Hand) (k : Z) :
  (forall i, 0 <= i < getNumFingers hand ->
     int_of_double (euclideanDistance U (at_ vzero (fingersXYZ hand) i)
                                        (at_ vzero (defectsXYZ hand) i)) = k) ->
  map snd (fingerOrder U hand) = rev (iota (getNumFingers hand)).
Proof.
  intros H. unfold fingerOrder, iota.
  rewrite (std_sort_equal_ints
             (fun i => euclideanDistance U (at_ vzero (fingersXYZ hand) i)
                                           (at_ vzero (defectsXYZ hand) i)) k).
  - rewrite <- map_rev, map_map. cbn [snd]. rewrite map_id. reflexivity.
  - intros j Hj. apply H. unfold getNumFingers, zlen in *. lia.
Qed.

End OrderFacts.

(** C3: on a hand whose finger 0 is 0.09 long and whose finger 1 is 0.05
    long, the per-finger blocks come in the order 1, 0: the comparator
    casts both lengths to the int 0 and orders by descending index, so the
    block of the shorter finger (first value: length * 5) comes first in
    the feature vector. *)
Theorem fingerOrder_not_by_length :
  let len i := euclideanDistance Sample.util
                 (at_ vzero (fingersXYZ Sample.twoFingers) i)
                 (at_ vzero (defectsXYZ Sample.twoFingers) i) in
  let features :=
    extractHandFeatures Sample.util Sample.twoFingers Sample.depth origin 1%float 240 in
  PrimFloat.ltb (len 1) (len 0) = true /\
  int_of_double (len 0) = 0 /\ int_of_double (len 1) = 0 /\
  map snd (fingerOrder Sample.util Sample.twoFingers) = [1; 0] /\
  nth 13 features 0%float = PrimFloat.mul (len 1) 5.0%float /\
  nth 24 features 0%float = PrimFloat.mul (len 0) 5.0%float.
Proof.
  cbv zeta.
  split; [vm_compute; reflexivity|].
  split; [vm_compute; reflexivity|].
  split; [vm_compute; reflexivity|].
  split; [vm_compute; reflexivity|].
  split; vm_compute; reflexivity.
Qed.

(** ** Deduplication *)

Section DedupFacts.
Variable U : Util.

Lemma dedupInner_lt (tips : list Vec3f) (fdm : float) (i : Z) (js : list Z) (m : float) :
  notnan m ->
  (dedupInner U tips fdm i js m <? fdm)%float = true <->
  (m <? fdm)%float = true \/ exists j, In j js /\ tooClose U tips fdm i j.
Proof.
  revert m. induction js as [|j js IH]; intros m Hm; cbn [dedupInner].
  - split; [tauto|]. intros [H|(j & [] & _)]. exact H.
  - unfold tooClose in *.
    destruct (dedupSkip tips i j) eqn:Es.
    + rewrite IH by assumption. split.
      * intros [H|(j' & Hj' & H)]; [now left|]. right. exists j'. split; [now right|exact H].
      * intros [H|(j' & [<-|Hj'] & H)]; [now left| |].
        -- destruct H; congruence.
        -- right. exists j'. now split.
    + set (d := euclideanDistance U (at_ vzero tips i) (at_ vzero tips j)) in *.
      destruct (d <? m)%float eqn:Edm.
      * destruct (d <? fdm)%float eqn:Edf.
        -- rewrite Edf. split; [|reflexivity]. intros _. right. exists j.
           split; [now left|]. split; [exact Es|exact Edf].
        -- rewrite IH by (eapply ltb_notnan_l; exact Edm). split.
           ++ intros [H|(j' & Hj' & H)]; [congruence|].
              right. exists j'. split; [now right|exact H].
           ++ intros [H|(j' & [<-|Hj'] & H)].
              ** rewrite (ltb_trans d m fdm Edm H) in Edf. discriminate.
              ** destruct H as [_ H]. fold d in H. congruence.
              ** right. exists j'. now split.
      * rewrite IH by assumption. split.
        -- intros [H|(j' & Hj' & H)]; [now left|].
           right. exists j'. split; [now right|exact H].
        -- intros [H|(j' & [<-|Hj'] & H)]; [now left| |].
           ++ left. destruct H as [_ H]. fold d in H.
              exact (ltb_le_lt d m fdm H Edm Hm).
           ++ right. exists j'. now split.
Qed.

Lemma notnan_DBL_MAX : notnan DBL_MAX.
Proof. unfold notnan. vm_compute. discriminate. Qed.

(** A candidate is dropped exactly when some candidate that the inner loop
    does not pass over is closer to it than [fingerDistMin] (or when
    [fingerDistMin] exceeds DBL_MAX). *)
Lemma dedupDrops_tooClose (tips : list Vec3f) (fingerDistMin : float) (i : Z) :
  dedupDrops U tips fingerDistMin i = true <->
  (DBL_MAX <? fingerDistMin)%float = true \/
  exists j, 0 <= j < zlen tips /\ tooClose U tips fingerDistMin i j.
Proof.
  unfold dedupDrops. rewrite dedupInner_lt by apply notnan_DBL_MAX.
  split; (intros [H|(j & Hj & H)]; [now left|right; exists j; split; [|exact H]]).
  - apply in_iota. exact Hj.
  - apply in_iota. exact Hj.
Qed.

End DedupFacts.

(** ** The wrist walks terminate *)

Lemma mod_step_up (n i : Z) :
  0 <= i < n -> (i + 1 + n) mod n = if i + 1 <? n then i + 1 else 0.
Proof.
  intros Hi. replace (i + 1 + n) with (i + 1 + 1 * n) by lia.
  rewrite Z_mod_plus_full.
  destruct (i + 1 <? n) eqn:E.
  - apply Z.ltb_lt in E. apply Z.mod_small. lia.
  - apply Z.ltb_ge in E. replace (i + 1) with n by lia. apply Z_mod_same_full.
Qed.

Lemma mod_step_down (n i : Z) :
  0 <= i < n -> (i + -1 + n) mod n = if i =? 0 then n - 1 else i - 1.
Proof.
  intros Hi. destruct (i =? 0) eqn:E.
  - apply Z.eqb_eq in E. subst i. replace (0 + -1 + n) with (n - 1) by lia.
    apply Z.mod_small. lia.
  - apply Z.eqb_neq in E. replace (i + -1 + n) with (i - 1 + 1 * n) by lia.
    rewrite Z_mod_plus_full. apply Z.mod_small. lia.
Qed.

Ltac zcases :=
  repeat match goal with
         | |- context [?a <? ?b] => destruct (Z.ltb_spec a b)
         | |- context [?a <=? ?b] => destruct (Z.leb_spec a b)
         | |- context [?a =? ?b] => destruct (Z.eqb_spec a b)
         end.

Section WalkFacts.

Variable U : Util.

Lemma walk_some (h : Hand) (step stop : Z) :
  step = 1 \/ step = -1 ->
  0 <= stop < zlen (contour h) ->
  forall (fuel : nat) (i : Z),
    0 <= i < zlen (contour h) ->
    remaining (zlen (contour h)) step stop i <= Z.of_nat fuel ->
    exists w, walk U fuel h step stop i = Some w /\
              (w = -1 \/ (0 <= w < zlen (contour h) /\ nearCenter U h w = true)).
Proof.
  intros Hstep Hstop. set (n := zlen (contour h)) in *.
  induction fuel as [|fuel IH]; intros i Hi Hrem.
  - exfalso. unfold remaining in Hrem.
    destruct (step =? 1), (i <? stop) eqn:E1, (stop <? i) eqn:E2;
      try apply Z.ltb_lt in E1; try apply Z.ltb_ge in E1;
      try apply Z.ltb_lt in E2; try apply Z.ltb_ge in E2; lia.
  - cbn [walk]. fold n.
    destruct (nearCenter U h i) eqn:En; [exists i; split; [reflexivity|right; now split]|].
    set (i' := (i + step + n) mod n).
    destruct (i' =? stop) eqn:Es; [exists (-1); split; [reflexivity|now left]|].
    apply Z.eqb_neq in Es.
    assert (Hi' : 0 <= i' < n) by (apply Z.mod_pos_bound; lia).
    apply IH; [exact Hi'|].
    revert Hrem Es. unfold remaining. subst i'.
    destruct Hstep as [-> | ->].
    + rewrite mod_step_up by lia. change (1 =? 1) with true. cbv iota.
      zcases; intros; lia.
    + rewrite mod_step_down by lia. change (-1 =? 1) with false. cbv iota.
      zcases; intros; lia.
Qed.

Lemma remaining_le (n step stop i : Z) :
  0 <= i < n -> 0 <= stop < n -> remaining n step stop i <= n.
Proof.
  intros Hi Hs. unfold remaining.
  destruct (step =? 1), (i <? stop) eqn:E1, (stop <? i) eqn:E2;
    try apply Z.ltb_lt in E1; try apply Z.ltb_ge in E1;
    try apply Z.ltb_lt in E2; try apply Z.ltb_ge in E2; lia.
Qed.

Lemma contactStep_range (h : Hand) (st : Z * Z) (i : Z) :
  0 <= i < zlen (contour h) ->
  -1 <= fst st < zlen (contour h) /\ -1 <= snd st < zlen (contour h) ->
  -1 <= fst (contactStep U h st i) < zlen (contour h) /\
  -1 <= snd (contactStep U h st i) < zlen (contour h).
Proof.
  intros Hi Hst. destruct st as [l r]. unfold contactStep. cbn [fst snd] in *.
  repeat match goal with
         | |- context [if ?c then _ else _] => destruct c
         end; cbn [fst snd]; lia.
Qed.

Lemma selectContacts_range (h : Hand) :
  -1 <= fst (selectContacts U h) < zlen (contour h) /\
  -1 <= snd (selectContacts U h) < zlen (contour h).
Proof.
  unfold selectContacts.
  assert (H : forall l st,
             (forall i, In i l -> 0 <= i < zlen (contour h)) ->
             -1 <= fst st < zlen (contour h) /\ -1 <= snd st < zlen (contour h) ->
             -1 <= fst (fold_left (contactStep U h) l st) < zlen (contour h) /\
             -1 <= snd (fold_left (contactStep U h) l st) < zlen (contour h)).
  { induction l as [|i l IH]; intros st Hl Hst; cbn [fold_left]; [exact Hst|].
    apply IH; [intros j Hj; apply Hl; now right|].
    apply contactStep_range; [apply Hl; now left|exact Hst]. }
  apply H.
  - intros i Hi. now apply in_iota.
  - cbn [fst snd]. pose proof (zlen_nonneg (contour h)). lia.
Qed.

Lemma walkDirection_cases (n l r : Z) :
  walkDirection n l r = 1 \/ walkDirection n l r = -1.
Proof. unfold walkDirection. destruct (_ || _); auto. Qed.

(** The wrist search always comes to an end, with indices that are -1 or
    inside the contour. *)
Lemma findWrist_total (h : Hand) :
  exists wristL wristR direction,
    findWrist U h = Some (wristL, wristR, direction) /\
    -1 <= wristL < Z.max 1 (zlen (contour h)) /\
    -1 <= wristR < Z.max 1 (zlen (contour h)).
Proof.
  unfold findWrist.
  pose proof (selectContacts_range h) as Hr.
  destruct (selectContacts U h) as [cl cr]. cbn [fst snd] in Hr.
  destruct ((0 <=? cl) && (0 <=? cr)) eqn:E.
  - apply andb_true_iff in E. destruct E as [E1 E2].
    apply Z.leb_le in E1. apply Z.leb_le in E2.
    pose proof (walkDirection_cases (zlen (contour h)) cl cr) as Hd.
    set (d := walkDirection (zlen (contour h)) cl cr) in *.
    assert (Hd' : - d = 1 \/ - d = -1) by lia.
    assert (Hcl : 0 <= cl < zlen (contour h)) by lia.
    assert (Hcr : 0 <= cr < zlen (contour h)) by lia.
    destruct (walk_some h d cr Hd Hcr (Z.to_nat (zlen (contour h))) cl Hcl)
      as (wl & -> & Hwl).
    { pose proof (remaining_le (zlen (contour h)) d cr cl). lia. }
    destruct (walk_some h (- d) cl Hd' Hcl (Z.to_nat (zlen (contour h))) cr Hcr)
      as (wr & -> & Hwr).
    { pose proof (remaining_le (zlen (contour h)) (- d) cl cr). lia. }
    exists wl, wr, d. split; [reflexivity|]. lia.
  - exists (-1), (-1), 1. split; [reflexivity|]. lia.
Qed.

(** If no contour point is within [wristCenterDistThresh] of the palm
    center, a walk ends without a wrist point. *)
Lemma walk_exhausts (h : Hand) (step stop i : Z) :
  step = 1 \/ step = -1 ->
  0 <= stop < zlen (contour h) -> 0 <= i < zlen (contour h) ->
  (forall k, 0 <= k < zlen (contour h) -> nearCenter U h k = false) ->
  walk U (Z.to_nat (zlen (contour h))) h step stop i = Some (-1).
Proof.
  intros Hstep Hstop Hi Hfar.
  destruct (walk_some h step stop Hstep Hstop (Z.to_nat (zlen (contour h))) i Hi)
    as (w & Hw & [-> | (Hr & Hn)]).
  - pose proof (remaining_le (zlen (contour h)) step stop i). lia.
  - exact Hw.
  - rewrite Hfar in Hn by exact Hr. discriminate.
Qed.

End WalkFacts.

(** ** The landmark vectors *)

Lemma landmarks_aligned (h h' : Hand) :
  landmarks h' = landmarks h -> aligned h -> aligned h'.
Proof.
  unfold landmarks, aligned, getNumFingers. intros [= -> -> -> ->]. tauto.
Qed.

Lemma landmarks_fingersXYZ (h h' : Hand) :
  landmarks h' = landmarks h -> fingersXYZ h' = fingersXYZ h.
Proof. intros H. exact (f_equal (fun t => snd (fst (fst t))) H). Qed.

Lemma aligned_newHand pts xyz n m tl sz p l r :
  aligned (newHand pts xyz n m tl sz p l r).
Proof. repeat split. Qed.

Lemma landmarks_set_contour c hull ih h :
  landmarks (set_contour c hull ih h) = landmarks h.
Proof. now destruct h. Qed.

Lemma landmarks_set_surfaceArea s h : landmarks (set_surfaceArea s h) = landmarks h.
Proof. now destruct h. Qed.

Lemma landmarks_set_palm ij xyz r h : landmarks (set_palm ij xyz r h) = landmarks h.
Proof. now destruct h. Qed.

Lemma landmarks_set_wrist ij xyz h : landmarks (set_wrist ij xyz h) = landmarks h.
Proof. now destruct h. Qed.

Lemma landmarks_set_isHand b h : landmarks (set_isHand b h) = landmarks h.
Proof. now destruct h. Qed.

Lemma landmarks_set_svmConfidence x h : landmarks (set_svmConfidence x h) = landmarks h.
Proof. now destruct h. Qed.

Lemma aligned_clearLandmarks (h : Hand) : aligned (clearLandmarks h).
Proof. destruct h. repeat split. Qed.

Section LandmarkFacts.

Variable U : Util.
Variable handClassifier : SVMHandClassifier.
Variable PLANE_ENABLED : bool.

(** Every push of the deduplication loop extends the four vectors alike. *)
Lemma aligned_pushFinger (c : Cand) (h : Hand) :
  aligned h -> aligned (pushFinger U c h).
Proof.
  destruct h. unfold aligned, getNumFingers, pushFinger, zlen. cbn.
  rewrite !length_app. cbn. lia.
Qed.

Lemma aligned_dedupFingers (cands : list Cand) (h : Hand) :
  aligned h -> aligned (dedupFingers U cands h).
Proof.
  unfold dedupFingers. generalize (iota (zlen cands)). intros l. revert h.
  induction l as [|i l IH]; intros h Hh; cbn [fold_left]; [exact Hh|].
  apply IH. unfold dedupStep.
  destruct (dedupDrops _ _ _ _); [exact Hh|now apply aligned_pushFinger].
Qed.

Lemma aligned_fallbackLength (h : Hand) (x : Vec3f) :
  aligned h -> aligned (fallbackLength U h x).
Proof.
  intros Hh. unfold fallbackLength.
  destruct (_ || _); [apply aligned_clearLandmarks|exact Hh].
Qed.

(** The fallback ends with all four vectors empty or with one entry each. *)
Lemma aligned_singleFingerFallback (h : Hand) (defects : list Vec4i) (good : list Z) :
  aligned (singleFingerFallback U PLANE_ENABLED h defects good).
Proof.
  unfold singleFingerFallback.
  repeat match goal with
         | |- context [if ?c then _ else _] => destruct c
         end;
    try apply aligned_clearLandmarks;
    try (apply aligned_fallbackLength);
    destruct h; repeat split.
Qed.

Lemma aligned_detectFingers (h : Hand) (center : Point2i) (defects : list Vec4i)
    (wristL wristR direction : Z) :
  aligned h ->
  aligned (detectFingers U PLANE_ENABLED h center defects wristL wristR direction).
Proof.
  intros Hh. unfold detectFingers.
  destruct (_ <=? 1).
  - apply aligned_singleFingerFallback.
  - now apply aligned_dedupFingers.
Qed.

Lemma landmarks_locatePalm (h : Hand) :
  landmarks (fst (fst (locatePalm U h))) = landmarks h.
Proof.
  unfold locatePalm.
  destruct (computeConvexHull U _) as [hull ih].
  destruct (largestInscribedCircle U _ _ _ _ _) as [circen cirrad].
  cbn [fst]. rewrite landmarks_set_palm. apply landmarks_set_contour.
Qed.

(** The gate leaves the landmark vectors alone, and lets a hand pass only
    with one to six fingers. *)
Lemma acceptanceGate_spec (g : Hand) :
  exists g', finalHand (acceptanceGate U handClassifier g) = Some g' /\
             landmarks g' = landmarks g /\
             (acceptanceGate U handClassifier g = Done true g' ->
              1 <= zlen (fingersIJ g) <= 6).
Proof.
  unfold acceptanceGate.
  destruct (6 <? zlen (fingersIJ g)) eqn:E6; cbn [orb].
  { exists g. split; [reflexivity|]. split; [reflexivity|discriminate]. }
  destruct (zlen (fingersIJ g) <? 1) eqn:E1.
  { exists g. split; [reflexivity|]. split; [reflexivity|discriminate]. }
  apply Z.ltb_ge in E6. apply Z.ltb_ge in E1.
  destruct (handUseSVM (params g) && isTrained handClassifier).
  - destruct (classify _ _) as [conf| |].
    + destruct (_ <? _)%float; eexists; (split; [reflexivity|]);
        (split; [|intros _; lia]);
        now rewrite landmarks_set_svmConfidence, landmarks_set_isHand.
    + eexists. split; [reflexivity|]. split; [|discriminate].
      apply landmarks_set_isHand.
    + eexists. split; [reflexivity|]. split; [|discriminate].
      apply landmarks_set_isHand.
  - exists g. split; [reflexivity|]. split; [reflexivity|intros _; lia].
Qed.

(** How [checkForHand] can end: at one of its three early returns, or in
    the gate after finger detection. *)
Lemma checkForHand_cases (h : Hand) :
  let h1 := fst (fst (locatePalm U h)) in
  checkForHand U handClassifier PLANE_ENABLED h = Done false h \/
  checkForHand U handClassifier PLANE_ENABLED h = Done false h1 \/
  (exists ij xyz, checkForHand U handClassifier PLANE_ENABLED h
                  = Done false (set_wrist ij xyz h1)) \/
  (exists ij xyz c d wl wr dir,
      checkForHand U handClassifier PLANE_ENABLED h
      = acceptanceGate U handClassifier
          (detectFingers U PLANE_ENABLED (set_wrist ij xyz h1) c d wl wr dir)).
Proof.
  cbv zeta. unfold checkForHand.
  destruct (_ || _); [now left|].
  destruct (locatePalm U h) as [[h1 defects] center]. cbn [fst].
  destruct (findWrist_total U h1) as (wl & wr & dir & -> & _).
  destruct (_ || _); [right; now left|].
  destruct (_ || _).
  - right; right; left. eauto.
  - right; right; right. do 7 eexists. reflexivity.
Qed.

Lemma checkForHand_aligned (h : Hand) :
  aligned h ->
  exists h', finalHand (checkForHand U handClassifier PLANE_ENABLED h) = Some h' /\
             aligned h'.
Proof.
  intros Hh.
  assert (H1 : aligned (fst (fst (locatePalm U h)))).
  { eapply landmarks_aligned; [apply landmarks_locatePalm|exact Hh]. }
  destruct (checkForHand_cases h) as [-> | [-> | [(ij & xyz & ->) | (ij & xyz & c & d & wl & wr & dir & ->)]]].
  - exists h. split; [reflexivity|exact Hh].
  - eexists. split; [reflexivity|exact H1].
  - eexists. split; [reflexivity|].
    eapply landmarks_aligned; [apply landmarks_set_wrist|exact H1].
  - match goal with
    | |- context [acceptanceGate _ _ ?g] =>
        destruct (acceptanceGate_spec g) as (g' & Hf & Hl & _);
        exists g'; split; [exact Hf|];
        eapply landmarks_aligned; [exact Hl|]
    end.
    apply aligned_detectFingers.
    eapply landmarks_aligned; [apply landmarks_set_wrist|exact H1].
Qed.

(** C10: whatever the outcome of an evaluation, it ends, and fingersIJ,
    fingersXYZ, defectsIJ and defectsXYZ then have the same length, which
    is what getNumFingers returns. *)
Theorem landmark_lists_aligned (h : Hand) :
  aligned h ->
  (exists h', finalHand (checkForHand U handClassifier PLANE_ENABLED h) = Some h' /\
              aligned h') /\
  (exists h', finalHand (initializeObject U handClassifier PLANE_ENABLED h) = Some h' /\
              aligned h').
Proof.
  intros Hh. split; [now apply checkForHand_aligned|].
  unfold initializeObject.
  match goal with
  | |- context [set_surfaceArea ?s h] => set (h0 := set_surfaceArea s h)
  end.
  assert (H0 : aligned h0).
  { eapply landmarks_aligned; [apply landmarks_set_surfaceArea|exact Hh]. }
  destruct (_ && _); [|exists h0; split; [reflexivity|exact H0]].
  destruct (checkForHand_aligned h0 H0) as (h' & Hf & Ha).
  destruct (checkForHand U handClassifier PLANE_ENABLED h0) as [ret g|g|];
    cbn [finalHand] in *; [|exists g; split; [reflexivity|now injection Hf as ->]|discriminate].
  injection Hf as ->. eexists. split; [reflexivity|].
  eapply landmarks_aligned; [apply landmarks_set_isHand|exact Ha].
Qed.

(** C4: a hand is accepted only with one to six fingers, and the gate
    rejects any other count at once, before the classifier is consulted. *)
Theorem accepted_finger_count (h : Hand) :
  aligned h ->
  (forall h', checkForHand U handClassifier PLANE_ENABLED h = Done true h' ->
              1 <= getNumFingers h' <= 6) /\
  (forall g, aligned g -> getNumFingers g < 1 \/ 6 < getNumFingers g ->
             acceptanceGate U handClassifier g = Done false g).
Proof.
  intros Hh. split.
  - intros h' Hc.
    assert (H1 : aligned (fst (fst (locatePalm U h)))).
    { eapply landmarks_aligned; [apply landmarks_locatePalm|exact Hh]. }
    destruct (checkForHand_cases h) as [E | [E | [(ij & xyz & E) | (ij & xyz & c & d & wl & wr & dir & E)]]];
      rewrite E in Hc; try discriminate.
    match type of Hc with
    | acceptanceGate _ _ ?g = _ =>
        destruct (acceptanceGate_spec g) as (g' & Hf & Hl & Hr);
        assert (Hg : aligned g)
    end.
    { apply aligned_detectFingers.
      eapply landmarks_aligned; [apply landmarks_set_wrist|exact H1]. }
    rewrite Hc in Hf. injection Hf as <-.
    specialize (Hr Hc).
    destruct Hg as (Hg & _). apply landmarks_fingersXYZ in Hl.
    unfold getNumFingers in *. rewrite Hl. lia.
  - intros g (Hg & _) Hn. unfold acceptanceGate.
    destruct Hn as [Hn | Hn].
    + replace (zlen (fingersIJ g) <? 1) with true by (symmetry; apply Z.ltb_lt; lia).
      now rewrite orb_true_r.
    + replace (6 <? zlen (fingersIJ g)) with true by (symmetry; apply Z.ltb_lt; lia).
      reflexivity.
Qed.

(** C7: when a wrist walk comes back to its stop index without having met
    a contour point within wristCenterDistThresh of the palm center,
    [checkForHand] returns false with the object as the palm search left
    it: no wrist point, finger or defect has been recorded. *)
Theorem wrist_walk_exhausted_rejects (h : Hand) :
  let h1 := fst (fst (locatePalm U h)) in
  let n := zlen (contour h1) in
  let contactL := fst (selectContacts U h1) in
  let contactR := snd (selectContacts U h1) in
  let direction := walkDirection n contactL contactR in
  zlen (points h) <> 0 -> num_points h <> 0 ->
  0 <= contactL -> 0 <= contactR ->
  walk U (Z.to_nat n) h1 direction contactR contactL = Some (-1) \/
  walk U (Z.to_nat n) h1 (- direction) contactL contactR = Some (-1) ->
  checkForHand U handClassifier PLANE_ENABLED h = Done false h1 /\
  landmarks h1 = landmarks h /\
  wristIJ h1 = wristIJ h /\ wristXYZ h1 = wristXYZ h.
Proof.
  cbv zeta. intros Hp Hn HL HR Hw. split.
  - unfold checkForHand.
    replace (zlen (points h) =? 0) with false by (symmetry; now apply Z.eqb_neq).
    replace (num_points h =? 0) with false by (symmetry; now apply Z.eqb_neq).
    cbn [orb].
    destruct (locatePalm U h) as [[h1 defects] center]. cbn [fst] in *.
    destruct (findWrist_total U h1) as (wl & wr & dir & Hf & _). rewrite Hf.
    unfold findWrist in Hf.
    destruct (selectContacts U h1) as [cl cr]. cbn [fst snd] in *.
    replace ((0 <=? cl) && (0 <=? cr)) with true in Hf
      by (symmetry; apply andb_true_iff; split; apply Z.leb_le; assumption).
    destruct (walk U _ h1 (walkDirection _ cl cr) cr cl) as [a|]; [|discriminate].
    destruct (walk U _ h1 (- walkDirection _ cl cr) cl cr) as [b|]; [|discriminate].
    injection Hf as <- <- <-.
    destruct Hw as [[= ->] | [= ->]]; cbn [Z.ltb Z.compare orb];
      rewrite ?orb_true_r; reflexivity.
  - split; [apply landmarks_locatePalm|].
    unfold locatePalm.
    destruct (computeConvexHull U _) as [hull ih].
    destruct (largestInscribedCircle U _ _ _ _ _) as [circen cirrad].
    cbn [fst]. destruct h. split; reflexivity.
Qed.

End LandmarkFacts.

(** ** Termination, deduplication output, examples *)

Section EndFacts.

Variable U : Util.
Variable handClassifier : SVMHandClassifier.
Variable PLANE_ENABLED : bool.

Lemma acceptanceGate_ends (g : Hand) : acceptanceGate U handClassifier g <> OutOfFuel.
Proof.
  destruct (acceptanceGate_spec U handClassifier g) as (g' & Hf & _).
  intros E. rewrite E in Hf. discriminate.
Qed.

(** The loop budget of the model is never used up. *)
Lemma checkForHand_terminates (h : Hand) :
  checkForHand U handClassifier PLANE_ENABLED h <> OutOfFuel.
Proof.
  destruct (checkForHand_cases U handClassifier PLANE_ENABLED h)
    as [-> | [-> | [(ij & xyz & ->) | (ij & xyz & c & d & wl & wr & dir & ->)]]];
    try discriminate.
  apply acceptanceGate_ends.
Qed.

(** The deduplication appends to fingersXYZ the tips of the candidates it
    keeps, in order. *)
Lemma params_pushFinger (c : Cand) (h : Hand) : params (pushFinger U c h) = params h.
Proof. now destruct h. Qed.

Lemma fingersXYZ_pushFinger (c : Cand) (h : Hand) :
  fingersXYZ (pushFinger U c h) = fingersXYZ h ++ [c_xyz c].
Proof. now destruct h. Qed.

Lemma dedupFingers_fingersXYZ (cands : list Cand) (h : Hand) :
  fingersXYZ (dedupFingers U cands h) =
  fingersXYZ h ++ map (fun i => c_xyz (at_ noCand cands i))
                      (dedupKept U (map c_xyz cands) (fingerDistMin (params h))).
Proof.
  unfold dedupFingers, dedupKept.
  replace (zlen (map c_xyz cands)) with (zlen cands)
    by (unfold zlen; now rewrite length_map).
  generalize (iota (zlen cands)). intros l. revert h.
  induction l as [|i l IH]; intros h; cbn [fold_left filter map].
  - now rewrite app_nil_r.
  - rewrite IH. unfold dedupStep.
    destruct (dedupDrops U (map c_xyz cands) (fingerDistMin (params h)) i); cbn [negb].
    + reflexivity.
    + rewrite params_pushFinger, fingersXYZ_pushFinger, <- app_assoc. reflexivity.
Qed.

End EndFacts.

(** C8 (as stated) fails on a tie: of two candidates in the same row, 5 mm
    apart, the first is dropped although no candidate has a smaller row. *)
Lemma dedup_drops_on_equal_rows :
  dedupDrops Sample.util (map c_xyz Sample.closeCands) (fingerDistMin DEFAULT) 0 = true /\
  ~ claimedDrops Sample.util Sample.closeCands (fingerDistMin DEFAULT) 0.
Proof.
  split; [vm_compute; reflexivity|].
  intros (j & Hj & Hne & Hrow & _).
  change (zlen Sample.closeCands) with 2 in Hj.
  assert (j = 1) as -> by lia.
  vm_compute in Hrow. discriminate.
Qed.

(** Of two candidates one above the other, 5 mm apart, the lower one is
    dropped and the upper one kept. *)
Example dedup_keeps_upper :
  dedupKept Sample.util (map c_xyz Sample.stackedCands) (fingerDistMin DEFAULT) = [1] /\
  dedupKept Sample.util (map c_xyz Sample.closeCands) (fingerDistMin DEFAULT) = [1].
Proof. split; vm_compute; reflexivity. Qed.

(** C2: in the finger filter the near and the far window are centred at
    the candidate's tip, the mid window at [indexHull[i]], the hull entry
    with the candidate's loop index.  In the sample scene the contour is
    curved at both fingertips (indices 20 and 40) for every window, yet
    the filter samples the mid curvature at indices 0 and 2, finds 0.01
    and rejects both candidates, which pass with tip-centred windows; the
    evaluation ends with the single finger of the fallback. *)
Theorem filter_mid_curvature_not_at_tip :
  (forall h i tip ptd,
     filterCurvatureCalls h i tip ptd =
       (Build_CurvatureCall tip (curve_near_lo ptd) (curve_near_lo ptd + 4),
        Build_CurvatureCall (at_ 0 (indexHull h) i) (curve_mid_lo ptd) (curve_mid_lo ptd + 5),
        Build_CurvatureCall tip (curve_far_lo ptd) (curve_far_lo ptd + 5))) /\
  let h1 := Sample.palmLocated in
  let defects := convexityDefects Sample.utilCurved (contour h1) (indexHull h1) in
  let scan := scanDefects Sample.utilCurved h1 1 2 58 defects in
  fingerTipCands scan = [20; 40] /\
  fingerDefectCands scan = [30; 30] /\
  indexHull h1 = [0; 2; 20; 40; 58] /\
  (forall lo hi, contourCurvature Sample.utilCurved (contour h1) 20 lo hi = 1.0%float /\
                 contourCurvature Sample.utilCurved (contour h1) 40 lo hi = 1.0%float) /\
  selectFingers Sample.utilCurved h1 (mkPoint 100 100) [20; 40] [30; 30] = [] /\
  curvatureOk h1 (curvatures Sample.utilCurved h1 (fallbackCurvatureCalls 20 10)) = true /\
  curvatureOk h1 (curvatures Sample.utilCurved h1 (fallbackCurvatureCalls 40 10)) = true /\
  (exists h', checkForHand Sample.utilCurved Sample.classifier false Sample.hand
              = Done true h' /\ getNumFingers h' = 1).
Proof.
  split; [reflexivity|]. cbv zeta.
  split; [vm_compute; reflexivity|].
  split; [vm_compute; reflexivity|].
  split; [vm_compute; reflexivity|].
  split; [intros lo hi; split; reflexivity|].
  split; [vm_compute; reflexivity|].
  split; [vm_compute; reflexivity|].
  split; [vm_compute; reflexivity|].
  eexists. split; [vm_compute; reflexivity|]. reflexivity.
Qed.

(** The feature vector of a hand without fingers. *)
Lemma extractHandFeatures_no_fingers (U : Util) (hand : Hand) (dm : Mat)
    (tl : Point2i) (scale : float) (full_wid : Z) :
  getNumFingers hand = 0 ->
  extractHandFeatures U hand dm tl scale full_wid = [0%float].
Proof.
  intros H. unfold extractHandFeatures. rewrite H. reflexivity.
Qed.

(** ** More on the comparison guard and on the gate *)

Lemma SFcompare_Eq_rank (a b : spec_float) :
  SFcompare a b = Some Eq <->
  a <> S754_nan /\ b <> S754_nan /\ sf_rank a = sf_rank b.
Proof.
  destruct a as [s|s| |s m e], b as [t|t| |t n f]; sf_cases.
  all: try (repeat split; congruence).
  all: try (destruct H as (? & ? & ?); congruence).
  all: try (destruct H0 as (? & ? & ?); try congruence;
            match goal with H : (_, _, _) = (_, _, _) |- _ => injection H; intros; lia end).
  all: try (destruct H1 as (? & ? & ?); try congruence;
            match goal with H : (_, _, _) = (_, _, _) |- _ => injection H; intros; lia end).
  all: try (repeat split; try congruence; repeat f_equal; lia).
Qed.

Lemma eqb_rank (x y : float) :
  (x =? y)%float = true <-> notnan x /\ notnan y /\ rank x = rank y.
Proof.
  rewrite eqb_spec. unfold SFeqb, notnan, rank.
  rewrite <- SFcompare_Eq_rank.
  destruct (SFcompare (Prim2SF x) (Prim2SF y)) as [[]|]; split; congruence.
Qed.

(** Two values that are not NaN are equal or one is below the other. *)
Lemma float_trichotomy (x y : float) :
  notnan x -> notnan y ->
  (x <? y)%float = true \/ (x =? y)%float = true \/ (y <? x)%float = true.
Proof.
  intros Hx Hy. rewrite !ltb_rank, eqb_rank.
  destruct (rank x) as [[a1 a2] a3] eqn:Ex, (rank y) as [[b1 b2] b3] eqn:Ey.
  cbn [lex_lt].
  assert (H : (a1 < b1 \/ a1 = b1 /\ (a2 < b2 \/ a2 = b2 /\ a3 < b3)) \/
              (a1 = b1 /\ a2 = b2 /\ a3 = b3) \/
              (b1 < a1 \/ b1 = a1 /\ (b2 < a2 \/ b2 = a2 /\ b3 < a3))) by lia.
  destruct H as [H | [(-> & -> & ->) | H]]; [left | right; left | right; right];
    repeat split; assumption.
Qed.

Section DedupPairs.

Variable U : Util.

(** The guard orders the candidates: when [j] counts against [i], [i] does
    not count against [j].  So of two candidates that are too close, only
    the one with the smaller y coordinate (on a tie, the earlier one) can
    be dropped on account of the other. *)
Lemma dedupSkip_antisym (tips : list Vec3f) (i j : Z) :
  notnan (v1 (at_ vzero tips i)) -> notnan (v1 (at_ vzero tips j)) ->
  dedupSkip tips i j = false -> dedupSkip tips j i = true.
Proof.
  unfold dedupSkip, fgt. intros Hi Hj H.
  apply orb_false_iff in H. destruct H as [Hlt Heq].
  destruct (float_trichotomy (v1 (at_ vzero tips i)) (v1 (at_ vzero tips j)) Hi Hj)
    as [E | [E | E]].
  - rewrite E. reflexivity.
  - rewrite E in Heq. cbn [andb] in Heq. apply Z.leb_gt in Heq.
    assert (E' : (v1 (at_ vzero tips j) =? v1 (at_ vzero tips i))%float = true).
    { apply eqb_rank. apply eqb_rank in E. destruct E as (? & ? & ?).
      repeat split; congruence. }
    rewrite E'. cbn [andb].
    replace (i <=? j) with true by (symmetry; apply Z.leb_le; lia).
    apply orb_true_r.
  - congruence.
Qed.

End DedupPairs.

Section GateFacts.

Variable U : Util.

Lemma count_roundtrip (n : Z) :
  1 <= n <= 6 -> int_of_double (sanitize1 (double_of_int n)) = n.
Proof.
  intros Hn.
  assert (H : n = 1 \/ n = 2 \/ n = 3 \/ n = 4 \/ n = 5 \/ n = 6) by lia.
  destruct H as [-> | [-> | [-> | [-> | [-> | ->]]]]]; vm_compute; reflexivity.
Qed.

(** With one to six fingers the gate's call of [classify] returns: the
    bucket index is [min(fingers - 1, NUM_SVMS - 1)], inside the array. *)
Lemma gate_classify_returns (c : SVMHandClassifier) (g : Hand) (dm : Mat)
    (tl : Point2i) (scale : float) (full_wid : Z) :
  trained c = true -> Z.of_nat (length (svm c)) = NUM_SVMS c -> 1 <= NUM_SVMS c ->
  1 <= getNumFingers g <= 6 ->
  exists r, classify c (extractHandFeatures U g dm tl scale full_wid) = Returns r.
Proof.
  intros Ht Hlen Hk Hn. apply classify_returns; try assumption.
  unfold getSVMIdx, getSVMIdx_int, extractHandFeatures.
  replace (getNumFingers g =? 0) with false by (symmetry; apply Z.eqb_neq; lia).
  unfold sanitize. cbn [app map at_ Z.ltb Z.compare Z.to_nat nth].
  rewrite count_roundtrip by exact Hn. lia.
Qed.

End GateFacts.

Section GateNoFault.

Variable U : Util.
Variable handClassifier : SVMHandClassifier.

(** With a classifier whose array holds NUM_SVMS models, the gate never
    ends in a fault. *)
Lemma acceptanceGate_no_fault (g g' : Hand) :
  Z.of_nat (length (svm handClassifier)) = NUM_SVMS handClassifier ->
  1 <= NUM_SVMS handClassifier ->
  aligned g ->
  acceptanceGate U handClassifier g <> Fault g'.
Proof.
  intros Hlen Hk (Hg & _). unfold acceptanceGate.
  destruct (6 <? zlen (fingersIJ g)) eqn:E6; cbn [orb]; [discriminate|].
  destruct (zlen (fingersIJ g) <? 1) eqn:E1; [discriminate|].
  apply Z.ltb_ge in E6. apply Z.ltb_ge in E1.
  destruct (handUseSVM (params g)); cbn [andb]; [|discriminate].
  unfold isTrained. destruct (trained handClassifier) eqn:Ht; [|discriminate].
  match goal with
  | |- context [classify _ (extractHandFeatures _ ?h ?dm ?tl ?s ?w)] =>
      destruct (gate_classify_returns U handClassifier h dm tl s w Ht Hlen Hk)
        as (r & ->)
  end.
  - replace (getNumFingers (set_isHand true g)) with (getNumFingers g)
      by (now destruct g). lia.
  - destruct (_ <? _)%float; discriminate.
Qed.

End GateNoFault.

(** ** Witnesses on the sample scene *)

Lemma landmark_lists_aligned_witness :
  aligned Sample.hand /\
  (exists h', finalHand (checkForHand Sample.util Sample.classifier false Sample.hand)
              = Some h' /\ aligned h') /\
  (exists h', finalHand (initializeObject Sample.util Sample.classifier false Sample.hand)
              = Some h' /\ aligned h').
Proof.
  split; [apply aligned_newHand|].
  apply (landmark_lists_aligned Sample.util Sample.classifier false Sample.hand).
  apply aligned_newHand.
Defined.

Lemma accepted_finger_count_witness :
  aligned Sample.hand /\
  checkForHand Sample.util Sample.classifier false Sample.hand = Done true Sample.accepted /\
  1 <= getNumFingers Sample.accepted <= 6.
Proof.
  split; [apply aligned_newHand|].
  assert (H : checkForHand Sample.util Sample.classifier false Sample.hand
              = Done true Sample.accepted) by (vm_compute; reflexivity).
  split; [exact H|].
  exact (proj1 (accepted_finger_count Sample.util Sample.classifier false Sample.hand
                  (aligned_newHand _ _ _ _ _ _ _ _ _))
               Sample.accepted H).
Defined.

Lemma wrist_walk_exhausted_rejects_witness :
  checkForHand Sample.util Sample.classifier false Sample.handFarPalm
  = Done false (fst (fst (locatePalm Sample.util Sample.handFarPalm))) /\
  landmarks (fst (fst (locatePalm Sample.util Sample.handFarPalm)))
  = landmarks Sample.handFarPalm.
Proof.
  pose proof (wrist_walk_exhausted_rejects Sample.util Sample.classifier false
                Sample.handFarPalm) as H.
  cbv zeta in H.
  destruct H as (H1 & H2 & _).
  - vm_compute. discriminate.
  - vm_compute. discriminate.
  - vm_compute. discriminate.
  - vm_compute. discriminate.
  - left. vm_compute. reflexivity.
  - split; assumption.
Defined.

(** * Further properties *)

(** ** Arithmetic of the finger search *)

(** X1: the two traversal directions mask complementary arcs of the contour:
    every index is under the wrist for one of them, and only the two wrist
    indices are for both. *)
Theorem underWrist_complementary (wristL wristR far : Z) :
  underWrist (-1) wristL wristR far || underWrist 1 wristL wristR far = true /\
  (underWrist (-1) wristL wristR far && underWrist 1 wristL wristR far = true <->
   far = wristL \/ far = wristR).
Proof.
  unfold underWrist. change (-1 =? -1) with true. change (1 =? -1) with false.
  cbv iota. split; [|split].
  - zcases; cbn; try reflexivity; lia.
  - zcases; cbn; intros; try discriminate; lia.
  - zcases; cbn; intros; try reflexivity; lia.
Qed.

(** X2: the arc length between two contour indices is symmetric, is zero
    only for equal indices and never exceeds half the contour. *)
Theorem points_to_defect_bounds (n tip def : Z) :
  0 <= tip < n -> 0 <= def < n ->
  points_to_defect n tip def = points_to_defect n def tip /\
  0 <= points_to_defect n tip def /\
  2 * points_to_defect n tip def <= n /\
  (points_to_defect n tip def = 0 <-> tip = def).
Proof. unfold points_to_defect. lia. Qed.

Lemma points_to_defect_bounds_witness :
  points_to_defect 60 20 30 = points_to_defect 60 30 20 /\
  0 <= points_to_defect 60 20 30 /\
  2 * points_to_defect 60 20 30 <= 60 /\
  (points_to_defect 60 20 30 = 0 <-> 20 = 30).
Proof. apply points_to_defect_bounds; lia. Defined.

(** X3: for an arc of at least 10 points the three curvature windows start
    at offsets that are at least 2, grow from near to mid to far, and stay
    inside the arc. *)
Theorem curvature_windows_ordered (ptd : Z) :
  10 <= ptd ->
  2 <= curve_near_lo ptd /\
  curve_near_lo ptd <= curve_mid_lo ptd /\
  curve_mid_lo ptd <= curve_far_lo ptd /\
  curve_far_lo ptd < ptd.
Proof.
  intros H. unfold curve_near_lo, curve_mid_lo, curve_far_lo.
  rewrite !Z.quot_div_nonneg by lia.
  pose proof (Z.div_mod ptd 20 ltac:(lia)).
  pose proof (Z.mod_pos_bound ptd 20 ltac:(lia)).
  pose proof (Z.div_mod ptd 5 ltac:(lia)).
  pose proof (Z.mod_pos_bound ptd 5 ltac:(lia)).
  pose proof (Z.div_mod (ptd * 9) 10 ltac:(lia)).
  pose proof (Z.mod_pos_bound (ptd * 9) 10 ltac:(lia)).
  lia.
Qed.

Lemma curvature_windows_ordered_witness :
  2 <= curve_near_lo 10 /\
  curve_near_lo 10 <= curve_mid_lo 10 /\
  curve_mid_lo 10 <= curve_far_lo 10 /\
  curve_far_lo 10 < 10.
Proof. apply curvature_windows_ordered. lia. Defined.

(** ** Buckets *)

Lemma count_roundtrip0 (n : Z) :
  0 <= n <= 6 -> int_of_double (sanitize1 (double_of_int n)) = n.
Proof.
  intros Hn.
  assert (H : n = 0 \/ 1 <= n <= 6) by lia.
  destruct H as [-> | H]; [vm_compute; reflexivity|now apply count_roundtrip].
Qed.

Section BucketFacts.

Variable U : Util.

(** The first feature, cast back to [int], is the finger count. *)
Lemma features_head (hand : Hand) (dm : Mat) (tl : Point2i) (scale : float)
    (full_wid : Z) :
  0 <= getNumFingers hand <= 6 ->
  int_of_double (at_ 0%float (extractHandFeatures U hand dm tl scale full_wid) 0)
  = getNumFingers hand.
Proof.
  intros Hn. unfold extractHandFeatures.
  destruct (getNumFingers hand =? 0) eqn:E.
  - apply Z.eqb_eq in E. rewrite E. reflexivity.
  - unfold sanitize. cbn [app map at_ Z.ltb Z.compare Z.to_nat nth].
    apply count_roundtrip0. exact Hn.
Qed.

(** X4: the bucket [classify] selects for the feature vector of a hand
    with up to six fingers is [min(fingers - 1, NUM_SVMS - 1)]. *)
Theorem features_select_bucket (c : SVMHandClassifier) (hand : Hand) (dm : Mat)
    (tl : Point2i) (scale : float) (full_wid : Z) :
  0 <= getNumFingers hand <= 6 ->
  getSVMIdx c (extractHandFeatures U hand dm tl scale full_wid)
  = Z.min (getNumFingers hand - 1) (NUM_SVMS c - 1).
Proof.
  intros Hn. unfold getSVMIdx, getSVMIdx_int. now rewrite features_head.
Qed.

(** X5: on the feature vector of a hand with one to six fingers, a trained
    classifier that holds its NUM_SVMS models returns a confidence, and the
    confidence lies in [0, 1]. *)
Theorem classify_features_in_range (c : SVMHandClassifier) (hand : Hand) (dm : Mat)
    (tl : Point2i) (scale : float) (full_wid : Z) :
  trained c = true -> Z.of_nat (length (svm c)) = NUM_SVMS c -> 1 <= NUM_SVMS c ->
  1 <= getNumFingers hand <= 6 ->
  exists r, classify c (extractHandFeatures U hand dm tl scale full_wid) = Returns r /\
            (0 <=? r)%float = true /\ (r <=? 1)%float = true.
Proof.
  intros Ht Hlen Hk Hn.
  destruct (gate_classify_returns U c hand dm tl scale full_wid Ht Hlen Hk Hn) as (r & Hr).
  exists r. split; [exact Hr|]. eapply classify_returns_clamped. exact Hr.
Qed.

End BucketFacts.

Lemma features_select_bucket_witness :
  getSVMIdx Sample.classifier
    (extractHandFeatures Sample.util Sample.twoFingers Sample.depth origin 1%float 240)
  = Z.min (getNumFingers Sample.twoFingers - 1) (NUM_SVMS Sample.classifier - 1).
Proof. apply features_select_bucket. vm_compute. split; discriminate. Defined.

Lemma classify_features_in_range_witness :
  exists r, classify Sample.classifier
              (extractHandFeatures Sample.util Sample.twoFingers Sample.depth origin
                                   1%float 240) = Returns r /\
            (0 <=? r)%float = true /\ (r <=? 1)%float = true.
Proof.
  apply classify_features_in_range.
  - reflexivity.
  - reflexivity.
  - cbn. lia.
  - vm_compute. split; discriminate.
Defined.

(** X6: features beyond MAX_FEATURES do not reach the model: appending to a
    vector that already has MAX_FEATURES entries leaves the outcome of
    [classify] unchanged. *)
Theorem classify_ignores_excess (c : SVMHandClassifier) (features extra : list float) :
  1 <= MAX_FEATURES c <= zlen features ->
  classify c (features ++ extra) = classify c features.
Proof.
  intros [H1 H2]. unfold classify.
  destruct (negb (trained c)); [reflexivity|].
  destruct features as [|f0 features]; [cbn in H2; lia|].
  assert (E1 : (zlen ((f0 :: features) ++ extra) =? 0) = false).
  { apply Z.eqb_neq. rewrite zlen_app. pose proof (zlen_nonneg extra).
    unfold zlen in *. cbn [length] in *. lia. }
  assert (E2 : (zlen (f0 :: features) =? 0) = false).
  { apply Z.eqb_neq. unfold zlen. cbn [length]. lia. }
  rewrite E1, E2.
  assert (E3 : (MAX_FEATURES c <? zlen ((f0 :: features) ++ extra)) =
               negb (zlen ((f0 :: features) ++ extra) =? MAX_FEATURES c)).
  { rewrite zlen_app. pose proof (zlen_nonneg extra).
    destruct (Z.ltb_spec (MAX_FEATURES c) (zlen (f0 :: features) + zlen extra)),
             (Z.eqb_spec (zlen (f0 :: features) + zlen extra) (MAX_FEATURES c));
      cbn; try reflexivity; lia. }
  assert (Hn1 : (if MAX_FEATURES c <? zlen ((f0 :: features) ++ extra)
                 then MAX_FEATURES c else zlen ((f0 :: features) ++ extra))
                = MAX_FEATURES c).
  { destruct (Z.ltb_spec (MAX_FEATURES c) (zlen ((f0 :: features) ++ extra)));
      [reflexivity|]. rewrite zlen_app in *. pose proof (zlen_nonneg extra). lia. }
  assert (Hn2 : (if MAX_FEATURES c <? zlen (f0 :: features)
                 then MAX_FEATURES c else zlen (f0 :: features))
                = MAX_FEATURES c).
  { destruct (Z.ltb_spec (MAX_FEATURES c) (zlen (f0 :: features))); [reflexivity|lia]. }
  rewrite Hn1, Hn2.
  replace (getSVMIdx c ((f0 :: features) ++ extra)) with (getSVMIdx c (f0 :: features))
    by reflexivity.
  cbn [app tl].
  rewrite firstn_app.
  replace (Z.to_nat (MAX_FEATURES c - 1) - length features)%nat with 0%nat
    by (unfold zlen in H2; cbn [length] in H2; lia).
  cbn [firstn]. rewrite app_nil_r. reflexivity.
Qed.

Lemma classify_ignores_excess_witness :
  classify Sample.classifier (repeat 1%float 57 ++ [2%float])
  = classify Sample.classifier (repeat 1%float 57).
Proof. apply classify_ignores_excess. vm_compute. split; discriminate. Defined.

Section OrderPerm.

Variable U : Util.

(** X7: the per-finger part of the feature vector holds one block for every
    finger: the indices in [fingerOrder] are a permutation of 0 .. n-1. *)
Theorem fingerOrder_permutation (hand : Hand) :
  Permutation (map snd (fingerOrder U hand)) (iota (getNumFingers hand)).
Proof.
  unfold fingerOrder.
  rewrite <- std_sort_perm. rewrite map_map. cbn [snd]. rewrite map_id. reflexivity.
Qed.

End OrderPerm.

(** ** Deduplication: what survives *)

(** The guard of the inner loop as an order on (height, index). *)
Lemma dedupSkip_rank (tips : list Vec3f) (i j : Z) :
  notnan (v1 (at_ vzero tips i)) -> notnan (v1 (at_ vzero tips j)) ->
  (dedupSkip tips i j = true <->
   lex_lt (rank (v1 (at_ vzero tips j))) (rank (v1 (at_ vzero tips i))) \/
   (rank (v1 (at_ vzero tips i)) = rank (v1 (at_ vzero tips j)) /\ j <= i)).
Proof.
  intros Hi Hj. unfold dedupSkip, fgt.
  rewrite orb_true_iff, andb_true_iff, ltb_rank, eqb_rank, Z.leb_le. tauto.
Qed.

Lemma lex_lt_trans (a b c : Z * Z * Z) : lex_lt a b -> lex_lt b c -> lex_lt a c.
Proof.
  destruct a as [[a1 a2] a3], b as [[b1 b2] b3], c as [[c1 c2] c3]. cbn [lex_lt]. lia.
Qed.

Lemma dedupSkip_trans (tips : list Vec3f) (a b c : Z) :
  notnan (v1 (at_ vzero tips a)) -> notnan (v1 (at_ vzero tips b)) ->
  notnan (v1 (at_ vzero tips c)) ->
  dedupSkip tips a b = true -> dedupSkip tips b c = true -> dedupSkip tips a c = true.
Proof.
  intros Ha Hb Hc. rewrite !dedupSkip_rank by assumption.
  intros [H1 | (E1 & L1)] [H2 | (E2 & L2)].
  - left. eapply lex_lt_trans; eassumption.
  - left. now rewrite <- E2.
  - left. now rewrite E1.
  - right. split; [congruence|lia].
Qed.

Lemma dedupSkip_refl (tips : list Vec3f) (a : Z) :
  notnan (v1 (at_ vzero tips a)) -> dedupSkip tips a a = true.
Proof. intros Ha. apply dedupSkip_rank; try assumption. right. split; [reflexivity|lia]. Qed.

(** Among finitely many candidates one is passed over by nobody: the
    highest, and among equally high ones the last. *)
Lemma dedup_top (tips : list Vec3f) (k : nat) :
  (forall j, 0 <= j <= Z.of_nat k -> notnan (v1 (at_ vzero tips j))) ->
  exists i, 0 <= i <= Z.of_nat k /\
            forall j, 0 <= j <= Z.of_nat k -> dedupSkip tips i j = true.
Proof.
  induction k as [|k IH]; intros Hn.
  - exists 0. split; [lia|]. intros j Hj. replace j with 0 by lia.
    apply dedupSkip_refl. apply Hn. lia.
  - destruct IH as (i & Hi & Htop); [intros j Hj; apply Hn; lia|].
    destruct (dedupSkip tips i (Z.of_nat (S k))) eqn:E.
    + exists i. split; [lia|]. intros j Hj.
      destruct (Z.eq_dec j (Z.of_nat (S k))) as [-> | Hne]; [exact E|].
      apply Htop. lia.
    + exists (Z.of_nat (S k)). split; [lia|].
      assert (Hs : dedupSkip tips (Z.of_nat (S k)) i = true).
      { apply dedupSkip_antisym; [apply Hn; lia | apply Hn; lia | exact E]. }
      intros j Hj.
      destruct (Z.eq_dec j (Z.of_nat (S k))) as [-> | Hne].
      * apply dedupSkip_refl. apply Hn. lia.
      * apply (dedupSkip_trans tips _ i j); try (apply Hn; lia); [exact Hs|].
        apply Htop. lia.
Qed.

Section DedupSurvivors.

Variable U : Util.

Lemma dedupDrops_false (tips : list Vec3f) (fdm : float) (i j : Z) :
  dedupDrops U tips fdm i = false -> 0 <= j < zlen tips -> ~ tooClose U tips fdm i j.
Proof.
  intros Hd Hj Ht.
  assert (H : dedupDrops U tips fdm i = true); [|congruence].
  unfold dedupDrops. apply dedupInner_lt; [apply notnan_DBL_MAX|].
  right. exists j. split; [now apply in_iota|exact Ht].
Qed.

Lemma dedupDrops_unchallenged (tips : list Vec3f) (fdm : float) (i : Z) :
  (DBL_MAX <? fdm)%float = false ->
  (forall j, 0 <= j < zlen tips -> dedupSkip tips i j = true) ->
  dedupDrops U tips fdm i = false.
Proof.
  intros Hm Hs. destruct (dedupDrops U tips fdm i) eqn:E; [|reflexivity].
  unfold dedupDrops in E. apply dedupInner_lt in E; [|apply notnan_DBL_MAX].
  destruct E as [E | (j & Hj & (Hsk & _))]; [congruence|].
  apply in_iota in Hj. rewrite Hs in Hsk by exact Hj. discriminate.
Qed.

Lemma in_dedupKept (tips : list Vec3f) (fdm : float) (i : Z) :
  In i (dedupKept U tips fdm) <-> 0 <= i < zlen tips /\ dedupDrops U tips fdm i = false.
Proof.
  unfold dedupKept. rewrite filter_In, in_iota, negb_true_iff. tauto.
Qed.

(** X8: the deduplication never removes every candidate: with heights that
    are numbers and a finite fingerDistMin, the highest candidate (the last
    of the highest, on a tie) is always kept. *)
Theorem dedup_keeps_top (tips : list Vec3f) (fingerDistMin : float) :
  tips <> [] ->
  (forall j, 0 <= j < zlen tips -> notnan (v1 (at_ vzero tips j))) ->
  (DBL_MAX <? fingerDistMin)%float = false ->
  exists i, In i (dedupKept U tips fingerDistMin) /\
            forall j, 0 <= j < zlen tips -> dedupSkip tips i j = true.
Proof.
  intros Hne Hn Hm.
  assert (Hlen : 0 < zlen tips).
  { destruct tips; [congruence|]. unfold zlen. cbn [length]. lia. }
  destruct (dedup_top tips (Z.to_nat (zlen tips - 1))) as (i & Hi & Htop).
  { intros j Hj. apply Hn. lia. }
  exists i. split.
  - apply in_dedupKept. split; [lia|].
    apply dedupDrops_unchallenged; [exact Hm|]. intros j Hj. apply Htop. lia.
  - intros j Hj. apply Htop. lia.
Qed.

(** X9: no two fingertips that survive the deduplication are closer than
    fingerDistMin: for two kept candidates with heights that are numbers,
    the distance the loop measured between them is not below it. *)
Theorem dedup_separates (tips : list Vec3f) (fingerDistMin : float) (i j : Z) :
  In i (dedupKept U tips fingerDistMin) ->
  In j (dedupKept U tips fingerDistMin) ->
  i <> j ->
  notnan (v1 (at_ vzero tips i)) -> notnan (v1 (at_ vzero tips j)) ->
  (dedupSkip tips i j = false /\
   (euclideanDistance U (at_ vzero tips i) (at_ vzero tips j) <? fingerDistMin)%float
   = false) \/
  (dedupSkip tips j i = false /\
   (euclideanDistance U (at_ vzero tips j) (at_ vzero tips i) <? fingerDistMin)%float
   = false).
Proof.
  intros Hi Hj Hne Ni Nj.
  apply in_dedupKept in Hi. destruct Hi as (Ri & Di).
  apply in_dedupKept in Hj. destruct Hj as (Rj & Dj).
  destruct (dedupSkip tips i j) eqn:Eij.
  - right.
    assert (Eji : dedupSkip tips j i = false).
    { destruct (dedupSkip tips j i) eqn:E; [|reflexivity]. exfalso.
      apply dedupSkip_rank in Eij; [|assumption|assumption].
      apply dedupSkip_rank in E; [|assumption|assumption].
      destruct (rank (v1 (at_ vzero tips i))) as [[a1 a2] a3],
               (rank (v1 (at_ vzero tips j))) as [[b1 b2] b3].
      cbn [lex_lt] in *.
      destruct Eij as [Eij | (Eij & Lij)], E as [E | (E & L)];
        try (injection Eij as -> -> ->); try (injection E as -> -> ->); lia. }
    split; [exact Eji|].
    destruct (_ <? _)%float eqn:Ed; [|reflexivity]. exfalso.
    apply (dedupDrops_false tips fingerDistMin j i Dj Ri). split; assumption.
  - left. split; [reflexivity|].
    destruct (_ <? _)%float eqn:Ed; [|reflexivity]. exfalso.
    apply (dedupDrops_false tips fingerDistMin i j Di Rj). split; assumption.
Qed.

Lemma fields_pushFinger (c : Cand) (h : Hand) :
  params (pushFinger U c h) = params h /\
  topLeftPt (pushFinger U c h) = topLeftPt h /\
  xyzMap (pushFinger U c h) = xyzMap h /\
  fingersIJ (pushFinger U c h) = fingersIJ h ++ [c_ij c] /\
  fingersXYZ (pushFinger U c h) = fingersXYZ h ++ [c_xyz c] /\
  defectsIJ (pushFinger U c h) = defectsIJ h ++ [c_defij c] /\
  defectsXYZ (pushFinger U c h) = defectsXYZ h ++ [xyzAt U h (psub (c_defij c) (topLeftPt h))].
Proof. destruct h. repeat split. Qed.

Lemma dedupFingers_landmarks (cands : list Cand) (h : Hand) :
  let kept := map (at_ noCand cands)
                  (dedupKept U (map c_xyz cands) (fingerDistMin (params h))) in
  fingersIJ (dedupFingers U cands h) = fingersIJ h ++ map c_ij kept /\
  fingersXYZ (dedupFingers U cands h) = fingersXYZ h ++ map c_xyz kept /\
  defectsIJ (dedupFingers U cands h) = defectsIJ h ++ map c_defij kept /\
  defectsXYZ (dedupFingers U cands h)
  = defectsXYZ h ++ map (fun c => xyzAt U h (psub (c_defij c) (topLeftPt h))) kept.
Proof.
  cbv zeta. unfold dedupFingers, dedupKept.
  replace (zlen (map c_xyz cands)) with (zlen cands)
    by (unfold zlen; now rewrite length_map).
  generalize (iota (zlen cands)). intros l.
  assert (G : forall g, params g = params h -> topLeftPt g = topLeftPt h ->
                        xyzMap g = xyzMap h ->
    let kept := map (at_ noCand cands)
                    (filter (fun i => negb (dedupDrops U (map c_xyz cands)
                                              (fingerDistMin (params h)) i)) l) in
    fingersIJ (fold_left (dedupStep U cands) l g) = fingersIJ g ++ map c_ij kept /\
    fingersXYZ (fold_left (dedupStep U cands) l g) = fingersXYZ g ++ map c_xyz kept /\
    defectsIJ (fold_left (dedupStep U cands) l g) = defectsIJ g ++ map c_defij kept /\
    defectsXYZ (fold_left (dedupStep U cands) l g)
    = defectsXYZ g ++ map (fun c => xyzAt U h (psub (c_defij c) (topLeftPt h))) kept).
  { induction l as [|i l IH]; intros g Hp Ht Hm; cbn [fold_left filter map].
    - cbv zeta. cbn [filter map]. now rewrite !app_nil_r.
    - cbv zeta in *. cbn [filter]. unfold dedupStep at 2 4 6 8. rewrite Hp.
      destruct (dedupDrops U (map c_xyz cands) (fingerDistMin (params h)) i); cbn [negb].
      + apply IH; assumption.
      + destruct (fields_pushFinger (at_ noCand cands i) g)
          as (P1 & P2 & P3 & P4 & P5 & P6 & P7).
        destruct (IH (pushFinger U (at_ noCand cands i) g)) as (I1 & I2 & I3 & I4);
          try congruence.
        rewrite I1, I2, I3, I4, P4, P5, P6, P7. cbn [map].
        rewrite <- !app_assoc. cbn [app].
        unfold xyzAt. rewrite Hp, Ht, Hm. repeat split. }
  apply G; reflexivity.
Qed.

(** X10: the deduplication appends to the four landmark vectors, in candidate
    order, the tip, the pixel, the defect pixel and the defect point of
    exactly the candidates it keeps. *)
Theorem dedupFingers_appends (cands : list Cand) (h : Hand) :
  let kept := map (at_ noCand cands)
                  (dedupKept U (map c_xyz cands) (fingerDistMin (params h))) in
  fingersIJ (dedupFingers U cands h) = fingersIJ h ++ map c_ij kept /\
  fingersXYZ (dedupFingers U cands h) = fingersXYZ h ++ map c_xyz kept /\
  defectsIJ (dedupFingers U cands h) = defectsIJ h ++ map c_defij kept /\
  defectsXYZ (dedupFingers U cands h)
  = defectsXYZ h ++ map (fun c => xyzAt U h (psub (c_defij c) (topLeftPt h))) kept.
Proof. exact (dedupFingers_landmarks cands h). Qed.

End DedupSurvivors.

(** ** Defect scan and finger filter *)

Lemma padd_psub (p q : Point2i) : padd (psub p q) q = p.
Proof. destruct p, q. unfold padd, psub. cbn. f_equal; lia. Qed.

Lemma psub_padd (p q : Point2i) : psub (padd p q) q = p.
Proof. destruct p, q. unfold padd, psub. cbn. f_equal; lia. Qed.

Section ScanFacts.

Variable U : Util.

(** One iteration of the defect loop appends at most the defect's index to
    goodDefects and at most its start and its end, each paired with its far
    point, to the candidates; it appends candidates only for a good defect. *)
Lemma defectStep_shape (h : Hand) (direction wristL wristR : Z) (defects : list Vec4i)
    (st : DefectScan) (i : Z) :
  let d := at_ noDefect defects i in
  let st' := defectStep U h direction wristL wristR defects st i in
  exists g a b : bool,
    (a = true \/ b = true -> g = true) /\
    fingerTipCands st' = fingerTipCands st ++ (if a then [d0 d] else [])
                                           ++ (if b then [d1 d] else []) /\
    fingerDefectCands st' = fingerDefectCands st ++ (if a then [d2 d] else [])
                                                 ++ (if b then [d2 d] else []) /\
    goodDefects st' = goodDefects st ++ (if g then [i] else []).
Proof.
  cbv zeta. unfold defectStep.
  repeat match goal with
         | |- context [if ?c then _ else _] =>
             lazymatch c with
             | context [if _ then _ else _] => fail
             | _ => destruct c
             end
         end;
    cbn [fingerTipCands fingerDefectCands goodDefects];
    first
      [ exists false, false, false; rewrite ?app_nil_r; repeat split; tauto
      | exists true, false, false; rewrite ?app_nil_r; repeat split; tauto
      | exists true, true, false; rewrite ?app_nil_r; repeat split; tauto
      | exists true, false, true; rewrite ?app_nil_r; repeat split; tauto
      | exists true, true, true; rewrite <- ?app_assoc; repeat split; tauto ].
Qed.


Lemma combine_parallel {A B} (tips : list A) (defs : list B) :
  forall (tips' : list A) (defs' : list B),
    length tips = length defs ->
    combine (tips ++ tips') (defs ++ defs') = combine tips defs ++ combine tips' defs'.
Proof.
  revert defs. induction tips as [|t tips IH]; intros [|d defs] tips' defs' H;
    cbn in *; try discriminate.
  - reflexivity.
  - f_equal. apply IH. lia.
Qed.

Lemma scanned_step (h : Hand) (direction wristL wristR : Z) (defects : list Vec4i)
    (st : DefectScan) (k : Z) :
  0 <= k ->
  scanned defects k st ->
  scanned defects (k + 1) (defectStep U h direction wristL wristR defects st k).
Proof.
  intros Hk (Hlen & Hcnt & Hsort & Hrange & Hpairs). unfold scanned.
  destruct (defectStep_shape h direction wristL wristR defects st k)
    as (g & a & b & Hab & -> & -> & ->).
  assert (Hin : forall x, In x (goodDefects st) ->
                          In x (goodDefects st ++ (if g then [k] else []))).
  { intros x Hx. apply in_or_app. now left. }
  split; [|split; [|split; [|split]]].
  - rewrite !length_app. destruct a, b; cbn; lia.
  - rewrite !length_app.
    destruct g; [destruct a, b; cbn; lia|].
    assert (a = false) by (destruct a; [specialize (Hab (or_introl eq_refl)); discriminate|reflexivity]).
    assert (b = false) by (destruct b; [specialize (Hab (or_intror eq_refl)); discriminate|reflexivity]).
    subst. cbn. lia.
  - destruct g; [|now rewrite app_nil_r].
    clear - Hsort Hrange. induction Hsort as [|x l Hs IH Hx]; cbn.
    + repeat constructor.
    + inversion Hrange; subst. constructor; [now apply IH|].
      apply Forall_app. split; [exact Hx|]. constructor; [lia|constructor].
  - apply Forall_app. split.
    + eapply Forall_impl; [|exact Hrange]. cbn. intros; lia.
    + destruct g; constructor; [lia|constructor].
  - rewrite combine_parallel by exact Hlen. apply Forall_app. split.
    + eapply Forall_impl; [|exact Hpairs]. cbn.
      intros td (x & Hx & Hd). exists x. split; [now apply Hin|exact Hd].
    + assert (Hg : a = true \/ b = true -> In k (goodDefects st ++ (if g then [k] else []))).
      { intros H. rewrite (Hab H). apply in_or_app. right. now left. }
      destruct a, b; cbn; repeat constructor;
        exists k; cbn; (split; [apply Hg; tauto|tauto]).
Qed.

(** X11: after the defect scan the tip candidates and their defects are
    parallel vectors, with at most two candidates per good defect; the good
    defects are indices into the sorted defect list, in increasing order;
    and every candidate is the start or the end of a good defect, paired
    with that defect's far point. *)
Theorem scanDefects_wellformed (h : Hand) (direction wristL wristR : Z)
    (defects : list Vec4i) :
  scanned defects (zlen defects) (scanDefects U h direction wristL wristR defects).
Proof.
  unfold scanDefects, iota, zlen. rewrite Nat2Z.id.
  assert (G : forall m a st,
             scanned defects (Z.of_nat a) st ->
             scanned defects (Z.of_nat (a + m))
               (fold_left (defectStep U h direction wristL wristR defects)
                          (map Z.of_nat (seq a m)) st)).
  { induction m as [|m IH]; intros a st Hst; cbn [seq map fold_left].
    - now rewrite Nat.add_0_r.
    - replace (a + S m)%nat with (S a + m)%nat by lia. apply IH.
      replace (Z.of_nat (S a)) with (Z.of_nat a + 1) by lia.
      apply scanned_step; [lia|exact Hst]. }
  apply (G (length defects) 0%nat).
  repeat split; cbn; constructor.
Qed.


Lemma filterStep_shape (h : Hand) (center : Point2i) (tipCands defCands : list Z)
    (acc : list Cand) (i : Z) :
  0 <= i < zlen tipCands ->
  filterStep U h center tipCands defCands acc i = acc \/
  exists c, filterStep U h center tipCands defCands acc i = acc ++ [c] /\
            passedFilter U h tipCands defCands c.
Proof.
  intros Hi. unfold filterStep.
  destruct (_ && _); [|now left].
  destruct (Z.ltb_spec (points_to_defect (zlen (contour h)) (at_ 0 tipCands i)
                                         (at_ 0 defCands i)) 10) as [|Hptd];
    [now left|].
  match goal with
  | |- context [if ?c then _ else _] => destruct c eqn:E
  end; [|now left].
  right. eexists. split; [reflexivity|].
  repeat (apply andb_true_iff in E; destruct E as [E ?]).
  unfold passedFilter, fgt in *. cbv zeta. cbn [c_xyz c_ij c_defij c_tipIdx c_defIdx].
  rewrite ?psub_padd, ?padd_psub.
  repeat split; try assumption.
  - exists i. repeat split; lia.
  - now apply negb_true_iff.
Qed.

Lemma selectFingers_passed (h : Hand) (center : Point2i) (tipCands defCands : list Z) :
  Forall (passedFilter U h tipCands defCands)
         (selectFingers U h center tipCands defCands) /\
  zlen (selectFingers U h center tipCands defCands) <= zlen tipCands.
Proof.
  unfold selectFingers.
  assert (G : forall l acc,
             (forall i, In i l -> 0 <= i < zlen tipCands) ->
             Forall (passedFilter U h tipCands defCands) acc ->
             Forall (passedFilter U h tipCands defCands)
                    (fold_left (filterStep U h center tipCands defCands) l acc) /\
             zlen (fold_left (filterStep U h center tipCands defCands) l acc)
             <= zlen acc + zlen l).
  { induction l as [|i l IH]; intros acc Hl Hacc; cbn [fold_left].
    - split; [exact Hacc|]. unfold zlen. cbn. lia.
    - destruct (filterStep_shape h center tipCands defCands acc i) as [-> | (c & -> & Hc)].
      + apply Hl. now left.
      + destruct (IH acc) as (I1 & I2); [intros j Hj; apply Hl; now right|exact Hacc|].
        split; [exact I1|]. unfold zlen in *. cbn [length]. lia.
      + destruct (IH (acc ++ [c])) as (I1 & I2).
        * intros j Hj; apply Hl; now right.
        * apply Forall_app. split; [exact Hacc|]. now constructor.
        * split; [exact I1|]. rewrite zlen_app in I2. unfold zlen in *. cbn [length] in *. lia. }
  destruct (G (iota (zlen tipCands)) []) as (G1 & G2).
  - intros i Hi. now apply in_iota.
  - constructor.
  - split; [exact G1|]. rewrite zlen_iota in G2 by apply zlen_nonneg.
    unfold zlen in *. cbn [length] in *. lia.
Qed.

(** X12: the filter keeps the order of the candidates and lets through only
    candidates of the scan whose finger length lies strictly between
    fingerLenMin and fingerLenMax, whose tip has a depth other than zero
    and whose arc to the defect has at least 10 contour points. *)
Theorem selectFingers_sound (h : Hand) (center : Point2i) (tipCands defCands : list Z) :
  Forall (passedFilter U h tipCands defCands)
         (selectFingers U h center tipCands defCands) /\
  zlen (selectFingers U h center tipCands defCands) <= zlen tipCands.
Proof. exact (selectFingers_passed h center tipCands defCands). Qed.

End ScanFacts.


Lemma frame_fields (a b : Hand) :
  frame a = frame b ->
  xyzMap a = xyzMap b /\ topLeftPt a = topLeftPt b /\ fullMapSize a = fullMapSize b /\
  params a = params b /\ contour a = contour b /\ palmCenterXYZ a = palmCenterXYZ b /\
  wristIJ a = wristIJ b /\ wristXYZ a = wristXYZ b /\ surfaceArea a = surfaceArea b.
Proof. unfold frame. intros [= ]. repeat split; assumption. Qed.

Lemma frame_set_fingersIJ l h : frame (set_fingersIJ l h) = frame h.
Proof. now destruct h. Qed.
Lemma frame_set_fingersXYZ l h : frame (set_fingersXYZ l h) = frame h.
Proof. now destruct h. Qed.
Lemma frame_set_defectsIJ l h : frame (set_defectsIJ l h) = frame h.
Proof. now destruct h. Qed.
Lemma frame_set_defectsXYZ l h : frame (set_defectsXYZ l h) = frame h.
Proof. now destruct h. Qed.
Lemma frame_set_isHand b h : frame (set_isHand b h) = frame h.
Proof. now destruct h. Qed.
Lemma frame_set_svmConfidence x h : frame (set_svmConfidence x h) = frame h.
Proof. now destruct h. Qed.
Lemma frame_clearLandmarks h : frame (clearLandmarks h) = frame h.
Proof. now destruct h. Qed.

Section FrameFacts.

Variable U : Util.
Variable handClassifier : SVMHandClassifier.
Variable PLANE_ENABLED : bool.

Lemma frame_pushFinger c h : frame (pushFinger U c h) = frame h.
Proof. now destruct h. Qed.

Lemma frame_dedupFingers cands h : frame (dedupFingers U cands h) = frame h.
Proof.
  unfold dedupFingers. generalize (iota (zlen cands)). intros l. revert h.
  induction l as [|i l IH]; intros h; cbn [fold_left]; [reflexivity|].
  rewrite IH. unfold dedupStep. destruct (dedupDrops _ _ _ _); [reflexivity|].
  apply frame_pushFinger.
Qed.

Lemma frame_fallbackLength h x : frame (fallbackLength U h x) = frame h.
Proof. unfold fallbackLength. destruct (_ || _); [apply frame_clearLandmarks|reflexivity]. Qed.

Lemma frame_singleFingerFallback h defects good :
  frame (singleFingerFallback U PLANE_ENABLED h defects good) = frame h.
Proof.
  unfold singleFingerFallback.
  repeat match goal with
         | |- context [if ?c then _ else _] => destruct c
         end;
    rewrite ?frame_fallbackLength, ?frame_clearLandmarks;
    rewrite ?frame_set_defectsXYZ, ?frame_set_defectsIJ, ?frame_set_fingersIJ,
            ?frame_set_fingersXYZ;
    rewrite ?frame_set_defectsXYZ, ?frame_set_defectsIJ, ?frame_set_fingersIJ,
            ?frame_set_fingersXYZ;
    rewrite ?frame_set_defectsXYZ, ?frame_set_defectsIJ, ?frame_set_fingersIJ,
            ?frame_set_fingersXYZ;
    reflexivity.
Qed.

Lemma frame_detectFingers h center defects wl wr dir :
  frame (detectFingers U PLANE_ENABLED h center defects wl wr dir) = frame h.
Proof.
  unfold detectFingers. destruct (_ <=? 1).
  - rewrite frame_singleFingerFallback. apply frame_dedupFingers.
  - apply frame_dedupFingers.
Qed.

(** How the gate ends when it accepts. *)
Lemma acceptanceGate_accepts (g g' : Hand) :
  acceptanceGate U handClassifier g = Done true g' ->
  frame g' = frame g /\ landmarks g' = landmarks g /\
  1 <= zlen (fingersIJ g) <= 6 /\
  ((handUseSVM (params g) && isTrained handClassifier = false /\ g' = g) \/
   (handUseSVM (params g) && isTrained handClassifier = true /\
    isHand g' = true /\
    classify handClassifier
      (extractHandFeatures U (set_isHand true g) (xyzMap g) (topLeftPt g) 1%float
                           (width (fullMapSize g)))
    = Returns (svmConfidence g') /\
    (svmConfidence g' <? handSVMConfidenceThresh (params g))%float = false)).
Proof.
  unfold acceptanceGate.
  destruct (6 <? zlen (fingersIJ g)) eqn:E6; cbn [orb]; [discriminate|].
  destruct (zlen (fingersIJ g) <? 1) eqn:E1; [discriminate|].
  apply Z.ltb_ge in E6. apply Z.ltb_ge in E1.
  destruct (handUseSVM (params g) && isTrained handClassifier).
  - replace (xyzMap (set_isHand true g)) with (xyzMap g) by now destruct g.
    replace (topLeftPt (set_isHand true g)) with (topLeftPt g) by now destruct g.
    replace (fullMapSize (set_isHand true g)) with (fullMapSize g) by now destruct g.
    destruct (classify _ _) as [conf| |]; try discriminate.
    replace (svmConfidence (set_svmConfidence conf (set_isHand true g))) with conf
      by now destruct g.
    replace (params (set_svmConfidence conf (set_isHand true g))) with (params g)
      by now destruct g.
    destruct (_ <? _)%float eqn:Ec; [discriminate|].
    intros [= <-].
    rewrite frame_set_svmConfidence, frame_set_isHand,
            landmarks_set_svmConfidence, landmarks_set_isHand.
    repeat split; try lia. right.
    replace (svmConfidence (set_svmConfidence conf (set_isHand true g))) with conf
      by now destruct g.
    replace (isHand (set_svmConfidence conf (set_isHand true g))) with true
      by now destruct g.
    repeat split. exact Ec.
  - intros [= <-]. repeat split; try lia. left. now split.
Qed.

Lemma locatePalm_fields (h : Hand) :
  let h1 := fst (fst (locatePalm U h)) in
  params h1 = params h /\ topLeftPt h1 = topLeftPt h /\ xyzMap h1 = xyzMap h /\
  fullMapSize h1 = fullMapSize h /\ wristIJ h1 = wristIJ h /\ wristXYZ h1 = wristXYZ h /\
  surfaceArea h1 = surfaceArea h /\ isHand h1 = isHand h.
Proof.
  cbv zeta. unfold locatePalm.
  destruct (computeConvexHull U _) as [hull ih].
  destruct (largestInscribedCircle U _ _ _ _ _) as [circen cirrad].
  cbn [fst]. destruct h. repeat split.
Qed.

Lemma withWrist_fields (h : Hand) (wl wr : Z) :
  xyzMap (withWrist U h wl wr) = xyzMap h /\
  topLeftPt (withWrist U h wl wr) = topLeftPt h /\
  fullMapSize (withWrist U h wl wr) = fullMapSize h /\
  params (withWrist U h wl wr) = params h /\
  contour (withWrist U h wl wr) = contour h /\
  palmCenterXYZ (withWrist U h wl wr) = palmCenterXYZ h /\
  surfaceArea (withWrist U h wl wr) = surfaceArea h /\
  landmarks (withWrist U h wl wr) = landmarks h /\
  wristIJ (withWrist U h wl wr)
  = wristIJ h ++ [at_ origin (contour h) wl; at_ origin (contour h) wr] /\
  wristXYZ (withWrist U h wl wr)
  = wristXYZ h ++ [wristPoint U h wl; wristPoint U h wr].
Proof. destruct h. repeat split. Qed.

Lemma nearCenter_ext (a b : Hand) (w : Z) :
  xyzMap a = xyzMap b -> topLeftPt a = topLeftPt b -> params a = params b ->
  contour a = contour b -> palmCenterXYZ a = palmCenterXYZ b ->
  nearCenter U a w = nearCenter U b w.
Proof.
  intros H1 H2 H3 H4 H5. unfold nearCenter, xyzAt. now rewrite H1, H2, H3, H4, H5.
Qed.

Lemma wristPoint_ext (a b : Hand) (w : Z) :
  xyzMap a = xyzMap b -> topLeftPt a = topLeftPt b -> params a = params b ->
  contour a = contour b ->
  wristPoint U a w = wristPoint U b w.
Proof.
  intros H1 H2 H3 H4. unfold wristPoint, xyzAt. now rewrite H1, H2, H3, H4.
Qed.

(** A wrist index the search returns is -1 or a contour point within
    wristCenterDistThresh of the palm center. *)
Lemma findWrist_near (h : Hand) (wl wr dir : Z) :
  findWrist U h = Some (wl, wr, dir) ->
  (wl = -1 \/ (0 <= wl < zlen (contour h) /\ nearCenter U h wl = true)) /\
  (wr = -1 \/ (0 <= wr < zlen (contour h) /\ nearCenter U h wr = true)).
Proof.
  unfold findWrist.
  pose proof (selectContacts_range U h) as Hr.
  destruct (selectContacts U h) as [cl cr]. cbn [fst snd] in Hr.
  destruct ((0 <=? cl) && (0 <=? cr)) eqn:E.
  - apply andb_true_iff in E. destruct E as [E1 E2].
    apply Z.leb_le in E1. apply Z.leb_le in E2.
    pose proof (walkDirection_cases (zlen (contour h)) cl cr) as Hd.
    set (d := walkDirection (zlen (contour h)) cl cr) in *.
    assert (Hd' : - d = 1 \/ - d = -1) by lia.
    assert (Hcl : 0 <= cl < zlen (contour h)) by lia.
    assert (Hcr : 0 <= cr < zlen (contour h)) by lia.
    destruct (walk_some U h d cr Hd Hcr (Z.to_nat (zlen (contour h))) cl Hcl)
      as (a & -> & Ha).
    { pose proof (remaining_le (zlen (contour h)) d cr cl). lia. }
    destruct (walk_some U h (- d) cl Hd' Hcl (Z.to_nat (zlen (contour h))) cr Hcr)
      as (b & -> & Hb).
    { pose proof (remaining_le (zlen (contour h)) (- d) cl cr). lia. }
    intros [= <- <- <-]. split; assumption.
  - intros [= <- <- <-]. split; now left.
Qed.

(** What lies behind an acceptance. *)
Lemma checkForHand_accepts (h h' : Hand) :
  checkForHand U handClassifier PLANE_ENABLED h = Done true h' ->
  let h1 := fst (fst (locatePalm U h)) in
  exists wl wr dir center defects,
    findWrist U h1 = Some (wl, wr, dir) /\ 0 <= wl /\ 0 <= wr /\
    (wristWidthOf U h1 wl wr <? wristWidthMin (params h1))%float = false /\
    (wristWidthMax (params h1) <? wristWidthOf U h1 wl wr)%float = false /\
    acceptanceGate U handClassifier
      (detectFingers U PLANE_ENABLED (withWrist U h1 wl wr) center defects wl wr dir)
    = Done true h'.
Proof.
  cbv zeta. unfold checkForHand.
  destruct (_ || _); [discriminate|].
  destruct (locatePalm U h) as [[h1 defects] center]. cbn [fst].
  destruct (findWrist U h1) as [[[wl wr] dir]|]; [|discriminate].
  destruct (wl <? 0) eqn:El; [discriminate|].
  destruct (wr <? 0) eqn:Er; [discriminate|]. cbn [orb].
  apply Z.ltb_ge in El. apply Z.ltb_ge in Er.
  replace (params (set_wrist _ _ h1)) with (params h1) by now destruct h1.
  fold (wristPoint U h1 wl). fold (wristPoint U h1 wr).
  fold (wristWidthOf U h1 wl wr). fold (withWrist U h1 wl wr).
  unfold fgt.
  destruct (wristWidthOf U h1 wl wr <? wristWidthMin (params h1))%float eqn:Emin;
    [discriminate|].
  destruct (wristWidthMax (params h1) <? wristWidthOf U h1 wl wr)%float eqn:Emax;
    [discriminate|].
  cbn [orb]. intros H. exists wl, wr, dir, center, defects. repeat split; assumption.
Qed.

(** X13: in an accepted hand the two recorded wrist points are contour
    points within wristCenterDistThresh of the palm center, and the wrist
    width between them is neither below wristWidthMin nor above
    wristWidthMax. *)
Theorem accepted_wrist (h h' : Hand) :
  checkForHand U handClassifier PLANE_ENABLED h = Done true h' ->
  exists wristL wristR,
    0 <= wristL < zlen (contour h') /\ 0 <= wristR < zlen (contour h') /\
    nearCenter U h' wristL = true /\ nearCenter U h' wristR = true /\
    wristIJ h' = wristIJ h ++ [at_ origin (contour h') wristL;
                               at_ origin (contour h') wristR] /\
    wristXYZ h' = wristXYZ h ++ [wristPoint U h' wristL; wristPoint U h' wristR] /\
    (wristWidthOf U h' wristL wristR <? wristWidthMin (params h'))%float = false /\
    (wristWidthMax (params h') <? wristWidthOf U h' wristL wristR)%float = false.
Proof.
  intros Hc.
  destruct (checkForHand_accepts h h' Hc)
    as (wl & wr & dir & center & defects & Hf & Hl & Hr & Hmin & Hmax & Hg).
  set (h1 := fst (fst (locatePalm U h))) in *.
  destruct (acceptanceGate_accepts _ _ Hg) as (Hfr & _).
  rewrite frame_detectFingers in Hfr.
  apply frame_fields in Hfr.
  destruct Hfr as (F1 & F2 & F3 & F4 & F5 & F6 & F7 & F8 & F9).
  destruct (withWrist_fields h1 wl wr)
    as (W1 & W2 & W3 & W4 & W5 & W6 & W7 & W8 & W9 & W10).
  assert (E1 : xyzMap h' = xyzMap h1) by congruence.
  assert (E2 : topLeftPt h' = topLeftPt h1) by congruence.
  assert (E3 : params h' = params h1) by congruence.
  assert (E4 : contour h' = contour h1) by congruence.
  assert (E5 : palmCenterXYZ h' = palmCenterXYZ h1) by congruence.
  destruct (locatePalm_fields h) as (_ & _ & _ & _ & L5 & L6 & _).
  fold h1 in L5, L6.
  destruct (findWrist_near h1 wl wr dir Hf) as ([? | (Rl & Nl)] & [? | (Rr & Nr)]);
    try lia.
  exists wl, wr.
  rewrite !(nearCenter_ext h' h1) by assumption.
  unfold wristWidthOf.
  rewrite !(wristPoint_ext h' h1) by assumption.
  rewrite E3, E4. fold (wristWidthOf U h1 wl wr).
  repeat split; try assumption; try lia; congruence.
Qed.

(** X14: if no contour point lies within wristCenterDistThresh of the palm
    center, the cluster is rejected as soon as the palm has been located. *)
Theorem no_wrist_rejects (h : Hand) :
  let h1 := fst (fst (locatePalm U h)) in
  zlen (points h) <> 0 -> num_points h <> 0 ->
  (forall k, 0 <= k < zlen (contour h1) -> nearCenter U h1 k = false) ->
  checkForHand U handClassifier PLANE_ENABLED h = Done false h1.
Proof.
  cbv zeta. intros Hp Hn Hfar. unfold checkForHand.
  replace (zlen (points h) =? 0) with false by (symmetry; now apply Z.eqb_neq).
  replace (num_points h =? 0) with false by (symmetry; now apply Z.eqb_neq).
  cbn [orb].
  destruct (locatePalm U h) as [[h1 defects] center]. cbn [fst] in *.
  destruct (findWrist_total U h1) as (wl & wr & dir & Hf & _). rewrite Hf.
  destruct (findWrist_near h1 wl wr dir Hf) as ([-> | (Rl & Nl)] & Hr).
  - reflexivity.
  - rewrite Hfar in Nl by exact Rl. discriminate.
Qed.

End FrameFacts.

Section VerdictFacts.

Variable U : Util.
Variable handClassifier : SVMHandClassifier.
Variable PLANE_ENABLED : bool.

(** Without convexity defects no finger is found. *)
Lemma detectFingers_no_defects (h : Hand) (center : Point2i) (wl wr dir : Z) :
  zlen (fingersXYZ h) <= 1 ->
  fingersIJ (detectFingers U PLANE_ENABLED h center [] wl wr dir) = [].
Proof.
  intros Hn. unfold detectFingers. cbn [std_sort fold_right].
  unfold scanDefects. change (iota (zlen (@nil Vec4i))) with (@nil Z).
  cbn [fold_left fingerTipCands fingerDefectCands goodDefects].
  unfold selectFingers. change (iota (zlen (@nil Z))) with (@nil Z). cbn [fold_left].
  unfold dedupFingers. change (iota (zlen (@nil Cand))) with (@nil Z). cbn [fold_left].
  replace (zlen (fingersXYZ h) <=? 1) with true by (symmetry; now apply Z.leb_le).
  unfold singleFingerFallback.
  change (zlen (@nil Z) =? 0) with true. rewrite orb_true_r.
  now destruct h.
Qed.

(** X15: a cluster whose contour has no convexity defects is rejected. *)
Theorem no_defects_rejects (h : Hand) :
  snd (fst (locatePalm U h)) = [] ->
  zlen (fingersXYZ h) <= 1 ->
  exists h', checkForHand U handClassifier PLANE_ENABLED h = Done false h'.
Proof.
  intros Hd Hn.
  pose proof (landmarks_locatePalm U h) as Hl.
  unfold checkForHand.
  destruct (_ || _); [eauto|].
  destruct (locatePalm U h) as [[h1 defects] center]. cbn [fst snd] in *. subst defects.
  destruct (findWrist U h1) as [[[wl wr] dir]|] eqn:Ef.
  2:{ destruct (findWrist_total U h1) as (? & ? & ? & E & _). congruence. }
  destruct (_ || _); [eauto|].
  destruct (_ || _); [eauto|].
  match goal with
  | |- context [detectFingers U PLANE_ENABLED ?g center [] wl wr dir] =>
      assert (Hg : fingersIJ (detectFingers U PLANE_ENABLED g center [] wl wr dir) = [])
  end.
  { apply detectFingers_no_defects.
    rewrite (landmarks_fingersXYZ h1 _ (landmarks_set_wrist _ _ h1)).
    now rewrite (landmarks_fingersXYZ h h1 Hl). }
  unfold acceptanceGate. rewrite Hg. cbn. eauto.
Qed.

(** A short hull gives no defects. *)
Lemma locatePalm_small_hull (h : Hand) :
  zlen (indexHull (fst (fst (locatePalm U h)))) <= 3 ->
  snd (fst (locatePalm U h)) = [].
Proof.
  unfold locatePalm.
  destruct (computeConvexHull U _) as [hull ih].
  destruct (largestInscribedCircle U _ _ _ _ _) as [circen cirrad].
  cbn [fst snd].
  replace (indexHull (set_palm _ _ _ (set_contour _ hull ih h))) with ih by now destruct h.
  replace (indexHull (set_contour _ hull ih h)) with ih by now destruct h.
  intros H. now replace (3 <? zlen ih) with false by (symmetry; apply Z.ltb_ge; lia).
Qed.

(** X16: a hand accepted under SVM gating has isHand set and a confidence
    in [0, 1] that is not below handSVMConfidenceThresh. *)
Theorem accepted_confidence (h h' : Hand) :
  checkForHand U handClassifier PLANE_ENABLED h = Done true h' ->
  handUseSVM (params h) = true -> isTrained handClassifier = true ->
  isHand h' = true /\
  (0 <=? svmConfidence h')%float = true /\ (svmConfidence h' <=? 1)%float = true /\
  (svmConfidence h' <? handSVMConfidenceThresh (params h))%float = false.
Proof.
  intros Hc Hsvm Htr.
  destruct (checkForHand_accepts U handClassifier PLANE_ENABLED h h' Hc)
    as (wl & wr & dir & center & defects & _ & _ & _ & _ & _ & Hg).
  set (h1 := fst (fst (locatePalm U h))) in *.
  destruct (acceptanceGate_accepts U handClassifier _ _ Hg) as (_ & _ & _ & Hv).
  assert (Hp : params (detectFingers U PLANE_ENABLED (withWrist U h1 wl wr) center
                                     defects wl wr dir) = params h).
  { pose proof (frame_detectFingers U PLANE_ENABLED (withWrist U h1 wl wr) center
                                    defects wl wr dir) as Hfr.
    apply frame_fields in Hfr. destruct Hfr as (_ & _ & _ & P1 & _).
    destruct (withWrist_fields U h1 wl wr) as (_ & _ & _ & P2 & _).
    destruct (locatePalm_fields U h) as (P3 & _). fold h1 in P3. congruence. }
  rewrite Hp in Hv. rewrite Hsvm, Htr in Hv. cbn [andb] in Hv.
  destruct Hv as [(Hv & _) | (_ & Hi & Hcl & Hth)]; [discriminate|].
  destruct (classify_returns_clamped _ _ _ Hcl) as (R0 & R1).
  repeat split; assumption.
Qed.

Lemma frame_touchingEdge (a b : Hand) : frame a = frame b -> touchingEdge a = touchingEdge b.
Proof. unfold frame, touchingEdge. intros [= ]. congruence. Qed.

Lemma touchingEdge_withWrist (h : Hand) (wl wr : Z) :
  touchingEdge (withWrist U h wl wr) = touchingEdge h.
Proof. now destruct h. Qed.

Lemma touchingEdge_locatePalm (h : Hand) :
  touchingEdge (fst (fst (locatePalm U h))) = touchingEdge h.
Proof.
  unfold locatePalm.
  destruct (computeConvexHull U _) as [hull ih].
  destruct (largestInscribedCircle U _ _ _ _ _) as [circen cirrad].
  cbn [fst]. now destruct h.
Qed.

(** [checkEdgeConnected] writes the two edge flags and nothing else. *)
Lemma checkEdgeConnected_only_flags (h h1 : Hand) :
  checkEdgeConnected h = Some h1 ->
  exists l r, h1 = set_rightEdgeConnected r (set_leftEdgeConnected l h).
Proof.
  unfold checkEdgeConnected.
  set (h0 := raiseLeft (bottomLeftSweep h) h).
  destruct (if negb (leftEdgeConnected h0) then leftSideSweep h0 else Some false)
    as [l|]; [|discriminate].
  set (h2 := raiseRight _ (raiseLeft l h0)).
  destruct (if negb (rightEdgeConnected h2) then rightSideSweep h2 else Some false)
    as [r|]; [|discriminate].
  intros [= <-]. subst h2 h0.
  exists (leftEdgeConnected h || l || bottomLeftSweep h),
         (rightEdgeConnected h || r
          || bottomRightSweep (raiseLeft l (raiseLeft (bottomLeftSweep h) h))).
  destruct r, (bottomRightSweep _), l, (bottomLeftSweep h), h;
    cbn; rewrite ?orb_true_r, ?orb_false_r; reflexivity.
Qed.

Lemma initializeObject_after_sweeps (h h' : Hand) (ret : bool) :
  aligned h -> isHand h = false ->
  initializeObject U handClassifier PLANE_ENABLED h = Done ret h' ->
  isHand h' = ret /\
  (ret = true ->
   surfaceArea h' = util_surfaceArea U (fullMapSize h) (points h) (points_xyz h)
                                       (num_points h) /\
   fge (surfaceArea h') (handMinArea (params h)) = true /\
   (surfaceArea h' <=? handMaxArea (params h))%float = true /\
   (handRequireEdgeConnected (params h) = true -> touchingEdge h = true) /\
   touchingEdge h' = touchingEdge h /\
   1 <= getNumFingers h' <= 6).
Proof.
  intros Ha Hi. unfold initializeObject.
  set (sa := util_surfaceArea U (fullMapSize h) (points h) (points_xyz h) (num_points h)).
  set (h0 := set_surfaceArea sa h).
  assert (F0 : surfaceArea h0 = sa /\ params h0 = params h /\
               leftEdgeConnected h0 = leftEdgeConnected h /\
               rightEdgeConnected h0 = rightEdgeConnected h /\ isHand h0 = isHand h).
  { subst h0. destruct h. repeat split. }
  destruct F0 as (F1 & F2 & F3 & F4 & F5). rewrite F1, F2, F3, F4.
  destruct (fge sa (handMinArea (params h))) eqn:Emin; cbn [andb].
  2:{ intros [= <- <-]. split; [congruence|]. intros E. congruence. }
  destruct (sa <=? handMaxArea (params h))%float eqn:Emax; cbn [andb].
  2:{ intros [= <- <-]. split; [congruence|]. intros E. congruence. }
  destruct (negb (handRequireEdgeConnected (params h)) || leftEdgeConnected h
            || rightEdgeConnected h) eqn:Eedge.
  2:{ intros [= <- <-]. split; [congruence|]. intros E. congruence. }
  destruct (checkForHand U handClassifier PLANE_ENABLED h0) as [r g| |] eqn:Ec;
    try discriminate.
  intros [= <- <-]. split; [now destruct g|]. intros ->.
  assert (A0 : aligned h0).
  { eapply landmarks_aligned; [apply landmarks_set_surfaceArea|exact Ha]. }
  destruct (checkForHand_accepts U handClassifier PLANE_ENABLED h0 g Ec)
    as (wl & wr & dir & center & defects & _ & _ & _ & _ & _ & Hg).
  set (h1 := fst (fst (locatePalm U h0))) in *.
  destruct (acceptanceGate_accepts U handClassifier _ _ Hg) as (Hfr & Hl & Hcnt & _).
  rewrite frame_detectFingers in Hfr. pose proof Hfr as Hfr0. apply frame_fields in Hfr.
  destruct Hfr as (_ & _ & _ & _ & _ & _ & _ & _ & Hsa).
  destruct (withWrist_fields U h1 wl wr) as (_ & _ & _ & _ & _ & _ & Wsa & Wl & _).
  destruct (locatePalm_fields U h0) as (_ & _ & _ & _ & _ & _ & Lsa & _).
  fold h1 in Lsa.
  assert (Ag : aligned (detectFingers U PLANE_ENABLED (withWrist U h1 wl wr) center
                                      defects wl wr dir)).
  { apply aligned_detectFingers. eapply landmarks_aligned; [exact Wl|].
    eapply landmarks_aligned; [apply landmarks_locatePalm|exact A0]. }
  replace (surfaceArea (set_isHand true g)) with (surfaceArea g) by now destruct g.
  replace (getNumFingers (set_isHand true g)) with (getNumFingers g) by now destruct g.
  split; [congruence|].
  split; [replace (surfaceArea g) with sa by congruence; exact Emin|].
  split; [replace (surfaceArea g) with sa by congruence; exact Emax|].
  split; [intros Hreq; rewrite Hreq in Eedge; exact Eedge|].
  split.
  - replace (touchingEdge (set_isHand true g)) with (touchingEdge g) by now destruct g.
    rewrite (frame_touchingEdge _ _ Hfr0), touchingEdge_withWrist. unfold h1.
    rewrite touchingEdge_locatePalm. subst h0. now destruct h.
  - destruct Ag as (Ag & _). apply landmarks_fingersXYZ in Hl.
    unfold getNumFingers in *. rewrite Hl. lia.
Qed.

(** X17: initializeObject leaves isHand equal to what it reports, and a
    cluster that starts as "not a hand" ends as a hand only if its surface
    area lies in [handMinArea, handMaxArea], it touches an edge when that
    is required, and one to six fingers were found. *)
Theorem initializeObject_valid (h h' : Hand) (ret : bool) :
  aligned h -> isHand h = false ->
  initializeObjectAll U handClassifier PLANE_ENABLED h = Done ret h' ->
  isHand h' = ret /\
  (ret = true ->
   surfaceArea h' = util_surfaceArea U (fullMapSize h) (points h) (points_xyz h)
                                       (num_points h) /\
   fge (surfaceArea h') (handMinArea (params h)) = true /\
   (surfaceArea h' <=? handMaxArea (params h))%float = true /\
   (handRequireEdgeConnected (params h) = true -> touchingEdge h' = true) /\
   1 <= getNumFingers h' <= 6).
Proof.
  intros Ha Hi. unfold initializeObjectAll.
  destruct (checkEdgeConnected h) as [h1|] eqn:Es; [|discriminate].
  destruct (checkEdgeConnected_only_flags h h1 Es) as (l & r & ->).
  set (h1 := set_rightEdgeConnected r (set_leftEdgeConnected l h)).
  assert (F : aligned h1 /\ isHand h1 = false /\ fullMapSize h1 = fullMapSize h /\
              points h1 = points h /\ points_xyz h1 = points_xyz h /\
              num_points h1 = num_points h /\ params h1 = params h).
  { subst h1. destruct h. repeat split; try assumption; apply Ha. }
  destruct F as (A1 & I1 & F1 & F2 & F3 & F4 & F5).
  intros Hrun.
  destruct (initializeObject_after_sweeps h1 h' ret A1 I1 Hrun) as (R1 & R2).
  split; [exact R1|]. intros Hret.
  destruct (R2 Hret) as (S1 & S2 & S3 & S4 & S5 & S6).
  rewrite F1, F2, F3, F4 in S1. rewrite F5 in S2, S3, S4.
  repeat split; try assumption; try apply S6.
  intros Hreq. rewrite S5. now apply S4.
Qed.

Lemma getNumFingers_clearLandmarks (h : Hand) : getNumFingers (clearLandmarks h) = 0.
Proof. now destruct h. Qed.

Lemma singleFingerFallback_count (h : Hand) (defects : list Vec4i) (good : list Z) :
  let g := singleFingerFallback U PLANE_ENABLED h defects good in
  let len := euclideanDistance U (at_ vzero (fingersXYZ g) 0) (at_ vzero (defectsXYZ g) 0) in
  getNumFingers g = 0 \/
  (getNumFingers g = 1 /\ good <> [] /\
   (singleFingerLenMax (params h) <? len)%float = false /\
   (len <? singleFingerLenMin (params h))%float = false).
Proof.
  cbv zeta. unfold singleFingerFallback.
  destruct (_ || _ || _) eqn:E0.
  { left. destruct h. reflexivity. }
  apply orb_false_iff in E0. destruct E0 as (_ & Eg). apply Z.eqb_neq in Eg.
  assert (Hgood : good <> []) by (intros ->; now apply Eg).
  destruct (_ <? 10).
  { left. apply getNumFingers_clearLandmarks. }
  assert (Hlen : forall g0 x,
            params g0 = params h -> fingersXYZ g0 = [x] -> length (defectsXYZ g0) = 1%nat ->
            let g := fallbackLength U g0 x in
            let len := euclideanDistance U (at_ vzero (fingersXYZ g) 0)
                                           (at_ vzero (defectsXYZ g) 0) in
            getNumFingers g = 0 \/
            getNumFingers g = 1 /\ good <> [] /\
            (singleFingerLenMax (params h) <? len)%float = false /\
            (len <? singleFingerLenMin (params h))%float = false).
  { intros g0 x Hp Hf Hd. cbv zeta. unfold fallbackLength, fgt. rewrite Hp.
    destruct (singleFingerLenMax (params h) <? _)%float eqn:E1; cbn [orb].
    { left. apply getNumFingers_clearLandmarks. }
    destruct (_ <? singleFingerLenMin (params h))%float eqn:E2.
    { left. apply getNumFingers_clearLandmarks. }
    right. unfold getNumFingers, zlen. rewrite Hf. cbn [length at_ Z.ltb Z.compare Z.to_nat nth].
    repeat split; assumption. }
  destruct PLANE_ENABLED.
  - apply Hlen; destruct (_ =? _)%float; destruct h; reflexivity.
  - destruct (negb _).
    + left. apply getNumFingers_clearLandmarks.
    + apply Hlen; destruct (_ =? _)%float; destruct h; reflexivity.
Qed.

(** X18: the single-finger fallback ends with no finger or with exactly one,
    and the length of that finger is neither above singleFingerLenMax nor
    below singleFingerLenMin. *)
Theorem fallback_at_most_one (h : Hand) (defects : list Vec4i) (good : list Z) :
  let g := singleFingerFallback U PLANE_ENABLED h defects good in
  let len := euclideanDistance U (at_ vzero (fingersXYZ g) 0) (at_ vzero (defectsXYZ g) 0) in
  getNumFingers g = 0 \/
  (getNumFingers g = 1 /\ good <> [] /\
   (singleFingerLenMax (params h) <? len)%float = false /\
   (len <? singleFingerLenMin (params h))%float = false).
Proof. exact (singleFingerFallback_count h defects good). Qed.

End VerdictFacts.

Lemma at_map {A B} (f : A -> B) (da : A) (db : B) (l : list A) (k : Z) :
  0 <= k < zlen l -> at_ db (map f l) k = f (at_ da l k).
Proof.
  intros Hk. unfold at_. destruct (Z.ltb_spec k 0); [lia|].
  rewrite (nth_indep _ db (f da)) by (rewrite length_map; unfold zlen in Hk; lia).
  apply map_nth.
Qed.

Lemma at_In {A} (d : A) (l : list A) (k : Z) : 0 <= k < zlen l -> In (at_ d l k) l.
Proof.
  intros Hk. unfold at_. destruct (Z.ltb_spec k 0); [lia|].
  apply nth_In. unfold zlen in Hk. lia.
Qed.

Section LengthFacts.

Variable U : Util.
Variable PLANE_ENABLED : bool.

(** X19: every finger that finger detection reports has a length within the
    configured bounds: with two or more fingers each length lies strictly
    between fingerLenMin and fingerLenMax and each tip has a depth other
    than zero; a single finger comes from the fallback and is neither
    longer than singleFingerLenMax nor shorter than singleFingerLenMin. *)
Theorem detected_finger_lengths (h : Hand) (center : Point2i) (defects : list Vec4i)
    (wristL wristR direction : Z) :
  fingersXYZ h = [] -> defectsXYZ h = [] ->
  let g := detectFingers U PLANE_ENABLED h center defects wristL wristR direction in
  let len k := euclideanDistance U (at_ vzero (fingersXYZ g) k)
                                   (at_ vzero (defectsXYZ g) k) in
  (2 <= getNumFingers g ->
   forall k, 0 <= k < getNumFingers g ->
     (len k <? fingerLenMax (params h))%float = true /\
     (fingerLenMin (params h) <? len k)%float = true /\
     (v2 (at_ vzero (fingersXYZ g) k) =? 0)%float = false) /\
  (getNumFingers g < 2 ->
   getNumFingers g = 0 \/
   (getNumFingers g = 1 /\
    (singleFingerLenMax (params h) <? len 0%Z)%float = false /\
    (len 0%Z <? singleFingerLenMin (params h))%float = false)).
Proof.
  intros Hf Hd. cbv zeta. unfold detectFingers.
  set (sorted := std_sort (DefectComparer U h) defects).
  set (scan := scanDefects U h direction wristL wristR sorted).
  set (cands := selectFingers U h center (fingerTipCands scan) (fingerDefectCands scan)).
  destruct (zlen (fingersXYZ (dedupFingers U cands h)) <=? 1) eqn:E.
  - set (hd := dedupFingers U cands h).
    assert (Hp : params hd = params h).
    { pose proof (frame_dedupFingers U cands h) as Hfr. apply frame_fields in Hfr. tauto. }
    pose proof (singleFingerFallback_count U PLANE_ENABLED hd sorted (goodDefects scan)) as Hfb.
    cbv zeta in Hfb. rewrite Hp in Hfb.
    split.
    + intros H2. destruct Hfb as [H0 | (H1 & _)]; lia.
    + intros _. destruct Hfb as [H0 | (H1 & _ & Hb)]; [now left|right; now split].
  - apply Z.leb_gt in E. split; [|unfold getNumFingers; lia].
    intros _ k Hk.
    destruct (dedupFingers_landmarks U cands h) as (_ & A2 & _ & A4).
    cbv zeta in A2, A4. rewrite Hf in A2. rewrite Hd in A4. cbn [app] in A2, A4.
    set (kept := map (at_ noCand cands)
                     (dedupKept U (map c_xyz cands) (fingerDistMin (params h)))) in *.
    assert (Hk' : 0 <= k < zlen kept).
    { unfold getNumFingers in Hk. rewrite A2 in Hk. unfold zlen in *.
      rewrite length_map in Hk. exact Hk. }
    rewrite A2, A4.
    rewrite (at_map c_xyz noCand vzero kept k Hk').
    rewrite (at_map (fun c => xyzAt U h (psub (c_defij c) (topLeftPt h)))
                    noCand vzero kept k Hk').
    assert (Hin : In (at_ noCand kept k) cands).
    { pose proof (at_In noCand kept k Hk') as Hi. subst kept.
      apply in_map_iff in Hi. destruct Hi as (i & <- & Hi).
      apply in_dedupKept in Hi. destruct Hi as (Hi & _).
      apply at_In. unfold zlen in *. rewrite length_map in Hi. exact Hi. }
    destruct (selectFingers_passed U h center (fingerTipCands scan) (fingerDefectCands scan))
      as (Hs & _).
    fold cands in Hs. rewrite Forall_forall in Hs.
    destruct (Hs _ Hin) as (_ & _ & _ & _ & L1 & L2 & L3 & _).
    repeat split; assumption.
Qed.

(** X20: for a cluster that does not touch the image edge, both wrist
    contacts are the lowest contour point, the first one among equally
    low points; for an empty contour both stay unset. *)
Theorem selectContacts_lowest (h : Hand) :
  touchingEdge h = false ->
  let c := fst (selectContacts U h) in
  snd (selectContacts U h) = c /\
  (contour h = [] -> c = -1) /\
  (contour h <> [] ->
   0 <= c < zlen (contour h) /\
   (forall i, 0 <= i < zlen (contour h) ->
      py (at_ origin (contour h) i) <= py (at_ origin (contour h) c)) /\
   (forall i, 0 <= i < c ->
      py (at_ origin (contour h) i) < py (at_ origin (contour h) c))).
Proof.
  intros Ht. cbv zeta. unfold selectContacts, iota, zlen.
  set (y i := py (at_ origin (contour h) i)).
  assert (G : forall m a st,
    (snd st = fst st /\
     (a = 0%nat -> fst st = -1) /\
     ((0 < a)%nat ->
      0 <= fst st < Z.of_nat a /\
      (forall i, 0 <= i < Z.of_nat a -> y i <= y (fst st)) /\
      (forall i, 0 <= i < fst st -> y i < y (fst st)))) ->
    let st' := fold_left (contactStep U h) (map Z.of_nat (seq a m)) st in
    snd st' = fst st' /\
    ((a + m = 0)%nat -> fst st' = -1) /\
    ((0 < a + m)%nat ->
     0 <= fst st' < Z.of_nat (a + m) /\
     (forall i, 0 <= i < Z.of_nat (a + m) -> y i <= y (fst st')) /\
     (forall i, 0 <= i < fst st' -> y i < y (fst st')))).
  { induction m as [|m IH]; intros a st Hst; cbn [seq map fold_left].
    - cbv zeta. now rewrite Nat.add_0_r.
    - replace (a + S m)%nat with (S a + m)%nat by lia. apply IH.
      destruct st as [l r]. cbn [fst snd] in Hst. destruct Hst as (-> & H0 & H1).
      unfold contactStep. rewrite Ht.
      fold (y l). fold (y (Z.of_nat a)).
      destruct (l =? -1) eqn:El; cbn [orb].
      + apply Z.eqb_eq in El. subst l.
        assert (a = 0%nat) by (destruct a; [reflexivity|specialize (H1 ltac:(lia)); lia]).
        subst a. cbn [fst snd]. split; [reflexivity|]. split; [lia|]. intros _.
        split; [lia|]. split; intros i Hi; [replace i with 0 by lia; cbn; lia|lia].
      + apply Z.eqb_neq in El.
        assert (Ha : (0 < a)%nat) by (destruct a; [specialize (H0 eq_refl); lia|lia]).
        destruct (H1 Ha) as (R & Hmax & Hfirst).
        destruct (Z.ltb_spec (y l) (y (Z.of_nat a))) as [Hlt | Hge]; cbn [fst snd].
        * split; [reflexivity|]. split; [lia|]. intros _.
          split; [lia|]. split; intros i Hi.
          -- destruct (Z.eq_dec i (Z.of_nat a)) as [-> | Hne]; [lia|].
             specialize (Hmax i ltac:(lia)). lia.
          -- specialize (Hmax i ltac:(lia)). lia.
        * split; [reflexivity|]. split; [lia|]. intros _.
          split; [lia|]. split; intros i Hi.
          -- destruct (Z.eq_dec i (Z.of_nat a)) as [-> | Hne]; [lia|].
             apply Hmax. lia.
          -- now apply Hfirst. }
  specialize (G (length (contour h)) 0%nat (-1, -1)).
  cbv zeta in G. cbn [fst snd Nat.add] in G. rewrite Nat2Z.id.
  destruct G as (G1 & G2 & G3).
  { split; [reflexivity|]. split; [reflexivity|lia]. }
  split; [exact G1|]. split.
  - intros Hc. apply G2. now rewrite Hc.
  - intros Hc. apply G3. destruct (contour h); [congruence|cbn; lia].
Qed.

End LengthFacts.

(** ** Edge connectivity *)


Lemma sweeps_ext (a b : Hand) :
  sweepInput a = sweepInput b ->
  bottomLeftSweep a = bottomLeftSweep b /\ leftSideSweep a = leftSideSweep b /\
  bottomRightSweep a = bottomRightSweep b /\ rightSideSweep a = rightSideSweep b.
Proof.
  unfold sweepInput. intros [= H1 H2 H3 H4].
  unfold bottomLeftSweep, leftSideSweep, bottomRightSweep, rightSideSweep,
         sideFuel, sideBound, sideStart, sweepRow.
  rewrite H1, H2, H3, H4. repeat split.
Qed.

Lemma sweepInput_raiseLeft b h : sweepInput (raiseLeft b h) = sweepInput h.
Proof. destruct b, h; reflexivity. Qed.

Lemma sweepInput_raiseRight b h : sweepInput (raiseRight b h) = sweepInput h.
Proof. destruct b, h; reflexivity. Qed.

Lemma flags_raiseLeft b h :
  leftEdgeConnected (raiseLeft b h) = b || leftEdgeConnected h /\
  rightEdgeConnected (raiseLeft b h) = rightEdgeConnected h.
Proof. destruct b, h; split; reflexivity. Qed.

Lemma flags_raiseRight b h :
  leftEdgeConnected (raiseRight b h) = leftEdgeConnected h /\
  rightEdgeConnected (raiseRight b h) = b || rightEdgeConnected h.
Proof. destruct b, h; split; reflexivity. Qed.

Lemma sf_minus_one : Prim2SF (double_of_int (-1)) = S754_finite true 4503599627370496 (-52).
Proof. vm_compute. reflexivity. Qed.

(** Row -1 is below every lower bound of a side sweep. *)
Lemma minus_one_below_bound (x : float) :
  fge (double_of_int (-1)) (std_max x 0) = false.
Proof.
  unfold fge, std_max.
  destruct (x <? 0)%float eqn:E; [reflexivity|].
  revert E. rewrite ltb_spec, leb_spec, sf_zero, sf_minus_one.
  destruct (Prim2SF x) as [s|s| |s m e]; try destruct s;
    unfold SFltb, SFleb, SFcompare; congruence.
Qed.

Lemma sideSweep_ends (m : Mat) (guarded : bool) (col : Z) (x : float) :
  forall (fuel : nat) (row : Z),
    -1 <= row -> row + 2 <= Z.of_nat fuel ->
    exists b, sideSweep fuel m guarded col (std_max x 0) row = Some b.
Proof.
  induction fuel as [|fuel IH]; intros row H1 H2; [lia|].
  cbn [sideSweep].
  destruct (Z.eq_dec row (-1)) as [-> | Hne].
  - rewrite minus_one_below_bound. eauto.
  - destruct (fge _ _); [|eauto].
    destruct (guarded && _); [apply IH; lia|].
    destruct (validAt m row col); [eauto|apply IH; lia].
Qed.

(** A side sweep reports a valid sample only if it met one, on its column,
    at or below its first row and not below its bound. *)
Lemma sideSweep_sound (m : Mat) (guarded : bool) (col : Z) (bound : float) :
  forall (fuel : nat) (row : Z),
    sideSweep fuel m guarded col bound row = Some true ->
    exists r, r <= row /\ fge (double_of_int r) bound = true /\ validAt m r col = true.
Proof.
  induction fuel as [|fuel IH]; intros row H; [discriminate|].
  cbn [sideSweep] in H.
  destruct (fge (double_of_int row) bound) eqn:E; [|discriminate].
  destruct (guarded && _).
  - destruct (IH _ H) as (r & Hr & Hb & Hv). exists r. repeat split; try assumption. lia.
  - destruct (validAt m row col) eqn:Ev.
    + exists row. repeat split; try assumption. lia.
    + destruct (IH _ H) as (r & Hr & Hb & Hv). exists r. repeat split; try assumption. lia.
Qed.

Lemma sideSweep_blank (m : Mat) (guarded : bool) (col : Z) (bound : float) :
  (forall r c, validAt m r c = false) ->
  forall (fuel : nat) (row : Z) (b : bool),
    sideSweep fuel m guarded col bound row = Some b -> b = false.
Proof.
  intros Hb. induction fuel as [|fuel IH]; intros row b H; [discriminate|].
  cbn [sideSweep] in H. rewrite Hb in H.
  destruct (fge _ _); [|congruence].
  destruct (guarded && _); eapply IH; exact H.
Qed.


Lemma leftSideSweep_ends (h : Hand) :
  windowInFrame h -> exists b, leftSideSweep h = Some b.
Proof.
  intros (H1 & H2). unfold leftSideSweep.
  destruct (_ && _); [|eauto].
  apply sideSweep_ends; unfold sideFuel, sideStart; lia.
Qed.

Lemma rightSideSweep_ends (h : Hand) :
  windowInFrame h -> exists b, rightSideSweep h = Some b.
Proof.
  intros (H1 & H2). unfold rightSideSweep.
  destruct (_ && _); [|eauto].
  apply sideSweep_ends; unfold sideFuel, sideStart; lia.
Qed.

Lemma windowInFrame_ext (a b : Hand) :
  sweepInput a = sweepInput b -> windowInFrame b -> windowInFrame a.
Proof. unfold sweepInput, windowInFrame. intros [= -> -> -> _]. tauto. Qed.

(** How [checkEdgeConnected] ends, in terms of what its four sweeps
    found. *)
Lemma checkEdgeConnected_spec (h : Hand) :
  windowInFrame h ->
  exists l r,
    (if negb (bottomLeftSweep h || leftEdgeConnected h) then leftSideSweep h
     else Some false) = Some l /\
    (if negb (bottomRightSweep h || rightEdgeConnected h) then rightSideSweep h
     else Some false) = Some r /\
    checkEdgeConnected h
    = Some (raiseRight r (raiseRight (bottomRightSweep h)
              (raiseLeft l (raiseLeft (bottomLeftSweep h) h)))).
Proof.
  intros Hw. unfold checkEdgeConnected.
  set (h1 := raiseLeft (bottomLeftSweep h) h).
  assert (S1 : sweepInput h1 = sweepInput h) by apply sweepInput_raiseLeft.
  destruct (sweeps_ext h1 h S1) as (_ & E1 & _).
  destruct (flags_raiseLeft (bottomLeftSweep h) h) as (F1 & F2). fold h1 in F1, F2.
  rewrite F1, E1.
  assert (Hl : exists l, (if negb (bottomLeftSweep h || leftEdgeConnected h)
                          then leftSideSweep h else Some false) = Some l).
  { destruct (negb (bottomLeftSweep h || leftEdgeConnected h));
      [now apply leftSideSweep_ends|eauto]. }
  destruct Hl as (l & Hl). rewrite Hl.
  set (h2 := raiseLeft l h1).
  assert (S2 : sweepInput h2 = sweepInput h).
  { unfold h2. now rewrite sweepInput_raiseLeft. }
  destruct (sweeps_ext h2 h S2) as (_ & _ & E2 & _). rewrite E2.
  set (h3 := raiseRight (bottomRightSweep h) h2).
  assert (S3 : sweepInput h3 = sweepInput h).
  { unfold h3. now rewrite sweepInput_raiseRight. }
  destruct (sweeps_ext h3 h S3) as (_ & _ & _ & E3). rewrite E3.
  assert (F3 : rightEdgeConnected h3 = bottomRightSweep h || rightEdgeConnected h).
  { unfold h3. destruct (flags_raiseRight (bottomRightSweep h) h2) as (_ & ->).
    unfold h2. destruct (flags_raiseLeft l h1) as (_ & ->). now rewrite F2. }
  rewrite F3.
  assert (Hr : exists r, (if negb (bottomRightSweep h || rightEdgeConnected h)
                          then rightSideSweep h else Some false) = Some r).
  { destruct (negb (bottomRightSweep h || rightEdgeConnected h));
      [now apply rightSideSweep_ends|eauto]. }
  destruct Hr as (r & Hr). rewrite Hr.
  exists l, r. repeat split.
Qed.

(** X21: checkEdgeConnected always ends, changes nothing but the two edge
    flags, never clears a flag, and leaves both flags as they were when
    the depth window holds no valid sample. *)
Theorem checkEdgeConnected_flags (h : Hand) :
  windowInFrame h ->
  exists h',
    checkEdgeConnected h = Some h' /\
    h' = set_rightEdgeConnected (rightEdgeConnected h')
           (set_leftEdgeConnected (leftEdgeConnected h') h) /\
    (leftEdgeConnected h = true -> leftEdgeConnected h' = true) /\
    (rightEdgeConnected h = true -> rightEdgeConnected h' = true) /\
    ((forall r c, validAt (xyzMap h) r c = false) ->
     leftEdgeConnected h' = leftEdgeConnected h /\
     rightEdgeConnected h' = rightEdgeConnected h).
Proof.
  intros Hw.
  destruct (checkEdgeConnected_spec h Hw) as (l & r & Hl & Hr & ->).
  eexists. split; [reflexivity|].
  split; [|split; [|split]].
  - destruct r, (bottomRightSweep h), l, (bottomLeftSweep h), h; reflexivity.
  - intros E. destruct r, (bottomRightSweep h), l, (bottomLeftSweep h), h;
      cbn in *; congruence.
  - intros E. destruct r, (bottomRightSweep h), l, (bottomLeftSweep h), h;
      cbn in *; congruence.
  - intros Hb.
    assert (B1 : bottomLeftSweep h = false).
    { unfold bottomLeftSweep. apply not_true_is_false. intros E.
      apply andb_true_iff in E. destruct E as (_ & E). apply existsb_exists in E.
      destruct E as (c & _ & E). now rewrite Hb in E. }
    assert (B2 : bottomRightSweep h = false).
    { unfold bottomRightSweep. apply not_true_is_false. intros E.
      apply andb_true_iff in E. destruct E as (_ & E). apply existsb_exists in E.
      destruct E as (c & _ & E). rewrite Hb in E. now rewrite andb_false_r in E. }
    assert (L : l = false).
    { destruct (negb (bottomLeftSweep h || _)); [|congruence]. unfold leftSideSweep in Hl.
      destruct (_ && _); [|congruence]. eapply sideSweep_blank; eassumption. }
    assert (R : r = false).
    { destruct (negb (bottomRightSweep h || _)); [|congruence]. unfold rightSideSweep in Hr.
      destruct (_ && _); [|congruence]. eapply sideSweep_blank; eassumption. }
    subst l r. rewrite B1, B2. split; reflexivity.
Qed.

(** X22: the left flag is raised only by a valid sample on the bottom sweep
    row in the window's left half or on the left side column, and a valid
    sample on that part of the bottom row always raises it. *)
Theorem leftEdge_sound (h h' : Hand) :
  checkEdgeConnected h = Some h' ->
  let m := xyzMap h in
  let onBottom c :=
    0 <= sweepRow h < rows m /\
    0 <= c < Z.min (Z.quot (width (fullMapSize h)) 2 - px (topLeftPt h)) (cols m) /\
    validAt m (sweepRow h) c = true in
  let onSide r :=
    0 <= sideEdgeThresh (params h) - px (topLeftPt h) < cols m /\
    r <= sideStart h /\ fge (double_of_int r) (sideBound h) = true /\
    validAt m r (sideEdgeThresh (params h) - px (topLeftPt h)) = true in
  (leftEdgeConnected h' = true ->
   leftEdgeConnected h = true \/ (exists c, onBottom c) \/ (exists r, onSide r)) /\
  ((exists c, onBottom c) -> leftEdgeConnected h' = true).
Proof.
  cbv zeta. unfold checkEdgeConnected.
  set (h1 := raiseLeft (bottomLeftSweep h) h).
  assert (S1 : sweepInput h1 = sweepInput h) by apply sweepInput_raiseLeft.
  destruct (sweeps_ext h1 h S1) as (_ & E1 & _).
  destruct (flags_raiseLeft (bottomLeftSweep h) h) as (F1 & _). fold h1 in F1.
  rewrite F1, E1.
  destruct (if negb (bottomLeftSweep h || leftEdgeConnected h)
            then leftSideSweep h else Some false) as [l|] eqn:Hl; [|discriminate].
  set (h2 := raiseLeft l h1).
  set (h3 := raiseRight (bottomRightSweep h2) h2).
  destruct (if negb (rightEdgeConnected h3) then rightSideSweep h3 else Some false)
    as [r|]; [|discriminate].
  intros [= <-].
  assert (F : leftEdgeConnected (raiseRight r h3)
              = l || (bottomLeftSweep h || leftEdgeConnected h)).
  { destruct (flags_raiseRight r h3) as (-> & _). unfold h3.
    destruct (flags_raiseRight (bottomRightSweep h2) h2) as (-> & _). unfold h2.
    destruct (flags_raiseLeft l h1) as (-> & _). now rewrite F1. }
  rewrite F.
  assert (B : bottomLeftSweep h = true <->
              exists c, 0 <= sweepRow h < rows (xyzMap h) /\
                        0 <= c < Z.min (Z.quot (width (fullMapSize h)) 2 - px (topLeftPt h))
                                       (cols (xyzMap h)) /\
                        validAt (xyzMap h) (sweepRow h) c = true).
  { unfold bottomLeftSweep. rewrite !andb_true_iff, existsb_exists, Z.leb_le, Z.ltb_lt.
    split.
    - intros ((R1 & R2) & (c & Hc & Hv)). apply in_iota in Hc. exists c. tauto.
    - intros (c & R & Hc & Hv). split; [lia|]. exists c. split; [now apply in_iota|exact Hv]. }
  split.
  - intros E. apply orb_true_iff in E. destruct E as [E | E].
    + subst l. right. right.
      destruct (negb (bottomLeftSweep h || _)); [|discriminate]. unfold leftSideSweep in Hl.
      destruct (_ && _) eqn:Ec; [|discriminate].
      apply andb_true_iff in Ec. destruct Ec as (C1 & C2).
      apply Z.leb_le in C1. apply Z.ltb_lt in C2.
      destruct (sideSweep_sound _ _ _ _ _ _ Hl) as (r0 & R1 & R2 & R3).
      exists r0. repeat split; assumption.
    + apply orb_true_iff in E. destruct E as [E | E]; [|now left].
      right. left. now apply B.
  - intros Hc. apply B in Hc. rewrite Hc. now rewrite orb_true_r.
Qed.

(** ** Plane contact *)

Lemma fold_left_filter {A} (p : A -> bool) (l : list A) :
  forall acc, fold_left (fun out i => if p i then out ++ [i] else out) l acc
              = acc ++ filter p l.
Proof.
  induction l as [|x l IH]; intros acc; cbn [fold_left filter].
  - now rewrite app_nil_r.
  - rewrite IH. destruct (p x); [now rewrite <- app_assoc|reflexivity].
Qed.

Lemma touchingPlane_filter (h : Hand) (plane : FramePlane) (threshold : float)
    (extrapolate : bool) :
  fst (touchingPlane h plane threshold extrapolate)
  = filter (fingerTouches h plane threshold extrapolate) (iota (getNumFingers h)).
Proof. unfold touchingPlane. cbn [fst]. now rewrite fold_left_filter. Qed.

Lemma iota_sorted (n : Z) : StronglySorted Z.lt (iota n).
Proof.
  unfold iota. generalize 0%nat.
  induction (Z.to_nat n) as [|k IH]; intros s; cbn [seq map]; constructor.
  - apply IH.
  - apply Forall_forall. intros x Hx. apply in_map_iff in Hx.
    destruct Hx as (y & <- & Hy). apply in_seq in Hy. lia.
Qed.

Lemma filter_sorted {A} (R : A -> A -> Prop) (p : A -> bool) (l : list A) :
  StronglySorted R l -> StronglySorted R (filter p l).
Proof.
  induction 1 as [|x l Hs IH Hx]; cbn [filter]; [constructor|].
  destruct (p x); [|exact IH]. constructor; [exact IH|].
  apply Forall_forall. intros y Hy. apply filter_In in Hy.
  rewrite Forall_forall in Hx. now apply Hx.
Qed.

Lemma zlen_filter_le {A} (p : A -> bool) (l : list A) : zlen (filter p l) <= zlen l.
Proof.
  unfold zlen. apply inj_le. induction l as [|x l IH]; cbn [filter length]; [lia|].
  destruct (p x); cbn [length]; lia.
Qed.

(** X23: touchingPlane writes to [output] exactly the indices of the
    fingers whose tip touches the plane, each once and in ascending order,
    and returns their number, which is at most the number of fingers. *)
Theorem touchingPlane_spec (h : Hand) (plane : FramePlane) (threshold : float)
    (extrapolate : bool) :
  let '(output, count) := touchingPlane h plane threshold extrapolate in
  (forall i, In i output <->
             0 <= i < getNumFingers h /\
             touching plane (at_ vzero (fingersXYZ h) i) (at_ origin (fingersIJ h) i)
                      threshold (negb extrapolate) = true) /\
  StronglySorted Z.lt output /\
  count = zlen output /\ 0 <= count <= getNumFingers h.
Proof.
  pose proof (touchingPlane_filter h plane threshold extrapolate) as E.
  destruct (touchingPlane h plane threshold extrapolate) as (output, count) eqn:Et.
  assert (Ec : count = zlen output).
  { unfold touchingPlane in Et. now injection Et as <- <-. }
  cbn [fst] in E. subst output.
  split; [|split; [|split]].
  - intros i. rewrite filter_In, in_iota. reflexivity.
  - apply filter_sorted, iota_sorted.
  - exact Ec.
  - rewrite Ec. split; [apply zlen_nonneg|].
    etransitivity; [apply zlen_filter_le|].
    rewrite zlen_iota; [lia|]. unfold getNumFingers. apply zlen_nonneg.
Qed.


Lemma pushToLast_app (j i : Z) (js : list Z) (out : list (Z * list Z)) :
  pushToLast j (out ++ [(i, js)]) = out ++ [(i, js ++ [j])].
Proof. unfold pushToLast. rewrite rev_app_distr. cbn. now rewrite rev_involutive. Qed.

Lemma planeLoop_open (h : Hand) (planes : list FramePlane) (threshold : float)
    (extrapolate : bool) (i : Z) (out : list (Z * list Z)) :
  forall (js acc : list Z),
    fold_left (planeStep h planes threshold extrapolate i) js (out ++ [(i, acc)], false)
    = (out ++ [(i, acc ++ filter (fun j => fingerTouches h
                      (at_ (Build_FramePlane (fun _ _ _ _ => false)) planes j)
                      threshold extrapolate i) js)], false).
Proof.
  induction js as [|j js IH]; intros acc; cbn [fold_left filter].
  - now rewrite app_nil_r.
  - unfold planeStep at 2.
    destruct (fingerTouches h _ threshold extrapolate i).
    + rewrite pushToLast_app, IH, <- app_assoc. reflexivity.
    + apply IH.
Qed.

Lemma planeLoop_first (h : Hand) (planes : list FramePlane) (threshold : float)
    (extrapolate : bool) (i : Z) (out : list (Z * list Z)) :
  forall (js : list Z),
    fold_left (planeStep h planes threshold extrapolate i) js (out, true)
    = match filter (fun j => fingerTouches h
                      (at_ (Build_FramePlane (fun _ _ _ _ => false)) planes j)
                      threshold extrapolate i) js with
      | [] => (out, true)
      | touched => (out ++ [(i, touched)], false)
      end.
Proof.
  induction js as [|j js IH]; cbn [fold_left filter]; [reflexivity|].
  unfold planeStep at 2.
  destruct (fingerTouches h _ threshold extrapolate i).
  - rewrite pushToLast_app, planeLoop_open. reflexivity.
  - apply IH.
Qed.


Lemma fingerLoop (h : Hand) (planes : list FramePlane) (threshold : float)
    (extrapolate : bool) :
  forall (fingers : list Z) (out : list (Z * list Z)),
    fold_left (fun out i =>
                 fst (fold_left (planeStep h planes threshold extrapolate i)
                                (iota (zlen planes)) (out, true)))
              fingers out
    = out ++ filter (fun p => nonEmpty (snd p))
               (map (fun i => (i, planesTouched h planes threshold extrapolate i)) fingers).
Proof.
  induction fingers as [|i fingers IH]; intros out; cbn [fold_left map filter].
  - now rewrite app_nil_r.
  - rewrite IH, planeLoop_first. cbn [snd].
    change (filter _ (iota (zlen planes)))
      with (planesTouched h planes threshold extrapolate i).
    destruct (planesTouched h planes threshold extrapolate i) as [|j js];
      cbn [fst nonEmpty].
    + reflexivity.
    + now rewrite <- app_assoc.
Qed.

(** X24: touchingPlanes lists, in ascending order of the finger, each
    finger that touches at least one plane, paired with the indices of all
    the planes it touches in ascending order; fingers touching no plane are
    left out, and the count returned is the number of entries. *)
Theorem touchingPlanes_spec (h : Hand) (planes : list FramePlane) (threshold : float)
    (extrapolate : bool) :
  let '(output, count) := touchingPlanes h planes threshold extrapolate in
  output = filter (fun p => nonEmpty (snd p))
             (map (fun i => (i, planesTouched h planes threshold extrapolate i))
                  (iota (getNumFingers h))) /\
  count = zlen output /\ 0 <= count <= getNumFingers h.
Proof.
  unfold touchingPlanes. rewrite fingerLoop. cbn [app].
  split; [reflexivity|]. split; [reflexivity|].
  split; [apply zlen_nonneg|].
  etransitivity; [apply zlen_filter_le|].
  unfold zlen at 1. rewrite length_map. fold (zlen (iota (getNumFingers h))).
  rewrite zlen_iota; [lia|]. unfold getNumFingers. apply zlen_nonneg.
Qed.


Lemma planesTouched_single (h : Hand) (plane : FramePlane) (threshold : float)
    (extrapolate : bool) (i : Z) :
  planesTouched h [plane] threshold extrapolate i
  = if fingerTouches h plane threshold extrapolate i then [0] else [].
Proof.
  unfold planesTouched, fingerTouches. change (iota (zlen [plane])) with [0].
  cbn [filter]. change (at_ _ [plane] 0) with plane.
  destruct (touching plane _ _ threshold (negb extrapolate)); reflexivity.
Qed.

(** X25: with a single plane, touchingPlanes reports the fingers that
    touchingPlane reports for that plane, each paired with the plane index
    0, and returns the same count. *)
Theorem touchingPlanes_single (h : Hand) (plane : FramePlane) (threshold : float)
    (extrapolate : bool) :
  fst (touchingPlanes h [plane] threshold extrapolate)
  = map (fun i => (i, [0])) (fst (touchingPlane h plane threshold extrapolate)) /\
  snd (touchingPlanes h [plane] threshold extrapolate)
  = snd (touchingPlane h plane threshold extrapolate).
Proof.
  assert (E : fst (touchingPlanes h [plane] threshold extrapolate)
              = map (fun i => (i, [0]))
                    (fst (touchingPlane h plane threshold extrapolate))).
  { rewrite touchingPlane_filter. unfold touchingPlanes. cbn [fst].
    rewrite fingerLoop. cbn [app].
    induction (iota (getNumFingers h)) as [|i l IH]; cbn [filter map]; [reflexivity|].
    rewrite IH, planesTouched_single. cbn [snd].
    destruct (fingerTouches h plane threshold extrapolate i); reflexivity. }
  split; [exact E|].
  change (snd (touchingPlanes h [plane] threshold extrapolate))
    with (zlen (fst (touchingPlanes h [plane] threshold extrapolate))).
  change (snd (touchingPlane h plane threshold extrapolate))
    with (zlen (fst (touchingPlane h plane threshold extrapolate))).
  rewrite E. unfold zlen. now rewrite length_map.
Qed.

(** ** Loading the models *)

Section LoaderFacts.

Import Loader.


Lemma length_set_at {A} (l : list A) : forall i x, length (set_at l i x) = length l.
Proof.
  induction l as [|y l IH]; intros [|i] x; cbn [set_at length]; try reflexivity.
  now rewrite IH.
Qed.

Lemma nth_error_set_at_eq {A} (l : list A) :
  forall i x, (i < length l)%nat -> nth_error (set_at l i x) i = Some x.
Proof.
  induction l as [|y l IH]; intros [|i] x H; cbn [set_at length nth_error] in *;
    try lia; [reflexivity|]. apply IH. lia.
Qed.

Lemma nth_error_set_at_ne {A} (l : list A) :
  forall i j x, i <> j -> nth_error (set_at l i x) j = nth_error l j.
Proof.
  induction l as [|y l IH]; intros [|i] [|j] x H; cbn [set_at nth_error];
    try reflexivity; try congruence.
  apply IH. congruence.
Qed.

Section Loop.
Variable fs : Files.
Variable filePath : String.string.

Lemma loadLoop_true_iff (idxs : list Z) :
  forall svms,
    fst (loadLoop fs filePath idxs svms) = true <->
    forall i, In i idxs ->
      file_exists fs (loadPath fs filePath i) = true /\
      svm_isTrained (SVM_load fs (loadPath fs filePath i)) = true.
Proof.
  induction idxs as [|i idxs IH]; intros svms; cbn [loadLoop].
  - split; [intros _ i []|reflexivity].
  - destruct (file_exists fs (loadPath fs filePath i)) eqn:Ee; cbn [negb].
    + destruct (svm_isTrained (SVM_load fs (loadPath fs filePath i))) eqn:Et; cbn [negb].
      * rewrite IH. split.
        -- intros H j [<- | Hj]; [now split|now apply H].
        -- intros H j Hj. apply H. now right.
      * cbn [fst]. split; [discriminate|]. intros H.
        destruct (H i (or_introl eq_refl)) as (_ & H2). congruence.
    + cbn [fst]. split; [discriminate|]. intros H.
      destruct (H i (or_introl eq_refl)) as (H1 & _). congruence.
Qed.

Lemma loadLoop_length (idxs : list Z) :
  forall svms, length (snd (loadLoop fs filePath idxs svms)) = length svms.
Proof.
  induction idxs as [|i idxs IH]; intros svms; cbn [loadLoop]; [reflexivity|].
  destruct (negb (file_exists _ _)); [reflexivity|].
  destruct (negb (svm_isTrained _)); cbn [snd].
  - apply length_set_at.
  - rewrite IH. apply length_set_at.
Qed.

(** Whatever the loop's result, a slot holds its former model or the one
    loaded from its own file. *)
Lemma loadLoop_slots (idxs : list Z) :
  Forall (fun i => 0 <= i) idxs ->
  forall svms j,
    nth_error (snd (loadLoop fs filePath idxs svms)) j = nth_error svms j \/
    nth_error (snd (loadLoop fs filePath idxs svms)) j
    = Some (SVM_load fs (loadPath fs filePath (Z.of_nat j))).
Proof.
  induction 1 as [|i idxs Hi _ IH]; intros svms j; cbn [loadLoop]; [now left|].
  destruct (negb (file_exists _ _)); [now left|].
  assert (Hset : nth_error (set_at svms (Z.to_nat i)
                              (SVM_load fs (loadPath fs filePath i))) j
                 = nth_error svms j \/
                 nth_error (set_at svms (Z.to_nat i)
                              (SVM_load fs (loadPath fs filePath i))) j
                 = Some (SVM_load fs (loadPath fs filePath (Z.of_nat j)))).
  { destruct (Nat.eq_dec (Z.to_nat i) j) as [E | E].
    - destruct (Nat.lt_ge_cases j (length svms)) as [Hlt | Hge].
      + right. subst j. rewrite nth_error_set_at_eq by exact Hlt.
        now rewrite Z2Nat.id.
      + left. transitivity (@None SVM).
        * apply nth_error_None. now rewrite length_set_at.
        * symmetry. now apply nth_error_None.
    - left. now apply nth_error_set_at_ne. }
  destruct (negb (svm_isTrained _)); cbn [snd]; [exact Hset|].
  destruct (IH (set_at svms (Z.to_nat i) (SVM_load fs (loadPath fs filePath i))) j)
    as [E | E]; [|now right].
  rewrite E. exact Hset.
Qed.

(** When the loop succeeds, every slot it went over holds the model of
    its file. *)
Lemma loadLoop_installs (idxs : list Z) :
  Forall (fun i => 0 <= i) idxs ->
  forall svms i,
    fst (loadLoop fs filePath idxs svms) = true ->
    In i idxs -> (Z.to_nat i < length svms)%nat ->
    nth_error (snd (loadLoop fs filePath idxs svms)) (Z.to_nat i)
    = Some (SVM_load fs (loadPath fs filePath i)).
Proof.
  induction 1 as [|i0 idxs Hi0 Hall IH]; intros svms i Ht Hin Hlt; [destruct Hin|].
  cbn [loadLoop] in *.
  destruct (negb (file_exists _ _)); [discriminate|].
  destruct (negb (svm_isTrained _)); [discriminate|].
  set (svms1 := set_at svms (Z.to_nat i0) (SVM_load fs (loadPath fs filePath i0))) in *.
  assert (Hi : 0 <= i).
  { destruct Hin as [<- | Hin]; [exact Hi0|].
    rewrite Forall_forall in Hall. now apply Hall. }
  destruct (in_dec Z.eq_dec i idxs) as [Hin' | Hnin].
  - apply IH; try assumption. unfold svms1. now rewrite length_set_at.
  - destruct Hin as [-> | Hin]; [|contradiction].
    destruct (loadLoop_slots idxs Hall svms1 (Z.to_nat i)) as [E | E].
    + rewrite E. unfold svms1. now apply nth_error_set_at_eq.
    + rewrite E. now rewrite Z2Nat.id.
Qed.

End Loop.

Lemma iota_nonneg (n : Z) : Forall (fun i => 0 <= i) (iota n).
Proof. apply Forall_forall. intros i Hi. apply in_iota in Hi. lia. Qed.

Lemma loadFile_fields (fs : Files) (c : SVMHandClassifier) (ipath : String.string) :
  let r := loadLoop fs (filePathOf fs ipath) (iota (NUM_SVMS c)) (svm c) in
  fst (loadFile fs c ipath) = fst r /\
  NUM_SVMS (snd (loadFile fs c ipath)) = NUM_SVMS c /\
  MAX_FEATURES (snd (loadFile fs c ipath)) = MAX_FEATURES c /\
  trained (snd (loadFile fs c ipath)) = fst r /\
  svm (snd (loadFile fs c ipath)) = snd r.
Proof.
  cbv zeta. unfold loadFile.
  destruct (loadLoop fs (filePathOf fs ipath) (iota (NUM_SVMS c)) (svm c)) as (t, svms).
  repeat split.
Qed.

Lemma loadFile_ok_iff (fs : Files) (c : SVMHandClassifier) (ipath : String.string) :
  (fst (loadFile fs c ipath) = true <-> loads fs (NUM_SVMS c) ipath) /\
  isTrained (snd (loadFile fs c ipath)) = fst (loadFile fs c ipath).
Proof.
  destruct (loadFile_fields fs c ipath) as (E1 & _ & _ & E4 & _).
  split; [|unfold isTrained; congruence].
  rewrite E1, loadLoop_true_iff. unfold loads.
  split; intros H i Hi; apply H; now apply in_iota.
Qed.

(** X26: loadFile returns true exactly when, for every bucket, the file
    svm_<i>.xml exists under the path and holds a trained model; the
    classifier's trained flag is set to the value returned. *)
Theorem loadFile_true_iff (fs : Files) (c : SVMHandClassifier) (ipath : String.string) :
  (fst (loadFile fs c ipath) = true <-> loads fs (NUM_SVMS c) ipath) /\
  isTrained (snd (loadFile fs c ipath)) = fst (loadFile fs c ipath).
Proof. exact (loadFile_ok_iff fs c ipath). Qed.

Lemma svm_at_loadFile (fs : Files) (c : SVMHandClassifier) (ipath : String.string) (i : Z) :
  0 <= i < NUM_SVMS c ->
  svm_at c i = nth_error (svm c) (Z.to_nat i) /\
  svm_at (snd (loadFile fs c ipath)) i
  = nth_error (snd (loadLoop fs (filePathOf fs ipath) (iota (NUM_SVMS c)) (svm c)))
              (Z.to_nat i).
Proof.
  intros Hi. destruct (loadFile_fields fs c ipath) as (_ & E2 & _ & _ & E5).
  unfold svm_at. rewrite E2, E5.
  replace ((0 <=? i) && (i <? NUM_SVMS c)) with true; [now split|].
  symmetry. apply andb_true_iff. split; [apply Z.leb_le|apply Z.ltb_lt]; lia.
Qed.

Lemma loadFile_array (fs : Files) (c : SVMHandClassifier) (ipath : String.string) :
  zlen (svm c) = NUM_SVMS c ->
  let c' := snd (loadFile fs c ipath) in
  let file i := SVM_load fs (loadPath fs (filePathOf fs ipath) i) in
  NUM_SVMS c' = NUM_SVMS c /\ zlen (svm c') = NUM_SVMS c /\
  (forall i, 0 <= i < NUM_SVMS c ->
     svm_at c' i = svm_at c i \/ svm_at c' i = Some (file i)) /\
  (fst (loadFile fs c ipath) = true ->
   forall i, 0 <= i < NUM_SVMS c -> svm_at c' i = Some (file i)).
Proof.
  intros Hlen. cbv zeta.
  destruct (loadFile_fields fs c ipath) as (E1 & E2 & _ & _ & E5).
  split; [exact E2|]. split; [|split].
  - rewrite E5. unfold zlen in *. now rewrite loadLoop_length.
  - intros i Hi. destruct (svm_at_loadFile fs c ipath i Hi) as (-> & ->).
    destruct (loadLoop_slots fs (filePathOf fs ipath) _ (iota_nonneg (NUM_SVMS c))
                (svm c) (Z.to_nat i)) as [E | E]; [now left|right].
    rewrite E. now rewrite Z2Nat.id by lia.
  - intros Ht i Hi. destruct (svm_at_loadFile fs c ipath i Hi) as (_ & ->).
    apply loadLoop_installs.
    + apply iota_nonneg.
    + now rewrite <- E1.
    + now apply in_iota.
    + unfold zlen in Hlen. lia.
Qed.

(** X27: loadFile keeps the size of the model array; afterwards every
    slot holds either the model it held before or the model loaded from its
    own file, and after a successful load every slot holds the model of its
    file. *)
Theorem loadFile_slots (fs : Files) (c : SVMHandClassifier) (ipath : String.string) :
  zlen (svm c) = NUM_SVMS c ->
  let c' := snd (loadFile fs c ipath) in
  let file i := SVM_load fs (loadPath fs (filePathOf fs ipath) i) in
  NUM_SVMS c' = NUM_SVMS c /\ zlen (svm c') = NUM_SVMS c /\
  (forall i, 0 <= i < NUM_SVMS c ->
     svm_at c' i = svm_at c i \/ svm_at c' i = Some (file i)) /\
  (fst (loadFile fs c ipath) = true ->
   forall i, 0 <= i < NUM_SVMS c -> svm_at c' i = Some (file i)).
Proof. exact (loadFile_array fs c ipath). Qed.

(** X28: after a failed loadFile every call of classify throws
    ClassifierNotTrainedException; after a successful one, classify on a
    feature vector whose finger count n is at least one returns the
    prediction, clamped to [0, 1], of the model read from the file
    svm_<k>.xml with k = min(n - 1, NUM_SVMS - 1). *)
Theorem loadFile_then_classify (fs : Files) (c : SVMHandClassifier)
    (ipath : String.string) (features : list float) :
  zlen (svm c) = NUM_SVMS c -> 1 <= NUM_SVMS c ->
  1 <= int_of_double (at_ 0%float features 0) -> features <> [] ->
  let c' := snd (loadFile fs c ipath) in
  let k := Z.min (int_of_double (at_ 0%float features 0) - 1) (NUM_SVMS c - 1) in
  let nFeat := Z.min (zlen features) (MAX_FEATURES c) in
  let samples := map to_float32 (firstn (Z.to_nat (nFeat - 1)) (tl features)) in
  (fst (loadFile fs c ipath) = false ->
   classify c' features = Throws ClassifierNotTrainedException) /\
  (fst (loadFile fs c ipath) = true ->
   classify c' features
   = Returns (std_max (std_min 1.0
        (predict (SVM_load fs (loadPath fs (filePathOf fs ipath) k)) samples)) 0.0)%float).
Proof.
  intros Hlen Hn Hcount Hne. cbv zeta.
  destruct (loadFile_fields fs c ipath) as (E1 & E2 & E3 & E4 & E5).
  destruct (loadFile_array fs c ipath Hlen) as (_ & _ & _ & Hall).
  split; intros Ht; unfold classify; rewrite E4, <- E1, Ht; cbn [negb]; [reflexivity|].
  assert (Hz : (zlen features =? 0) = false).
  { apply Z.eqb_neq. destruct features; [congruence|]. unfold zlen. cbn [length]. lia. }
  rewrite Hz. unfold getSVMIdx, getSVMIdx_int. rewrite E2, E3.
  rewrite Hall by (exact Ht || lia).
  assert (Em : (if MAX_FEATURES c <? zlen features then MAX_FEATURES c else zlen features)
               = Z.min (zlen features) (MAX_FEATURES c)).
  { destruct (MAX_FEATURES c <? zlen features) eqn:E;
      [apply Z.ltb_lt in E|apply Z.ltb_ge in E]; lia. }
  now rewrite Em.
Qed.

Lemma loadFile_false (fs : Files) (c : SVMHandClassifier) (ipath : String.string) :
  ~ loads fs (NUM_SVMS c) ipath -> fst (loadFile fs c ipath) = false.
Proof.
  intros H. apply not_true_is_false. intros E. apply H.
  now apply (proj1 (loadFile_ok_iff fs c ipath)).
Qed.

Lemma tryPaths_skips (fs : Files) (pre tail : list String.string) :
  forall c,
    zlen (svm c) = NUM_SVMS c ->
    (forall q, In q pre -> q <> sentinel /\ ~ loads fs (NUM_SVMS c) q) ->
    exists c1, tryPaths fs c (pre ++ tail) = tryPaths fs c1 tail /\
               NUM_SVMS c1 = NUM_SVMS c /\ zlen (svm c1) = NUM_SVMS c /\
               (pre <> [] -> trained c1 = false) /\ (pre = [] -> c1 = c).
Proof.
  induction pre as [|q pre IH]; intros c Hlen Hpre.
  - exists c. repeat split; try assumption. congruence.
  - destruct (Hpre q (or_introl eq_refl)) as (Hq & Hnl).
    cbn [app tryPaths]. apply String.eqb_neq in Hq. rewrite Hq.
    pose proof (loadFile_false fs c q Hnl) as Hf.
    destruct (loadFile_fields fs c q) as (_ & E2 & _ & E4 & _).
    destruct (loadFile_array fs c q Hlen) as (_ & L & _).
    destruct (loadFile fs c q) as (ok, c0) eqn:El. cbn [fst snd] in *. subst ok.
    destruct (IH c0) as (c1 & T & N & Z1 & Tr & Id).
    + congruence.
    + intros q' Hq'. rewrite E2. apply Hpre. now right.
    + exists c1. split; [exact T|]. split; [congruence|]. split; [congruence|].
      split; [|discriminate]. intros _.
      destruct pre as [|q' pre'].
      * rewrite (Id eq_refl). rewrite E4.
        pose proof (loadFile_fields fs c q) as F. rewrite El in F. cbn [fst] in F.
        destruct F as (F & _). congruence.
      * apply Tr. discriminate.
Qed.

Lemma initSVMs_fields (fs : Files) (c : SVMHandClassifier) :
  0 <= NUM_SVMS c ->
  NUM_SVMS (initSVMs fs c) = NUM_SVMS c /\
  zlen (svm (initSVMs fs c)) = NUM_SVMS c /\
  trained (initSVMs fs c) = trained c.
Proof.
  intros H. unfold initSVMs. cbn. repeat split.
  unfold zlen. rewrite length_map. fold (zlen (iota (NUM_SVMS c))). now apply zlen_iota.
Qed.

(** X29: the constructor taking a list of paths settles on the first path,
    before the end marker, from which every bucket loads: the classifier is
    then trained and every slot holds the model of that path's file,
    whatever the failed attempts before it left in the array. *)
Theorem constructFrom_first_loadable (fs : Files) (c : SVMHandClassifier)
    (pre : list String.string) (p : String.string) (rest : list String.string) :
  0 <= NUM_SVMS c ->
  (forall q, In q pre -> q <> sentinel /\ ~ loads fs (NUM_SVMS c) q) ->
  p <> sentinel -> loads fs (NUM_SVMS c) p ->
  exists c', constructFrom fs c (pre ++ p :: rest) = Some c' /\
             isTrained c' = true /\
             forall i, 0 <= i < NUM_SVMS c ->
               svm_at c' i = Some (SVM_load fs (loadPath fs (filePathOf fs p) i)).
Proof.
  intros Hn Hpre Hp Hl. unfold constructFrom.
  destruct (initSVMs_fields fs c Hn) as (I1 & I2 & _).
  destruct (tryPaths_skips fs pre (p :: rest) (initSVMs fs c)) as (c1 & T & N & Z1 & _).
  - congruence.
  - now rewrite I1.
  - rewrite T. cbn [tryPaths]. apply String.eqb_neq in Hp. rewrite Hp.
    assert (Hl1 : loads fs (NUM_SVMS c1) p) by (rewrite N, I1; exact Hl).
    pose proof (proj1 (loadFile_ok_iff fs c1 p)) as Hiff.
    apply Hiff in Hl1.
    destruct (loadFile_fields fs c1 p) as (F1 & _ & _ & F4 & _).
    assert (Z2 : zlen (svm c1) = NUM_SVMS c1) by congruence.
    destruct (loadFile_array fs c1 p Z2) as (_ & _ & _ & Hall).
    destruct (loadFile fs c1 p) as (ok, c') eqn:El. cbn [fst snd] in *. subst ok.
    exists c'. split; [reflexivity|]. split.
    + unfold isTrained. congruence.
    + intros i Hi. apply Hall; [reflexivity|]. rewrite N, I1. exact Hi.
Qed.

(** X30: when no path before the end marker loads completely, the
    constructor leaves the classifier untrained, so that classify throws;
    without an end marker the loop runs off the end of the array. *)
Theorem constructFrom_none_loadable (fs : Files) (c : SVMHandClassifier)
    (pre rest : list String.string) (features : list float) :
  0 <= NUM_SVMS c -> pre <> [] ->
  (forall q, In q pre -> q <> sentinel /\ ~ loads fs (NUM_SVMS c) q) ->
  (exists c', constructFrom fs c (pre ++ sentinel :: rest) = Some c' /\
              isTrained c' = false /\
              classify c' features = Throws ClassifierNotTrainedException) /\
  constructFrom fs c pre = None.
Proof.
  intros Hn Hne Hpre. unfold constructFrom.
  destruct (initSVMs_fields fs c Hn) as (I1 & I2 & _).
  split.
  - destruct (tryPaths_skips fs pre (sentinel :: rest) (initSVMs fs c))
      as (c1 & T & _ & _ & Tr & _).
    + congruence.
    + now rewrite I1.
    + rewrite T. cbn [tryPaths]. rewrite String.eqb_refl.
      exists c1. split; [reflexivity|]. specialize (Tr Hne).
      split; [exact Tr|]. unfold classify. now rewrite Tr.
  - destruct (tryPaths_skips fs pre [] (initSVMs fs c)) as (c1 & T & _).
    + congruence.
    + now rewrite I1.
    + rewrite app_nil_r in T. rewrite T. reflexivity.
Qed.

End LoaderFacts.

(** ** Witnesses on the sample data *)

Lemma forallb_iota (f : Z -> bool) (n : Z) :
  forallb f (iota n) = true -> forall k, 0 <= k < n -> f k = true.
Proof. intros H k Hk. rewrite forallb_forall in H. apply H. now apply in_iota. Qed.

Lemma dedup_keeps_top_witness :
  exists i, In i (dedupKept Sample.util (map c_xyz Sample.closeCands) (fingerDistMin DEFAULT)) /\
            forall j, 0 <= j < zlen (map c_xyz Sample.closeCands) ->
                      dedupSkip (map c_xyz Sample.closeCands) i j = true.
Proof.
  apply dedup_keeps_top.
  - discriminate.
  - intros j Hj. change (zlen (map c_xyz Sample.closeCands)) with 2 in Hj.
    assert (E : j = 0 \/ j = 1) by lia.
    destruct E as [-> | ->]; vm_compute; discriminate.
  - vm_compute. reflexivity.
Defined.

Lemma dedup_separates_witness :
  (dedupSkip (fingersXYZ Sample.twoFingers) 0 1 = false /\
   (euclideanDistance Sample.util (at_ vzero (fingersXYZ Sample.twoFingers) 0)
                      (at_ vzero (fingersXYZ Sample.twoFingers) 1)
    <? fingerDistMin DEFAULT)%float = false) \/
  (dedupSkip (fingersXYZ Sample.twoFingers) 1 0 = false /\
   (euclideanDistance Sample.util (at_ vzero (fingersXYZ Sample.twoFingers) 1)
                      (at_ vzero (fingersXYZ Sample.twoFingers) 0)
    <? fingerDistMin DEFAULT)%float = false).
Proof.
  apply dedup_separates.
  - vm_compute. now left.
  - vm_compute. right. now left.
  - discriminate.
  - vm_compute. discriminate.
  - vm_compute. discriminate.
Defined.

Lemma accepted_wrist_witness :
  exists wristL wristR,
    0 <= wristL < zlen (contour Sample.accepted) /\
    0 <= wristR < zlen (contour Sample.accepted) /\
    nearCenter Sample.util Sample.accepted wristL = true /\
    nearCenter Sample.util Sample.accepted wristR = true /\
    wristIJ Sample.accepted
    = wristIJ Sample.hand ++ [at_ origin (contour Sample.accepted) wristL;
                              at_ origin (contour Sample.accepted) wristR] /\
    wristXYZ Sample.accepted
    = wristXYZ Sample.hand ++ [wristPoint Sample.util Sample.accepted wristL;
                               wristPoint Sample.util Sample.accepted wristR] /\
    (wristWidthOf Sample.util Sample.accepted wristL wristR
     <? wristWidthMin (params Sample.accepted))%float = false /\
    (wristWidthMax (params Sample.accepted)
     <? wristWidthOf Sample.util Sample.accepted wristL wristR)%float = false.
Proof.
  apply (accepted_wrist Sample.util Sample.classifier false Sample.hand Sample.accepted).
  vm_compute. reflexivity.
Defined.

Lemma no_wrist_rejects_witness :
  checkForHand Sample.util Sample.classifier false Sample.handFarPalm
  = Done false (fst (fst (locatePalm Sample.util Sample.handFarPalm))).
Proof.
  apply (no_wrist_rejects Sample.util Sample.classifier false Sample.handFarPalm).
  - vm_compute. discriminate.
  - vm_compute. discriminate.
  - intros k Hk.
    assert (E : zlen (contour (fst (fst (locatePalm Sample.util Sample.handFarPalm)))) = 60)
      by (vm_compute; reflexivity).
    rewrite E in Hk.
    apply negb_true_iff.
    apply (forallb_iota
             (fun k => negb (nearCenter Sample.util
                               (fst (fst (locatePalm Sample.util Sample.handFarPalm))) k))
             60); [vm_compute; reflexivity|exact Hk].
Defined.

Lemma no_defects_rejects_witness :
  exists h', checkForHand Sample2.utilNoDefects Sample.classifier false Sample.hand
             = Done false h'.
Proof.
  apply no_defects_rejects.
  - vm_compute. reflexivity.
  - vm_compute. discriminate.
Defined.

Lemma accepted_confidence_witness :
  isHand Sample.accepted = true /\
  (0 <=? svmConfidence Sample.accepted)%float = true /\
  (svmConfidence Sample.accepted <=? 1)%float = true /\
  (svmConfidence Sample.accepted <? handSVMConfidenceThresh (params Sample.hand))%float
  = false.
Proof.
  apply (accepted_confidence Sample.util Sample.classifier false Sample.hand Sample.accepted).
  - vm_compute. reflexivity.
  - reflexivity.
  - reflexivity.
Defined.

Lemma initializeObject_valid_witness :
  isHand Sample2.initialized = true /\
  (true = true ->
   surfaceArea Sample2.initialized
   = util_surfaceArea Sample.util (fullMapSize Sample2.handInner) (points Sample2.handInner)
                      (points_xyz Sample2.handInner) (num_points Sample2.handInner) /\
   fge (surfaceArea Sample2.initialized) (handMinArea (params Sample2.handInner)) = true /\
   (surfaceArea Sample2.initialized <=? handMaxArea (params Sample2.handInner))%float = true /\
   (handRequireEdgeConnected (params Sample2.handInner) = true ->
    touchingEdge Sample2.initialized = true) /\
   1 <= getNumFingers Sample2.initialized <= 6).
Proof.
  apply (initializeObject_valid Sample.util Sample.classifier false Sample2.handInner
           Sample2.initialized true).
  - apply aligned_newHand.
  - reflexivity.
  - vm_compute. reflexivity.
Defined.

Lemma detected_finger_lengths_witness :
  let g := detectFingers Sample.util false Sample.palmLocated (mkPoint 100 100)
                         [mkVec4 20 40 30 5000] 2 58 1 in
  let len k := euclideanDistance Sample.util (at_ vzero (fingersXYZ g) k)
                                 (at_ vzero (defectsXYZ g) k) in
  (2 <= getNumFingers g ->
   forall k, 0 <= k < getNumFingers g ->
     (len k <? fingerLenMax (params Sample.palmLocated))%float = true /\
     (fingerLenMin (params Sample.palmLocated) <? len k)%float = true /\
     (v2 (at_ vzero (fingersXYZ g) k) =? 0)%float = false) /\
  (getNumFingers g < 2 ->
   getNumFingers g = 0 \/
   (getNumFingers g = 1 /\
    (singleFingerLenMax (params Sample.palmLocated) <? len 0%Z)%float = false /\
    (len 0%Z <? singleFingerLenMin (params Sample.palmLocated))%float = false)).
Proof.
  apply (detected_finger_lengths Sample.util false Sample.palmLocated).
  - vm_compute. reflexivity.
  - vm_compute. reflexivity.
Defined.

Lemma selectContacts_lowest_witness :
  let h := Sample.palmLocated in
  let c := fst (selectContacts Sample.util h) in
  snd (selectContacts Sample.util h) = c /\
  (contour h = [] -> c = -1) /\
  (contour h <> [] ->
   0 <= c < zlen (contour h) /\
   (forall i, 0 <= i < zlen (contour h) ->
      py (at_ origin (contour h) i) <= py (at_ origin (contour h) c)) /\
   (forall i, 0 <= i < c ->
      py (at_ origin (contour h) i) < py (at_ origin (contour h) c))).
Proof.
  apply (selectContacts_lowest Sample.util Sample.palmLocated).
  vm_compute. reflexivity.
Defined.

Lemma checkEdgeConnected_flags_witness :
  exists h',
    checkEdgeConnected Sample.hand = Some h' /\
    h' = set_rightEdgeConnected (rightEdgeConnected h')
           (set_leftEdgeConnected (leftEdgeConnected h') Sample.hand) /\
    (leftEdgeConnected Sample.hand = true -> leftEdgeConnected h' = true) /\
    (rightEdgeConnected Sample.hand = true -> rightEdgeConnected h' = true) /\
    ((forall r c, validAt (xyzMap Sample.hand) r c = false) ->
     leftEdgeConnected h' = leftEdgeConnected Sample.hand /\
     rightEdgeConnected h' = rightEdgeConnected Sample.hand).
Proof.
  apply checkEdgeConnected_flags. split; vm_compute; discriminate.
Defined.

Lemma leftEdge_sound_witness :
  leftEdgeConnected Sample2.edgeChecked = true.
Proof.
  apply (leftEdge_sound Sample.hand Sample2.edgeChecked).
  - vm_compute. reflexivity.
  - exists 0. vm_compute. repeat split; discriminate.
Defined.

Lemma loads_models : loads SampleFiles.files 4 SampleFiles.modelsDir.
Proof.
  intros i Hi.
  assert (E : i = 0 \/ i = 1 \/ i = 2 \/ i = 3) by lia.
  destruct E as [-> | [-> | [-> | ->]]]; split; vm_compute; reflexivity.
Qed.

Lemma loads_missing : ~ loads SampleFiles.files 4 SampleFiles.missingDir.
Proof.
  intros H. destruct (H 0) as (H1 & _); [lia|]. vm_compute in H1. discriminate.
Qed.

Lemma loadFile_slots_witness :
  let c' := snd (Loader.loadFile SampleFiles.files Sample2.blank SampleFiles.modelsDir) in
  let file i := Loader.SVM_load SampleFiles.files
                  (Loader.loadPath SampleFiles.files
                     (Loader.filePathOf SampleFiles.files SampleFiles.modelsDir) i) in
  NUM_SVMS c' = NUM_SVMS Sample2.blank /\ zlen (svm c') = NUM_SVMS Sample2.blank /\
  (forall i, 0 <= i < NUM_SVMS Sample2.blank ->
     svm_at c' i = svm_at Sample2.blank i \/ svm_at c' i = Some (file i)) /\
  (fst (Loader.loadFile SampleFiles.files Sample2.blank SampleFiles.modelsDir) = true ->
   forall i, 0 <= i < NUM_SVMS Sample2.blank -> svm_at c' i = Some (file i)).
Proof.
  apply (loadFile_slots SampleFiles.files Sample2.blank SampleFiles.modelsDir).
  vm_compute. reflexivity.
Defined.

Lemma loadFile_then_classify_witness :
  classify (snd (Loader.loadFile SampleFiles.files Sample2.blank SampleFiles.modelsDir))
           Sample2.features
  = Returns 0.8%float.
Proof.
  apply (loadFile_then_classify SampleFiles.files Sample2.blank SampleFiles.modelsDir
           Sample2.features).
  - vm_compute. reflexivity.
  - vm_compute. discriminate.
  - vm_compute. discriminate.
  - discriminate.
  - vm_compute. reflexivity.
Defined.

Lemma constructFrom_first_loadable_witness :
  exists c', Loader.constructFrom SampleFiles.files Sample.untrained
               ([SampleFiles.missingDir] ++ SampleFiles.modelsDir :: [Loader.sentinel])
             = Some c' /\
             isTrained c' = true /\
             forall i, 0 <= i < NUM_SVMS Sample.untrained ->
               svm_at c' i
               = Some (Loader.SVM_load SampleFiles.files
                         (Loader.loadPath SampleFiles.files
                            (Loader.filePathOf SampleFiles.files SampleFiles.modelsDir) i)).
Proof.
  apply constructFrom_first_loadable.
  - vm_compute. discriminate.
  - intros q [<- | []]. split; [vm_compute; discriminate|exact loads_missing].
  - vm_compute. discriminate.
  - exact loads_models.
Defined.

Lemma constructFrom_none_loadable_witness :
  (exists c', Loader.constructFrom SampleFiles.files Sample.untrained
                ([SampleFiles.missingDir] ++ Loader.sentinel :: [])
              = Some c' /\
              isTrained c' = false /\
              classify c' Sample2.features = Throws ClassifierNotTrainedException) /\
  Loader.constructFrom SampleFiles.files Sample.untrained [SampleFiles.missingDir] = None.
Proof.
  apply constructFrom_none_loadable.
  - vm_compute. discriminate.
  - discriminate.
  - intros q [<- | []]. split; [vm_compute; discriminate|exact loads_missing].
Defined.

(** ** The sanitising pass, on the returned vector *)

Lemma leb_of_ltb (a b : float) : (a <? b)%float = true -> (a <=? b)%float = true.
Proof.
  rewrite ltb_spec, leb_spec. unfold SFltb, SFleb.
  destruct (SFcompare (Prim2SF a) (Prim2SF b)) as [[]|]; congruence.
Qed.

Lemma leb_of_eqb (a b : float) : (a =? b)%float = true -> (b <=? a)%float = true.
Proof.
  intros E. apply eqb_rank in E. destruct E as (Ha & Hb & Hr).
  assert (E' : (b =? a)%float = true) by (apply eqb_rank; repeat split; congruence).
  revert E'. rewrite eqb_spec, leb_spec. unfold SFeqb, SFleb.
  destruct (SFcompare (Prim2SF b) (Prim2SF a)) as [[]|]; congruence.
Qed.

Lemma isnan_notnan (x : float) : isnan x = false -> notnan x.
Proof.
  unfold isnan. intros E. apply negb_false_iff in E.
  apply eqb_rank in E. destruct E as (H & _). exact H.
Qed.

Lemma notnan_FLT_MAX : notnan FLT_MAX.
Proof. unfold notnan. vm_compute. discriminate. Qed.

(** Below the sentinel, and not minus infinity, means finite. *)
Lemma finite_below_sentinel (x : float) :
  isnan x = false -> fge x FLT_MAX = false -> (x =? neg_infinity)%float = false ->
  is_finite x = true /\ (x <? FLT_MAX)%float = true.
Proof.
  intros Hn Hm Hi. split.
  - unfold is_finite, is_nan, is_infinity. fold (isnan x). rewrite Hn. cbn [orb].
    apply negb_true_iff.
    revert Hm Hi. unfold fge. rewrite leb_spec, !eqb_spec, abs_spec.
    assert (Hx : notnan x) by now apply isnan_notnan.
    unfold notnan in Hx.
    destruct (Prim2SF x) as [s|s| |s m e]; try destruct s; try congruence;
      vm_compute; congruence.
  - destruct (float_trichotomy x FLT_MAX (isnan_notnan x Hn) notnan_FLT_MAX)
      as [H | [H | H]]; [exact H| |].
    + apply leb_of_eqb in H. unfold fge in Hm. congruence.
    + apply leb_of_ltb in H. unfold fge in Hm. congruence.
Qed.

Lemma sanitize1_finite (x : float) :
  (x =? neg_infinity)%float = false ->
  is_finite (sanitize1 x) = true /\ (sanitize1 x <? FLT_MAX)%float = true.
Proof.
  intros Hi.
  destruct (sanitize1_cases x) as [(_ & ->) | [(_ & _ & ->) | (Hn & Hm & ->)]].
  - split; reflexivity.
  - split; reflexivity.
  - now apply finite_below_sentinel.
Qed.

(** The pass leaves minus infinity, and nothing else that is not finite. *)
Lemma sanitize1_finite_iff (x : float) :
  is_finite (sanitize1 x) = true <-> (x =? neg_infinity)%float = false.
Proof.
  split; [|intros H; now apply sanitize1_finite].
  intros H. apply not_true_is_false. intros E.
  assert (S : sanitize1 x = x /\ is_finite x = false).
  { revert E. unfold sanitize1, isnan, fge, is_finite, is_nan, is_infinity.
    rewrite leb_spec, !eqb_spec, abs_spec.
    destruct (Prim2SF x) as [s|s| |s m e]; try destruct s; vm_compute;
      try discriminate. intros _. split; reflexivity. }
  destruct S as (S1 & S2). rewrite S1 in H. congruence.
Qed.

Section SanitizedVector.

Variable U : Util.

(** With fingers, the vector returned is the sanitised [rawFeatures]. *)
Lemma extractHandFeatures_raw (hand : Hand) (dm : Mat) (tl : Point2i) (scale : float)
    (full_wid : Z) :
  getNumFingers hand <> 0 ->
  extractHandFeatures U hand dm tl scale full_wid = sanitize (rawFeatures U hand dm).
Proof.
  intros Hn. unfold extractHandFeatures, rawFeatures.
  apply Z.eqb_neq in Hn. now rewrite Hn.
Qed.

(** C9 (as amended): where [raw] is the feature vector as the sanitising
    pass finds it, the vector [extractHandFeatures] returns for a hand with
    fingers has, entry by entry, 1.0 where [raw] has a NaN, 100.0 where
    [raw] has another value [>= FLT_MAX] (plus infinity included), and the
    entry of [raw] elsewhere; an entry returned is finite exactly when the
    entry of [raw] is not minus infinity.  So the returned vector holds no
    NaN and no value [>= FLT_MAX]; and unless an entry of [raw] is minus
    infinity, it holds only finite values below FLT_MAX. *)
Theorem extractHandFeatures_sanitized (hand : Hand) (dm : Mat) (tl : Point2i)
    (scale : float) (full_wid : Z) :
  let raw := rawFeatures U hand dm in
  let out := extractHandFeatures U hand dm tl scale full_wid in
  (getNumFingers hand <> 0 ->
   length out = length raw /\
   forall i, (i < length raw)%nat ->
     nth i out 0%float =
       let x := nth i raw 0%float in
       if isnan x then 1.0%float
       else if fge x FLT_MAX then 100.0%float else x) /\
  (getNumFingers hand <> 0 ->
   forall i, (i < length raw)%nat ->
     (is_finite (nth i out 0%float) = true <->
      (nth i raw 0%float =? neg_infinity)%float = false)) /\
  Forall (fun y => isnan y = false /\ fge y FLT_MAX = false) out /\
  ((forall x, In x raw -> (x =? neg_infinity)%float = false) ->
   Forall (fun y => is_finite y = true /\ (y <? FLT_MAX)%float = true) out).
Proof.
  cbv zeta. split; [|split; [|split]].
  - intros Hn. rewrite (extractHandFeatures_raw hand dm tl scale full_wid Hn).
    unfold sanitize. rewrite length_map. split; [reflexivity|].
    intros i Hi.
    rewrite (nth_indep _ 0%float (sanitize1 0%float)) by (rewrite length_map; exact Hi).
    rewrite map_nth. reflexivity.
  - intros Hn i Hi. rewrite (extractHandFeatures_raw hand dm tl scale full_wid Hn).
    unfold sanitize.
    rewrite (nth_indep _ 0%float (sanitize1 0%float)) by (rewrite length_map; exact Hi).
    rewrite map_nth. apply sanitize1_finite_iff.
  - destruct (Z.eq_dec (getNumFingers hand) 0) as [E0 | Hn].
    + unfold extractHandFeatures. rewrite E0. repeat constructor.
    + rewrite (extractHandFeatures_raw hand dm tl scale full_wid Hn).
      unfold sanitize. apply Forall_forall. intros y Hy.
      apply in_map_iff in Hy. destruct Hy as (x & <- & _).
      apply sanitize1_clean.
  - intros Hraw.
    destruct (Z.eq_dec (getNumFingers hand) 0) as [E0 | Hn].
    + unfold extractHandFeatures. rewrite E0. repeat constructor.
    + rewrite (extractHandFeatures_raw hand dm tl scale full_wid Hn).
      unfold sanitize. apply Forall_forall. intros y Hy.
      apply in_map_iff in Hy. destruct Hy as (x & <- & Hx).
      apply sanitize1_finite. now apply Hraw.
Qed.

End SanitizedVector.

(** C9 (as stated) fails: a hand all of whose points have finite
    coordinates, one of them 2^100 away.  The single precision square in
    [computeMeanAndVariance] overflows, the average distance and with it
    entry 1 of the vector is plus infinity when the sanitising pass starts,
    and the pass writes 100.0 there, not 1.0. *)
Lemma extractHandFeatures_infinity_becomes_100 :
  let raw := rawFeatures Sample.util Sample2.farHand Sample.depth in
  let out := extractHandFeatures Sample.util Sample2.farHand Sample.depth origin
                                 1%float 240 in
  Forall (fun p => is_finite (v0 p) && is_finite (v1 p) && is_finite (v2 p) = true)
         (points_xyz Sample2.farHand) /\
  nth 1 raw 0%float = infinity /\
  is_finite (nth 1 raw 0%float) = false /\
  nth 1 out 0%float = 100.0%float /\
  (nth 1 out 0%float =? 1.0)%float = false.
Proof.
  cbv zeta. split; [repeat constructor|].
  repeat split; vm_compute; reflexivity.
Qed.

(** ** Deduplication of a close pair *)

Lemma lex_lt_asym (a b : Z * Z * Z) : lex_lt a b -> ~ lex_lt b a /\ a <> b.
Proof.
  destruct a as [[a1 a2] a3], b as [[b1 b2] b3]. unfold lex_lt.
  intros H. split; [lia|]. intros [= -> -> ->]. lia.
Qed.

Lemma below_skip (tips : list Vec3f) (i j : Z) :
  below tips i j ->
  notnan (v1 (at_ vzero tips i)) /\ notnan (v1 (at_ vzero tips j)) /\
  i <> j /\ dedupSkip tips i j = false /\ dedupSkip tips j i = true.
Proof.
  unfold below. cbv zeta. intros H.
  assert (N : notnan (v1 (at_ vzero tips i)) /\ notnan (v1 (at_ vzero tips j))).
  { destruct H as [H | (H & _)]; [apply ltb_rank in H|apply eqb_rank in H]; tauto. }
  destruct N as (Ni & Nj). split; [exact Ni|]. split; [exact Nj|].
  destruct H as [H | (H & Hij)].
  - apply ltb_rank in H. destruct H as (_ & _ & H).
    destruct (lex_lt_asym _ _ H) as (H1 & H2).
    split; [intros ->; now apply H2|]. split.
    + apply not_true_is_false. intros E. apply dedupSkip_rank in E; try assumption.
      destruct E as [E | (E & _)]; [now apply H1|congruence].
    + apply dedupSkip_rank; try assumption. now left.
  - apply eqb_rank in H. destruct H as (_ & _ & H).
    split; [lia|]. split.
    + apply not_true_is_false. intros E. apply dedupSkip_rank in E; try assumption.
      destruct E as [E | (_ & E)]; [|lia].
      rewrite H in E. destruct (lex_lt_asym _ _ E) as (_ & E'). now apply E'.
    + apply dedupSkip_rank; try assumption. right. split; [congruence|lia].
Qed.

Section ClosePair.

Variable U : Util.

(** C8 (as amended): a candidate is dropped exactly when some candidate
    that the inner loop does not pass over -- one whose 3D y coordinate is
    not smaller and which, on equal y, comes later in the list -- is closer
    to it than [fingerDistMin] (or when [fingerDistMin] exceeds DBL_MAX).
    So of two candidates [i] and [j] closer than [fingerDistMin], with [i]
    below [j] (smaller y, or equal y and earlier in the list), [i] is
    dropped; [j] is retained when [fingerDistMin] does not exceed DBL_MAX
    and no third candidate counts against [j] in the same way, and so it
    is whenever the two are the only candidates. *)
Theorem dedupDrops_iff (tips : list Vec3f) (fingerDistMin : float) :
  (forall i,
     dedupDrops U tips fingerDistMin i = true <->
     (DBL_MAX <? fingerDistMin)%float = true \/
     exists j, 0 <= j < zlen tips /\ tooClose U tips fingerDistMin i j) /\
  (forall i j,
     0 <= i < zlen tips -> 0 <= j < zlen tips ->
     below tips i j ->
     (euclideanDistance U (at_ vzero tips i) (at_ vzero tips j) <? fingerDistMin)%float
     = true ->
     dedupDrops U tips fingerDistMin i = true /\
     ((DBL_MAX <? fingerDistMin)%float = false ->
      (forall k, 0 <= k < zlen tips -> k <> i -> k <> j ->
                 ~ tooClose U tips fingerDistMin j k) ->
      dedupDrops U tips fingerDistMin j = false) /\
     ((DBL_MAX <? fingerDistMin)%float = false -> zlen tips = 2 ->
      dedupKept U tips fingerDistMin = [j])).
Proof.
  split; [intros i; apply dedupDrops_tooClose|].
  intros i j Hi Hj Hb Hd.
  destruct (below_skip tips i j Hb) as (Ni & Nj & Hne & Sij & Sji).
  assert (Di : dedupDrops U tips fingerDistMin i = true).
  { apply dedupDrops_tooClose. right. exists j. split; [exact Hj|]. now split. }
  assert (Dj : (DBL_MAX <? fingerDistMin)%float = false ->
               (forall k, 0 <= k < zlen tips -> k <> i -> k <> j ->
                          ~ tooClose U tips fingerDistMin j k) ->
               dedupDrops U tips fingerDistMin j = false).
  { intros Hmax Hk. apply not_true_is_false. intros E.
    apply dedupDrops_tooClose in E. destruct E as [E | (k & Hkr & Hc)]; [congruence|].
    destruct (Z.eq_dec k i) as [-> | Hki].
    - destruct Hc as (Hc & _). congruence.
    - destruct (Z.eq_dec k j) as [-> | Hkj].
      + destruct Hc as (Hc & _). rewrite (dedupSkip_refl tips j Nj) in Hc. discriminate.
      + exact (Hk k Hkr Hki Hkj Hc). }
  split; [exact Di|]. split; [exact Dj|].
  intros Hmax H2.
  assert (Dj' : dedupDrops U tips fingerDistMin j = false).
  { apply Dj; [exact Hmax|]. intros k Hk Hki Hkj. lia. }
  unfold dedupKept. rewrite H2. change (iota 2) with [0; 1].
  assert (C : (i = 0 /\ j = 1) \/ (i = 1 /\ j = 0)) by lia.
  destruct C as [(-> & ->) | (-> & ->)]; cbn [filter]; rewrite Di, Dj'; reflexivity.
Qed.

End ClosePair.

(** Three candidates one above the other, 5 mm apart: the middle one is
    the upper one of the lower pair, and is dropped all the same, because
    the top candidate counts against it. *)
Example dedup_chain_keeps_top :
  let tips := [Sample.depthAt 45 100; Sample.depthAt 40 100; Sample.depthAt 35 100] in
  map (dedupDrops Sample.util tips (fingerDistMin DEFAULT)) [0; 1; 2] = [true; true; false] /\
  dedupKept Sample.util tips (fingerDistMin DEFAULT) = [2].
Proof. split; vm_compute; reflexivity. Qed.
